(** * Identity-indexed columnar storage of starsim: model and properties

    The development embeds the storage engine of the repository:
    - [Np]: the part of numpy the engine relies on (checked subscripts with
      wrap-around of negative indices, index arrays, masks, slices,
      broadcasting assignment), with Python exceptions as values, and
      the unchecked subscripts of the kernels compiled by numba;
    - [States]: [starsim/states.py] ([FusedArray], [DynamicView], [State]);
    - [RemovingPeople]: [removing_people.py] (the earlier [State] and the
      [DynamicPeople] coordinator, whose constructor raises: populations
      are put together attribute by attribute);
    - [Stisim]: [BasePeople._grow] and [People.update_demographics] of
      [stisim/people.py], and [step], [run] and [finalize] of the [Sim]
      of [stisim/sim.py].
    The properties of the specification follow the definitions, and
    further properties of the code follow those. *)

From stdpp Require Import base numbers list strings pretty gmap.

Local Open Scope Z_scope.

(** ** Python exceptions and fallible computations *)

Inductive exn : Type :=
  | IndexError (msg : string)
  | ValueError (msg : string)
  | AssertionError (msg : string)
  | TypeError (msg : string)
  | AttributeError (msg : string)
  | NameError (msg : string)
  | Exception (msg : string)
  | OutOfBounds (msg : string).

(** [OutOfBounds] is not an exception of Python. It marks a subscript out
    of range inside a kernel compiled by numba ([@nb.njit]), which does
    not check the bounds of an array: the kernel reads or writes memory
    outside the array, no handler catches that, and what the program
    returns or stores from there on is not defined. *)

(** The errors of the specification are classes of these: a missing
    identifier surfaces as an [IndexError], a mismatch of dimensions as a
    [ValueError]. *)
Definition IdentifierNotFound (e : exn) : Prop :=
  match e with IndexError _ => True | _ => False end.

Definition DimensionMismatch (e : exn) : Prop :=
  match e with ValueError _ => True | _ => False end.

Inductive res (A : Type) : Type :=
  | Ok (a : A)
  | Err (e : exn).
Arguments Ok {A} a.
Arguments Err {A} e.

Definition bind {A B} (m : res A) (k : A → res B) : res B :=
  match m with Ok a => k a | Err e => Err e end.

Notation "'try' x := m 'in' k" := (bind m (λ x, k))
  (at level 10, x name, m at level 100, k at level 200, only parsing).

Fixpoint mapR {A B} (f : A → res B) (l : list A) : res (list B) :=
  match l with
  | [] => Ok []
  | a :: l' => try b := f a in try bs := mapR f l' in Ok (b :: bs)
  end.

(** ** numpy *)
Module Np.

(** [np.iinfo(int).max], the flag of [starsim.utils] and of
    [removing_people.py] for an identifier that has no position. *)
Definition INT_NAN : Z := 9223372036854775807.

(** [a in b] on strings. *)
Fixpoint contains (needle hay : string) : bool :=
  String.prefix needle hay ||
  match hay with
  | EmptyString => false
  | String _ hay' => contains needle hay'
  end.

Definition oob_msg (i : Z) (size : nat) : string :=
  "index " +:+ pretty i +:+ " is out of bounds for axis 0 with size " +:+ pretty size.

Arguments oob_msg : simpl never.

(** The position a subscript [i] denotes in an array of [size] elements:
    negative subscripts count from the end, anything else out of range is
    an [IndexError]. *)
Definition index (size : nat) (i : Z) : res nat :=
  if bool_decide (0 ≤ i < Z.of_nat size) then Ok (Z.to_nat i)
  else if bool_decide (- Z.of_nat size ≤ i < 0) then Ok (Z.to_nat (Z.of_nat size + i))
  else Err (IndexError (oob_msg i size)).

(** A subscript inside a kernel compiled by numba: a negative subscript
    counts from the end as in numpy, but the bounds are not checked, so
    where numpy raises an [IndexError] the kernel goes out of bounds. *)
Definition unchecked {B} (r : res B) : res B :=
  match r with
  | Err (IndexError m) => Err (OutOfBounds m)
  | _ => r
  end.

Section arrays.
Context {A : Type}.

(** [a[i]] *)
Definition getitem (a : list A) (i : Z) : res A :=
  try p := index (length a) i in
  from_option Ok (Err (IndexError (oob_msg i (length a)))) (a !! p).

(** [a[idx]] for an integer array [idx]: a new array. *)
Definition getitems (a : list A) (idx : list Z) : res (list A) :=
  mapR (getitem a) idx.

(** The right-hand side of an assignment: a scalar or an array. *)
Inductive value : Type :=
  | Scalar (v : A)
  | Array (vs : list A).

(** Broadcasting of a right-hand side to [k] targets: a scalar and a
    one-element array are repeated, another array must have [k]
    elements. *)
Definition broadcast (k : nat) (v : value) : res (list A) :=
  match v with
  | Scalar x => Ok (replicate k x)
  | Array vs =>
      if bool_decide (length vs = k) then Ok vs
      else match vs with
           | [x] => Ok (replicate k x)
           | _ => Err (ValueError
                    ("shape mismatch: could not broadcast input array from shape (" +:+
                     pretty (length vs) +:+ ",) into shape (" +:+ pretty k +:+ ",)"))
           end
  end.

(** Element-wise stores [a[ps[j]] = vs[j]], in order. *)
Definition assign (a : list A) (ps : list nat) (vs : list A) : list A :=
  foldl (λ acc pv, <[pv.1 := pv.2]> acc) a (zip ps vs).

(** [a[i] = v]: a one-element array is stored as its element, any other
    array cannot be stored in one position. *)
Definition setitem (a : list A) (i : Z) (v : value) : res (list A) :=
  try p := index (length a) i in
  match v with
  | Scalar x | Array [x] => Ok (<[p := x]> a)
  | Array _ => Err (ValueError "setting an array element with a sequence.")
  end.

(** [a[idx] = v] for an integer array [idx]. *)
Definition setitems (a : list A) (idx : list Z) (v : value) : res (list A) :=
  try vs := broadcast (length idx) v in
  try ps := mapR (index (length a)) idx in
  Ok (assign a ps vs).

(** [mask.nonzero()[0]] *)
Fixpoint nonzero_from (i : Z) (mask : list bool) : list Z :=
  match mask with
  | [] => []
  | b :: mask' => (if b then [i] else []) ++ nonzero_from (i + 1) mask'
  end.
Definition nonzero (mask : list bool) : list Z := nonzero_from 0 mask.

Definition mask_msg (size m : nat) : string :=
  "boolean index did not match indexed array along axis 0; size of axis is " +:+
  pretty size +:+ " but size of corresponding boolean axis is " +:+ pretty m.

(** [a[mask]] for a boolean array, as numpy does it itself. *)
Definition getmask (a : list A) (mask : list bool) : res (list A) :=
  if bool_decide (length mask = length a) then getitems a (nonzero mask)
  else Err (IndexError (mask_msg (length a) (length mask))).

(** [a[mask] = v] *)
Definition setmask (a : list A) (mask : list bool) (v : value) : res (list A) :=
  if bool_decide (length mask = length a) then setitems a (nonzero mask) v
  else Err (IndexError (mask_msg (length a) (length mask))).
End arrays.
Arguments value : clear implicits.

(** [slice(start, stop, step)]; [None] is an omitted bound. *)
Record slice : Type := Slice { start : option Z; stop : option Z; step : option Z }.

(** [:] *)
Definition full_slice : slice := Slice None None None.

(** [slice.indices(len)] followed by the enumeration of the positions. *)
Definition slice_positions (len : nat) (s : slice) : res (list nat) :=
  let n := Z.of_nat len in
  let st := default 1 (step s) in
  if bool_decide (st = 0) then Err (ValueError "slice step cannot be zero")
  else
    let adjust x :=
      if bool_decide (x < 0) then
        (if bool_decide (x + n < 0) then (if bool_decide (st < 0) then -1 else 0) else x + n)
      else if bool_decide (n ≤ x) then (if bool_decide (st < 0) then n - 1 else n)
      else x in
    let lo := from_option adjust (if bool_decide (st < 0) then n - 1 else 0) (start s) in
    let hi := from_option adjust (if bool_decide (st < 0) then -1 else n) (stop s) in
    let count :=
      if bool_decide (0 < st)
      then (if bool_decide (lo < hi) then (hi - lo - 1) `div` st + 1 else 0)
      else (if bool_decide (hi < lo) then (lo - hi - 1) `div` (- st) + 1 else 0) in
    Ok ((λ k, Z.to_nat (lo + k * st)) <$> seqZ 0 count).

Section slices.
Context {A : Type}.

(** [a[s]] (its elements; numpy returns a view on them). *)
Definition getslice (a : list A) (s : slice) : res (list A) :=
  try ps := slice_positions (length a) s in
  Ok (omap (λ p, a !! p) ps).

(** [a[s] = v] *)
Definition setslice (a : list A) (s : slice) (v : value A) : res (list A) :=
  try ps := slice_positions (length a) s in
  try vs := broadcast (length ps) v in
  Ok (assign a ps vs).
End slices.

(** What an array is subscripted with: an integer, an integer array, a
    boolean array, a slice, or a Python list of integers. *)
Inductive key : Type :=
  | KInt (i : Z)
  | KArray (idx : list Z)
  | KMask (mask : list bool)
  | KSlice (s : slice)
  | KList (idx : list Z).

Section subscript.
Context {A : Type}.

(** [a.__getitem__(k)] of an [ndarray] *)
Definition get (a : list A) (k : key) : res (value A) :=
  match k with
  | KInt i => try v := getitem a i in Ok (Scalar v)
  | KArray idx | KList idx => try vs := getitems a idx in Ok (Array vs)
  | KMask mask => try vs := getmask a mask in Ok (Array vs)
  | KSlice s => try vs := getslice a s in Ok (Array vs)
  end.

(** [a.__setitem__(k, v)] of an [ndarray] *)
Definition set (a : list A) (k : key) (v : value A) : res (list A) :=
  match k with
  | KInt i => setitem a i v
  | KArray idx | KList idx => setitems a idx v
  | KMask mask => setmask a mask v
  | KSlice s => setslice a s v
  end.
End subscript.

(** The outcome of a subscript used as a subscript in turn. *)
Definition as_key (v : value Z) : key :=
  match v with Scalar i => KInt i | Array idx => KArray idx end.

(** [np.atleast_1d] *)
Definition as_array {A} (v : value A) : list A :=
  match v with Scalar x => [x] | Array xs => xs end.

Definition arange (a b : Z) : list Z := seqZ a (b - a).

Definition full {A} (n : nat) (v : A) : list A := replicate n v.

(** [np.in1d(ar1, ar2)] *)
Definition in1d (ar1 ar2 : list Z) : list bool :=
  (λ x, bool_decide (x ∈ ar2)) <$> ar1.

End Np.

(** ** starsim/states.py *)
Module States.
Import Np.

(** The handler that closes [__getitem__] and [__setitem__]: an
    [IndexError] whose text shows [INT_NAN] becomes the engine's own. *)
Definition reraise (e : exn) : exn :=
  match e with
  | IndexError m =>
      if contains (pretty INT_NAN) m then IndexError "UID not present in array" else e
  | _ => e
  end.

Arguments reraise : simpl never.

Module FusedArray.
Section fused.
Context {V : Type}.

(** [values] holds the data by position, [uid] the identifier at each
    position, [_uid_map] the position of each identifier or [INT_NAN]. *)
Record t : Type := mk { values : list V; uid : list Z; _uid_map : list Z }.

(** The three kernels below are compiled by numba: their subscripts are
    [unchecked]. [_set_vals_uids_multiple] and [_set_vals_uids_single]
    compare the identifier with the size of the identity map themselves;
    [_get_vals_uids] does not. *)
Fixpoint _get_vals_uids_loop (vals : list V) (uid_map : list Z) (key : list Z)
    (i : Z) (out : list V) (new_uid_map : list Z) : res (list V * list Z) :=
  match key with
  | [] => Ok (out, new_uid_map)
  | k :: key' =>
      try idx := unchecked (getitem uid_map k) in
      if bool_decide (idx = INT_NAN) then Err (IndexError "UID not present in array")
      else
        try v := unchecked (getitem vals idx) in
        try new_uid_map' := unchecked (setitem new_uid_map k (Scalar i)) in
        _get_vals_uids_loop vals uid_map key' (i + 1) (out ++ [v]) new_uid_map'
  end.

(** Returns [(out, key, new_uid_map)], the arguments of the constructor. *)
Definition _get_vals_uids (vals : list V) (key : list Z) (uid_map : list Z) : res t :=
  try r := _get_vals_uids_loop vals uid_map key 0 [] (full (length uid_map) INT_NAN) in
  Ok (mk r.1 key r.2).

(** One turn of the loops of [_set_vals_uids_multiple] and
    [_set_vals_uids_single]; [rhs] is [value[i]] or [value]. *)
Definition _set_vals_uid (vals : list V) (uid_map : list Z) (k : Z) (rhs : res V)
    : res (list V) :=
  if bool_decide (Z.of_nat (length uid_map) ≤ k) then
    Err (IndexError
      "UID not present in array (requested UID is larger than the maximum UID in use)")
  else
    try idx := unchecked (getitem uid_map k) in
    if bool_decide (idx = INT_NAN) then Err (IndexError "UID not present in array")
    else if bool_decide (Z.of_nat (length vals) ≤ idx) then
      Err (Exception
        "Attempted to write to a non-existant index - this can happen if attempting to write to new entries that have not yet been allocated via grow()")
    else
      try x := rhs in
      unchecked (setitem vals idx (Scalar x)).

(** The loops write into [vals] in place: what is returned is the array
    as the loop leaves it and the exception that ended it, if any. When
    that is [OutOfBounds], what the array holds is not defined. *)
Fixpoint _set_vals_uids_loop (rhs : Z → res V) (vals : list V) (key : list Z)
    (uid_map : list Z) (i : Z) : list V * option exn :=
  match key with
  | [] => (vals, None)
  | k :: key' =>
      match _set_vals_uid vals uid_map k (rhs i) with
      | Ok vals' => _set_vals_uids_loop rhs vals' key' uid_map (i + 1)
      | Err e => (vals, Some e)
      end
  end.

Definition _set_vals_uids_multiple (vals : list V) (key : list Z) (uid_map : list Z)
    (value : list V) : list V * option exn :=
  _set_vals_uids_loop (λ i, unchecked (getitem value i)) vals key uid_map 0.

Definition _set_vals_uids_single (vals : list V) (key : list Z) (uid_map : list Z)
    (value : V) : list V * option exn :=
  _set_vals_uids_loop (λ _, Ok value) vals key uid_map 0.

(** The result of a subscript: a value, or a new [FusedArray]. *)
Inductive item : Type :=
  | Value (v : V)
  | Fused (f : t).

Definition __getitem__ (self : t) (k : key) : res item :=
  let r :=
    match k with
    | KInt u =>
        try p := getitem (_uid_map self) u in
        try v := getitem (values self) p in
        Ok (Value v)
    | KMask mask =>
        let mapped_key := nonzero mask in
        try uids := getitems (uid self) mapped_key in
        try new_uid_map :=
          setitems (full (length (_uid_map self)) INT_NAN) uids
                   (Array (arange 0 (Z.of_nat (length uids)))) in
        try vals := getitems (values self) mapped_key in
        Ok (Fused (mk vals uids new_uid_map))
    | KArray us | KList us =>
        try f := _get_vals_uids (values self) us (_uid_map self) in
        Ok (Fused f)
    | KSlice s =>
        match start s, stop s, step s with
        | None, None, None => Ok (Fused self)
        | _, _, _ =>
            Err (Exception
              "Slicing not supported - slice the .values attribute by index instead e.g., x.values[0:5], not x[0:5]")
        end
    end in
  match r with Ok x => Ok x | Err e => Err (reraise e) end.

Definition lift (self : t) (r : res (list V)) : t * option exn :=
  match r with
  | Ok vals => (mk vals (uid self) (_uid_map self), None)
  | Err e => (self, Some e)
  end.

(** [__setitem__] changes [self.values] in place; the result is the
    array afterwards and the exception raised, if any. *)
Definition __setitem__ (self : t) (k : key) (v : value V) : t * option exn :=
  let r :=
    match k with
    | KInt u =>
        lift self (try p := getitem (_uid_map self) u in setitem (values self) p v)
    | KMask mask => lift self (setitems (values self) (nonzero mask) v)
    | KArray us | KList us =>
        let r :=
          match v with
          | Array vs => _set_vals_uids_multiple (values self) us (_uid_map self) vs
          | Scalar x => _set_vals_uids_single (values self) us (_uid_map self) x
          end in
        (mk r.1 (uid self) (_uid_map self), r.2)
    | KSlice s =>
        match start s, stop s, step s with
        | None, None, None => lift self (setslice (values self) s v)
        | _, _, _ =>
            (self, Some (Exception
              "Slicing not supported - slice the .values attribute by index instead e.g., x.values[0:5], not x[0:5]"))
        end
    end in
  (r.1, reraise <$> r.2).
End fused.
Arguments t : clear implicits.
Arguments item : clear implicits.
End FusedArray.

(** [int(s / 2)]: the quotient is formed in floating point and is exact
    for every size below [2^53]. *)
Definition int_half (s : nat) : nat := (s `div` 2)%nat.

Module DynamicView.
Section view.
Context {V : Type}.

(** [n] agents are in use; [_data] is the allocation, [_view] its first
    [n] elements. [_map_arrays] re-creates [_view] after every change of
    [n] or [_data], so [_view] is a function of the two. *)
Record t : Type := mk { fill_value : V; n : nat; _data : list V }.

(** [dtype] is given by the value [dtype()] *)
Definition __init__ (dtype : V) (fill : option V) : t :=
  mk (default dtype fill) 0 [].

Definition _s (self : t) : nat := length (_data self).
Definition _view (self : t) : list V := take (n self) (_data self).
Definition __len__ (self : t) : nat := n self.

Definition grow (self : t) (k : nat) : t :=
  let data :=
    if bool_decide (_s self < n self + k)%nat then
      let n_new := (k `max` int_half (_s self))%nat in
      _data self ++ full n_new (fill_value self)
    else _data self in
  mk (fill_value self) (n self + k) data.

Definition _trim (self : t) (inds : list Z) : res t :=
  let n' := length inds in
  try kept := getitems (_data self) inds in
  try data := setslice (_data self) (Slice None (Some (Z.of_nat n')) None) (Array kept) in
  try data := setslice data (Slice (Some (Z.of_nat n')) (Some (Z.of_nat (n self))) None)
                       (Scalar (fill_value self)) in
  Ok (mk (fill_value self) n' data).

(** Stores through [_view] land in [_data]. *)
Definition __setitem__ (self : t) (k : key) (v : value V) : res t :=
  try view := set (_view self) k v in
  Ok (mk (fill_value self) (n self) (view ++ drop (n self) (_data self))).

Definition __getitem__ (self : t) (k : key) : res (value V) :=
  get (_view self) k.
End view.
Arguments t : clear implicits.
End DynamicView.

Module State.
Section state.
Context {V : Type}.

(** The three kinds of [fill_value]: a scalar, a callable of the number
    of values, a [ScipyDistribution] sampled by identifier. *)
Inductive fill : Type :=
  | FillScalar (v : V)
  | FillCallable (f : nat → list V)
  | FillDist (rvs : list Z → list V).

(** A [State] is a [FusedArray] whose [values] is [_data._view] and whose
    [_uid_map] and [uid] are the objects of the population, by
    reference: they are arguments of [fused] below. *)
Record t : Type := mk {
  name : string;
  fill_value : fill;
  _data : DynamicView.t V;
  _initialized : bool
}.

Definition __init__ (name : string) (dtype : V) (fill_value : fill) : t :=
  mk name fill_value (DynamicView.__init__ dtype None) false.

Definition values (self : t) : list V := DynamicView._view (_data self).

Definition fused (uid uid_map : list Z) (self : t) : FusedArray.t V :=
  FusedArray.mk (values self) uid uid_map.

(** [FusedArray.__setitem__], inherited: [values] is a view of the
    buffer, so what it stores lands there. *)
Definition __setitem__ (uid uid_map : list Z) (self : t) (k : key) (v : value V)
    : t * option exn :=
  let r := FusedArray.__setitem__ (fused uid uid_map self) k v in
  let data := _data self in
  (mk (name self) (fill_value self)
      (DynamicView.mk (DynamicView.fill_value data) (DynamicView.n data)
         (FusedArray.values r.1 ++ drop (DynamicView.n data) (DynamicView._data data)))
      (_initialized self),
   r.2).

Definition _new_vals (self : t) (uids : list Z) : value V :=
  match fill_value self with
  | FillDist rvs => Array (rvs uids)
  | FillCallable f => Array (f (length uids))
  | FillScalar v => Scalar v
  end.

(** [initialize] with the population's [uid] *)
Definition initialize (self : t) (uid : list Z) : res t :=
  if _initialized self then Ok self
  else
    let data := DynamicView.grow (_data self) (length uid) in
    try data := DynamicView.__setitem__ data
                  (KSlice (Slice None (Some (Z.of_nat (length uid))) None))
                  (_new_vals self uid) in
    Ok (mk (name self) (fill_value self) data true).

Definition grow (self : t) (uids : list Z) : res t :=
  let n := length uids in
  let data := DynamicView.grow (_data self) n in
  try data := DynamicView.__setitem__ data
                (KSlice (Slice (Some (- Z.of_nat n)) None None))
                (_new_vals self uids) in
  Ok (mk (name self) (fill_value self) data (_initialized self)).

Definition _trim (self : t) (inds : list Z) : res t :=
  try data := DynamicView._trim (_data self) inds in
  Ok (mk (name self) (fill_value self) data (_initialized self)).

(** [initialize(sim)] for a [sim] that has no attribute [people]: this is
    the call [state.initialize(self)] of [DynamicPeople.initialize] in
    removing_people.py, where the population stands in the place of the
    sim. An initialized state returns at once; otherwise [sim.people]
    raises. *)
Definition initialize_sim (self : t) : res t :=
  if _initialized self then Ok self
  else Err (AttributeError "'DynamicPeople' object has no attribute 'people'").

(** [grow(n)] for a number [n] where the array of new identifiers is
    expected: this is the call [state.grow(n)] of [DynamicPeople.grow] in
    removing_people.py. The first statement, [len(uids)], raises. *)
Definition grow_count (self : t) (n : nat) : res t :=
  Err (TypeError "object of type 'int' has no len()").
End state.
Arguments t : clear implicits.
Arguments fill : clear implicits.
End State.

End States.

(** ** removing_people.py *)
Module RemovingPeople.
Import Np.

Module State.
Section state.
Context {V : Type}.

(** [fill_value]: a scalar, or a callable of a number of samples. *)
Inductive fill : Type :=
  | FillScalar (v : V)
  | FillCallable (f : nat → list V).

(** Columns are built with [shape=None]; a column of [shape=k] stores
    for each agent the [k] values of its column of the 2-D array, and
    every statement below then acts on it through the last axis in the
    same way. [values] is [_data[:n]], re-created by [_map_arrays] after
    every change. [_uid_map] is a reference to the [State] of the
    population: the functions that use it take its current [values],
    [None] when the attribute is [None]. *)
Record t : Type := mk { name : string; fill_value : fill; n : nat; _data : list V }.

Definition __init__ (name : string) (fill_value : fill) : t :=
  mk name fill_value 0 [].

Definition _s (self : t) : nat := length (_data self).
Definition __len__ (self : t) : nat := n self.
Definition values (self : t) : list V := take (n self) (_data self).

(** [np.full(shape, fill_value)], or [np.empty(shape)] overwritten by
    [fill_value(k)] *)
Definition filled (self : t) (size k : nat) : res (list V) :=
  match fill_value self with
  | FillCallable f => broadcast size (Array (f k))
  | FillScalar v => Ok (full size v)
  end.

(** What [initialize] is given as [n]: a number of agents, or an object
    that is no number; [DynamicPeople.initialize] hands its states the
    population itself. *)
Inductive size : Type :=
  | Number (k : nat)
  | Population.

(** With an object for [n] the assertions pass, [self.n] is bound to the
    object, and [np.full] (or [np.empty]) raises on the shape
    [(self.n,)]. *)
Definition initialize (self : t) (n : option size) (uid_map : option (list Z)) : res t :=
  match n, uid_map with
  | Some _, Some _ | None, None =>
      Err (AssertionError
        "Must specify either the initial number of agents or a reference to UIDs")
  | Some (Number k), None =>
      try data := filled self k k in
      Ok (mk (name self) (fill_value self) k data)
  | Some Population, None =>
      Err (TypeError "'DynamicPeople' object cannot be interpreted as an integer")
  | None, Some um =>
      let k := length um in
      try data := filled self k k in
      Ok (mk (name self) (fill_value self) k data)
  end.

Definition grow (self : t) (k : nat) : res t :=
  try data :=
    (if bool_decide (_s self < n self + k)%nat then
       let n_new := (k `max` States.int_half (_s self))%nat in
       try new := filled self n_new (n self) in
       Ok (_data self ++ new)
     else Ok (_data self)) in
  Ok (mk (name self) (fill_value self) (n self + k) data).

Definition _trim (self : t) (inds : list Z) : res t :=
  let n' := length inds in
  try kept := getitems (_data self) inds in
  try data := setslice (_data self) (Slice None (Some (Z.of_nat n')) None) (Array kept) in
  Ok (mk (name self) (fill_value self) n' data).

Definition _map_slice (uid_map : list Z) (k : slice) : res slice :=
  try a := match start k with
           | None => Ok None
           | Some x => try p := getitem uid_map x in Ok (Some p)
           end in
  try b := match stop k with
           | None => Ok None
           | Some x => try p := getitem uid_map x in Ok (Some p)
           end in
  Ok (Slice a b (step k)).

Definition __getitem__ (uid_map : option (list Z)) (self : t) (k : key) : res (value V) :=
  match uid_map with
  | None => get (values self) k
  | Some um =>
      match k with
      | KSlice s => try s' := _map_slice um s in get (values self) (KSlice s')
      | KMask _ => get (values self) k
      | _ => try p := get um k in get (values self) (as_key p)
      end
  end.

(** Stores through [values] land in [_data]. *)
Definition store (self : t) (vals : list V) : t :=
  mk (name self) (fill_value self) (n self) (vals ++ drop (n self) (_data self)).

Definition __setitem__ (uid_map : option (list Z)) (self : t) (k : key) (v : value V)
    : res t :=
  try vals :=
    match uid_map with
    | None => set (values self) k v
    | Some um =>
        match k with
        | KSlice s => try s' := _map_slice um s in set (values self) (KSlice s') v
        | KMask _ => set (values self) k v
        | _ => try p := get um k in set (values self) (as_key p) v
        end
    end in
  Ok (store self vals).
End state.
Arguments t : clear implicits.
Arguments fill : clear implicits.
End State.

(** What [DynamicPeople] asks of the states it coordinates. [C] is the
    state, [V] its values, [I] what a subscript returns. The identity map
    and the identifiers of the population, which a state holds by
    reference, are passed as their current values. [col_initialize] is
    [state.initialize(people)], with the population as its one argument,
    and [col_grow] is [state.grow(n)], with the number of new agents: the
    calls that [DynamicPeople] makes. [col_setitem] returns the state
    after the store and the exception raised, if any. *)
Class DynamicState (C V I : Type) : Type := {
  col_initialize : C → res C;
  col_grow : nat → C → res C;
  col_trim : list Z → C → res C;
  col_values : C → list V;
  col_getitem : list Z → list Z → C → key → res I;
  col_setitem : list Z → list Z → C → key → value V → C * option exn;
  col_item : V → I
}.

(** The [State] of this file. *)
Global Instance State_DynamicState {V} : DynamicState (State.t V) V (value V) := {|
  col_initialize c := State.initialize c (Some State.Population) None;
  col_grow k c := State.grow c k;
  col_trim inds c := State._trim c inds;
  col_values := State.values;
  col_getitem um us := State.__getitem__ (Some um);
  col_setitem um us c k v :=
    match State.__setitem__ (Some um) c k v with
    | Ok c' => (c', None)
    | Err e => (c, Some e)
    end;
  col_item := Scalar
|}.

(** The [State] of [starsim/states.py], whose [initialize] expects a sim
    or a population with [uid] and [add_state], and whose [grow] expects
    the new identifiers. *)
Global Instance States_DynamicState {V} :
    DynamicState (States.State.t V) V (States.FusedArray.item V) := {|
  col_initialize := States.State.initialize_sim;
  col_grow k c := States.State.grow_count c k;
  col_trim inds c := States.State._trim c inds;
  col_values := States.State.values;
  col_getitem um us c := States.FusedArray.__getitem__ (States.State.fused us um c);
  col_setitem um us := States.State.__setitem__ us um;
  col_item := States.FusedArray.Value
|}.

Module DynamicPeople.
Section people.
Context {C V I : Type} `{!DynamicState C V I}.

(** [_uid_map] holds the position of every identifier ever created,
    [uids] the identifier at each position; [states] is what
    [initialize] loops over, [_dynamic_states] the states that [grow] and
    [remove] keep in step. The states refer to the first two. *)
Record t : Type := mk {
  _uid_map : State.t Z;
  uids : State.t Z;
  states : list C;
  _dynamic_states : list C
}.

(** [__init__] binds four states and then evaluates [self.hiv.sus]: the
    object has no attribute [hiv], so the constructor raises, whatever
    [states] is, and returns no object. Neither [states] nor
    [_dynamic_states] is assigned by it (both lines are comments): a
    population is put together attribute by attribute. *)
Definition __init__ (states : list C) : res t :=
  Err (AttributeError "'DynamicPeople' object has no attribute 'hiv'").

Definition __len__ (self : t) : nat := State.__len__ (uids self).

(** The loop over [states] hands each state the population,
    [state.initialize(self)], and then evaluates [sim.people], where no
    name [sim] is bound: the first turn of the loop raises. *)
Definition initialize (self : t) (n : nat) : res t :=
  try um := State.initialize (_uid_map self) (Some (State.Number n)) None in
  try um := State.__setitem__ None um (KSlice full_slice)
              (Array (arange 0 (Z.of_nat (State.__len__ um)))) in
  try us := State.initialize (uids self) None (Some (State.values um)) in
  try us := State.__setitem__ (Some (State.values um)) us (KSlice full_slice)
              (Array (arange 0 (Z.of_nat (State.__len__ um)))) in
  match states self with
  | [] => Ok (mk um us (states self) (_dynamic_states self))
  | state :: _ =>
      try _ := col_initialize state in
      Err (NameError "name 'sim' is not defined")
  end.

(** The identifiers that [grow] gives to [n] new agents. *)
Definition new_uids (self : t) (n : nat) : list Z :=
  let start_uid := Z.of_nat (State.__len__ (_uid_map self)) in
  arange start_uid (start_uid + Z.of_nat n).

Definition grow (self : t) (n : nat) : res t :=
  let start_idx := Z.of_nat (State.__len__ (uids self)) in
  let new_uids := new_uids self n in
  let new_inds := arange start_idx (start_idx + Z.of_nat n) in
  try um := State.grow (_uid_map self) n in
  try um := State.__setitem__ None um (KArray new_uids) (Array new_inds) in
  try us := State.grow (uids self) n in
  try us := State.__setitem__ (Some (State.values um)) us (KArray new_uids)
              (Array new_uids) in
  try dynamic := mapR (col_grow n) (_dynamic_states self) in
  Ok (mk um us (states self) dynamic).

Definition remove (self : t) (uids_ : list Z) : res t :=
  let us := State.values (uids self) in
  try remaining_uids := getmask us (negb <$> in1d us uids_) in
  try keep := State.__getitem__ None (_uid_map self) (KArray remaining_uids) in
  let keep_inds := as_array keep in
  try us' := State._trim (uids self) keep_inds in
  try dynamic := mapR (col_trim keep_inds) (_dynamic_states self) in
  try um := State.__setitem__ None (_uid_map self) (KSlice full_slice) (Scalar INT_NAN) in
  try um := State.__setitem__ None um (KArray remaining_uids)
              (Array (arange 0 (Z.of_nat (length remaining_uids)))) in
  Ok (mk um us' (states self) dynamic).

(** [state[k] = v] for the state at place [i] of [_dynamic_states],
    whether or not it raises. *)
Definition setitem (self : t) (i : nat) (c : C) (k : key) (v : value V) : t :=
  let c' := (col_setitem (State.values (_uid_map self)) (State.values (uids self))
                         c k v).1 in
  mk (_uid_map self) (uids self) (states self) (<[i := c']> (_dynamic_states self)).

(** The identifiers alive, in position order. *)
Definition live (self : t) : list Z := State.values (uids self).

(** [IdentityMap.lookup]: [_uid_map[u]] *)
Definition lookup (self : t) (u : Z) : res (value Z) :=
  State.__getitem__ None (_uid_map self) (KInt u).

(** [state[k]] for a state of the population *)
Definition getitem (self : t) (c : C) (k : key) : res I :=
  col_getitem (State.values (_uid_map self)) (State.values (uids self)) c k.

(** What an attribute of the object holds: a [State], or an object [o] of
    any other kind. The instance dictionary maps the names of the
    attributes set so far to what they hold. *)
Inductive attribute (O : Type) : Type :=
  | AState (s : C)
  | AOther (o : O).
Arguments AState {O} s.
Arguments AOther {O} o.

(** [__setattr__]: [hasattr(self, attr) and isinstance(getattr(self, attr),
    State)] holds exactly for the names that hold a [State]; methods and
    other class attributes are not instances of [State]. *)
Definition __setattr__ {O : Type} (self : gmap string (attribute O)) (attr : string)
    (value : attribute O) : res (gmap string (attribute O)) :=
  match self !! attr with
  | Some (AState _) =>
      Err (Exception
        "Cannot assign directly to a state - must index into the view instead e.g. `people.uid[:]=`")
  | _ => Ok (<[attr := value]> self)
  end.
End people.
Arguments t : clear implicits.
Arguments attribute : clear implicits.
Arguments AState {C O} s.
Arguments AOther {C O} o.
End DynamicPeople.

End RemovingPeople.

(** ** stisim/people.py *)
Module Stisim.
Import Np.

Module BasePeople.
Section people.
Context {V : Type}.

(** A state as [_grow] sees it: [new] is [State.new] (an array of the
    asked number of fill values or samples), [data] the entry of
    [people._data] under the name of the state. *)
Record column : Type := Column { new : nat → list V; data : list V }.

(** [_n] agents are in use out of [_s] allocated. *)
Record t : Type := mk { columns : list column; _n : nat; _s : nat }.

Definition _grow (self : t) (n : nat) : t * list Z :=
  let orig_n := _n self in
  let new_total := (orig_n + n)%nat in
  let grown :=
    if bool_decide (_s self < new_total)%nat then
      let n_new := (n `max` States.int_half (_s self))%nat in
      ((λ c, Column (new c) (data c ++ new c n_new)) <$> columns self,
       (_s self + n_new)%nat)
    else (columns self, _s self) in
  (mk grown.1 (_n self + n) grown.2,
   arange (Z.of_nat orig_n) (Z.of_nat (_n self + n))).
End people.
Arguments t : clear implicits.
End BasePeople.

(** [People]: the attributes that [update_demographics] reads and writes,
    as [_map_arrays] leaves them (numpy views of [_n] entries). [F] is the
    type of the floating-point entries; their sum and their comparison
    with a time index are not interpreted. *)
Module People.
Section people.
Context {F : Type} (add : F → F → F) (le_ti : F → Z → bool).

Record t : Type := mk { age : list F; alive : list bool; ti_dead : list F }.

(** [self.age[self.alive] += dt] reads [age[alive]], adds and stores the
    sums back at [alive]; [self.alive[self.ti_dead <= ti] = False]. *)
Definition update_demographics (self : t) (dt : F) (ti : Z) : res t :=
  try olds := getmask (age self) (alive self) in
  try age' := setmask (age self) (alive self) (Array ((λ a, add a dt) <$> olds)) in
  try alive' := setmask (alive self) ((λ t, le_ti t ti) <$> ti_dead self) (Scalar false) in
  Ok (mk age' alive' (ti_dead self)).

(** [dead]: [~self.alive] *)
Definition dead (self : t) : list bool := negb <$> alive self.
End people.
Arguments t : clear implicits.
End People.

(** [Sim] of stisim/sim.py: the time index and the flags that [step],
    [run] and [finalize] keep. [W] is everything the updates act on: the
    people, the networks, the modules, and the random generator that
    they draw from. [tick ti] stands for [update_demographics],
    [update_networks] and [update_modules] at time index [ti] and may
    raise. Progress output is not modelled ([verbose] is 0). *)
Module Sim.

Inductive raised : Type :=
  | AlreadyRunError (msg : string)
  | Raised (e : exn).

Inductive ran (A : Type) : Type :=
  | Done (a : A)
  | Fail (r : raised).
Arguments Done {A} a.
Arguments Fail {A} r.

Section sim.
Context {W : Type}.

Record t : Type := mk {
  ti : Z;
  npts : Z;
  complete : bool;
  results_ready : bool;
  initialized : bool;
  people : W
}.

Variable tick : Z → W → res W.
(** [ssu.set_seed(self.pars['rand_seed'] + 1)]: the random generator is
    put back to the start of the sequence of the run's seed *)
Variable set_seed : W → W.
(** [initialize], for a sim that [run] finds uninitialized *)
Variable initialize : t → ran t.
(** [stop i s]: at the head of turn [i] of the loop of [run], the time
    limit is exceeded or the stopping function asks to stop *)
Variable stop : nat → t → bool.

Definition step (self : t) : ran t :=
  if complete self then
    Fail (AlreadyRunError "Simulation already complete (call sim.initialize() to re-run)")
  else
    match tick (ti self) (people self) with
    | Err e => Fail (Raised e)
    | Ok w =>
        let ti' := ti self + 1 in
        Done (mk ti' (npts self)
                 (if bool_decide (ti' = npts self) then true else complete self)
                 (results_ready self) (initialized self) w)
    end.

Definition finalize (self : t) : ran t :=
  if results_ready self then Fail (AlreadyRunError "Simulation has already been finalized")
  else Done (mk (ti self - 1) (npts self) (complete self) true (initialized self)
                (people self)).

(** The loop [while self.ti < until] of [run]; the time index grows by one
    in every turn, so [until - ti] turns of fuel are never used up before
    the condition fails. The flag tells whether the loop was left by
    [return]. *)
Fixpoint run_loop (fuel i : nat) (until : Z) (self : t) : ran (t * bool) :=
  match fuel with
  | O => Done (self, false)
  | S fuel' =>
      if bool_decide (ti self < until) then
        if stop i self then Done (self, true)
        else match step self with
             | Done self' => run_loop fuel' (S i) until self'
             | Fail r => Fail r
             end
      else Done (self, false)
  end.

(** The generator is re-seeded, when [reset_seed] is set (the default),
    before the checks and the loop. *)
Definition run (self : t) (until : option Z) (reset_seed : bool) : ran t :=
  match (if initialized self then Done self else initialize self) with
  | Fail r => Fail r
  | Done self =>
      let self :=
        if reset_seed then
          mk (ti self) (npts self) (complete self) (results_ready self) (initialized self)
             (set_seed (people self))
        else self in
      let until := default (npts self) until in
      let errormsg : option string := None in
      let errormsg :=
        if bool_decide (npts self < until) then
          Some ("Requested to run until t=" +:+ pretty until +:+
                " but the simulation end is ti=" +:+ pretty (npts self))
        else errormsg in
      let errormsg :=
        if bool_decide (until ≤ ti self) then
          Some ("Simulation is currently at t=" +:+ pretty (ti self) +:+
                ", requested to run until ti=" +:+ pretty until +:+
                " which has already been reached")
        else errormsg in
      let errormsg :=
        if complete self then
          Some "Simulation is already complete (call sim.initialize() to re-run)"
        else errormsg in
      match errormsg with
      | Some msg => Fail (AlreadyRunError msg)
      | None =>
          match run_loop (Z.to_nat (until - ti self)) 0 until self with
          | Fail r => Fail r
          | Done (self, true) => Done self
          | Done (self, false) => if complete self then finalize self else Done self
          end
      end
  end.
End sim.
Arguments t : clear implicits.
End Sim.

End Stisim.

(** * Vocabulary of the properties *)

(** ** Identifiers and positions *)
Section fused_vocabulary.
Import Np States.
Context {V : Type}.
Implicit Types (f : FusedArray.t V) (u : Z) (p : nat).

(** [u] has no position: beyond the identity map, or flagged in it. *)
Definition missing_in (uid_map : list Z) (u : Z) : Prop :=
  Z.of_nat (length uid_map) ≤ u ∨ uid_map !! Z.to_nat u = Some INT_NAN.

(** [u] is at position [p] of an array of [size] elements. *)
Definition position_in (uid_map : list Z) (size : nat) (u : Z) (p : nat) : Prop :=
  0 ≤ u ∧ uid_map !! Z.to_nat u = Some (Z.of_nat p) ∧
  Z.of_nat p ≠ INT_NAN ∧ (p < size)%nat.

Definition missing f : Z → Prop := missing_in (FusedArray._uid_map f).
Definition position f : Z → nat → Prop :=
  position_in (FusedArray._uid_map f) (length (FusedArray.values f)).

(** The identifiers a key names. *)
Definition key_uids (k : key) : list Z :=
  match k with
  | KInt u => [u]
  | KArray us | KList us => us
  | KMask _ | KSlice _ => []
  end.

(** [out] and [m] record the identifiers of [P]: [m] sends each to a
    place of [out] that holds its value in [vals]. *)
Definition tracks (um : list Z) (vals out : list V) (m : list Z) (P : Z → Prop) : Prop :=
  ∀ u, P u → ∃ j p v,
    0 ≤ u ∧ m !! Z.to_nat u = Some (Z.of_nat j) ∧ out !! j = Some v ∧
    um !! Z.to_nat u = Some (Z.of_nat p) ∧ vals !! p = Some v.
End fused_vocabulary.

(** The number of positions a key resolves in a column, for the keys whose
    stores numpy checks: a mask with its [True] entries below the live
    count, the full slice, one placed identifier. *)
Definition resolves {V} (c : States.FusedArray.t V) (k : Np.key) (n : nat) : Prop :=
  match k with
  | Np.KMask mask =>
      Forall (λ i, i < Z.of_nat (length (States.FusedArray.values c))) (Np.nonzero mask) ∧
      n = length (Np.nonzero mask)
  | Np.KSlice s => s = Np.full_slice ∧ n = length (States.FusedArray.values c)
  | Np.KInt u => (∃ p, position c u p) ∧ n = 1%nat
  | Np.KArray _ | Np.KList _ => False
  end.

(** ** Sound buffers *)

(** The agents in use fit the allocation. *)
Definition st_wf {A} (s : RemovingPeople.State.t A) : Prop :=
  (RemovingPeople.State.n s ≤ length (RemovingPeople.State._data s))%nat.

Definition dv_wf {V} (dv : States.DynamicView.t V) : Prop :=
  (States.DynamicView.n dv ≤ length (States.DynamicView._data dv))%nat.

(** A [State] is sound when its buffer is. *)
Definition state_wf {V} (c : States.State.t V) : Prop := dv_wf (States.State._data c).

(** The facts about a state that keep a population consistent: [col_wf]
    is the soundness of its buffer. *)
Class DynamicStateLaws (C V I : Type) `{!RemovingPeople.DynamicState C V I} : Type := {
  col_wf : C → Prop;
  col_grow_spec (k : nat) (c c' : C) :
    col_wf c → RemovingPeople.col_grow k c = Ok c' →
    col_wf c' ∧
    length (RemovingPeople.col_values c') = (length (RemovingPeople.col_values c) + k)%nat ∧
    take (length (RemovingPeople.col_values c)) (RemovingPeople.col_values c') =
      RemovingPeople.col_values c;
  col_trim_spec (inds : list Z) (c : C) :
    col_wf c →
    Forall (λ i, 0 ≤ i < Z.of_nat (length (RemovingPeople.col_values c))) inds →
    (length inds ≤ length (RemovingPeople.col_values c))%nat →
    ∃ c', RemovingPeople.col_trim inds c = Ok c' ∧ col_wf c' ∧
          Forall2 (λ i v, RemovingPeople.col_values c !! Z.to_nat i = Some v)
                  inds (RemovingPeople.col_values c');
  col_trim_all (c : C) :
    col_wf c →
    RemovingPeople.col_trim
      (Np.arange 0 (Z.of_nat (length (RemovingPeople.col_values c)))) c = Ok c;
  col_setitem_spec (um us : list Z) (c : C) (k : Np.key) (v : Np.value V) :
    col_wf c →
    col_wf (RemovingPeople.col_setitem um us c k v).1 ∧
    length (RemovingPeople.col_values (RemovingPeople.col_setitem um us c k v).1) =
      length (RemovingPeople.col_values c);
  col_setitem_placed (um us : list Z) (c : C) (u : Z) (p : nat) (x : V) :
    col_wf c → 0 ≤ u → um !! Z.to_nat u = Some (Z.of_nat p) →
    (p < length (RemovingPeople.col_values c))%nat →
    (RemovingPeople.col_setitem um us c (Np.KInt u) (Np.Scalar x)).2 = None ∧
    RemovingPeople.col_values (RemovingPeople.col_setitem um us c (Np.KInt u) (Np.Scalar x)).1 =
      <[p := x]> (RemovingPeople.col_values c);
  col_getitem_placed (um us : list Z) (c : C) (u : Z) (p : nat) (v : V) :
    0 ≤ u → um !! Z.to_nat u = Some (Z.of_nat p) →
    RemovingPeople.col_values c !! p = Some v →
    RemovingPeople.col_getitem um us c (Np.KInt u) = Ok (RemovingPeople.col_item v);
  col_getitem_flagged (um us : list Z) (c : C) (u : Z) :
    0 ≤ u → um !! Z.to_nat u = Some Np.INT_NAN →
    Z.of_nat (length (RemovingPeople.col_values c)) ≤ Np.INT_NAN →
    ∃ e, RemovingPeople.col_getitem um us c (Np.KInt u) = Err e ∧ IdentifierNotFound e
}.

(** ** Consistent populations *)
Section coordinator_vocabulary.
Import Np RemovingPeople.
Context {C V I : Type} `{!DynamicState C V I} `{!DynamicStateLaws C V I}.
Implicit Types (p : DynamicPeople.t C) (c : C).

(** A population is consistent when its buffers are sound, every state
    has one value per agent, and the identity map sends the identifier at
    each position back to that position. *)
Definition consistent p : Prop :=
  st_wf (DynamicPeople._uid_map p) ∧ st_wf (DynamicPeople.uids p) ∧
  Forall (λ c, col_wf c ∧ length (col_values c) = DynamicPeople.__len__ p)
         (DynamicPeople._dynamic_states p) ∧
  (∀ (i : nat) (u : Z), DynamicPeople.live p !! i = Some u →
     0 ≤ u ∧ State.values (DynamicPeople._uid_map p) !! Z.to_nat u = Some (Z.of_nat i)).

(** The state that [initialize] leaves in a [_uid_map] or [uids] called
    [name] whose fill value is the scalar [v]. *)
Definition uid_state (name : string) (v : Z) (n : nat) : State.t Z :=
  State.store (State.mk name (State.FillScalar v) n (full n v)) (arange 0 (Z.of_nat n)).
End coordinator_vocabulary.

(** ** Histories of a population *)
Section histories.
Import RemovingPeople.
Context {C V I : Type} `{!DynamicState C V I}.

(** [evolves p q]: the program takes the population [p] to [q] by calls of
    [grow] and [remove] and stores into states. *)
Inductive evolves : DynamicPeople.t C → DynamicPeople.t C → Prop :=
  | evolves_refl p : evolves p p
  | evolves_grow p q n q' :
      evolves p q → DynamicPeople.grow q n = Ok q' → evolves p q'
  | evolves_remove p q uids_ q' :
      evolves p q → DynamicPeople.remove q uids_ = Ok q' → evolves p q'
  | evolves_setitem p q i c k v :
      evolves p q → DynamicPeople._dynamic_states q !! i = Some c →
      evolves p (DynamicPeople.setitem q i c k v).

(** The identifiers issued so far: those the identity map has an entry
    for. *)
Definition issued (p : DynamicPeople.t C) (u : Z) : Prop :=
  0 ≤ u < Z.of_nat (State.__len__ (DynamicPeople._uid_map p)).

(** The identity map flags every identifier that was issued and is not
    alive: what [initialize] and [remove] leave. *)
Definition flagged (p : DynamicPeople.t C) : Prop :=
  ∀ u, issued p u → u ∉ DynamicPeople.live p →
       State.values (DynamicPeople._uid_map p) !! Z.to_nat u = Some Np.INT_NAN.
End histories.

(** ** Aligned columns *)

(** A column is aligned when it has one identifier per value and its
    identity map sends the identifier at each position back to that
    position: what [State] shares with its population, and what
    [FusedArray.__init__] is handed by [__getitem__]. *)
Definition aligned {V} (c : States.FusedArray.t V) : Prop :=
  length (States.FusedArray.uid c) = length (States.FusedArray.values c) ∧
  ∀ (i : nat) (u : Z), States.FusedArray.uid c !! i = Some u → position c u i.

(** ** Clean buffers *)

(** A buffer is clean when it is sound and holds nothing but the fill
    value beyond the agents in use. *)
Definition dv_clean {V} (dv : States.DynamicView.t V) : Prop :=
  dv_wf dv ∧
  ∀ (i : nat) (v : V), (States.DynamicView.n dv ≤ i)%nat →
    States.DynamicView._data dv !! i = Some v → v = States.DynamicView.fill_value dv.

(** ** Masks *)

(** The entries of [a] at the [True] positions of [mask], and [a] with
    [f] applied at the [True] positions of [mask]. *)
Fixpoint select {A} (a : list A) (mask : list bool) : list A :=
  match a, mask with
  | x :: a', b :: mask' => (if b then [x] else []) ++ select a' mask'
  | _, _ => []
  end.

Definition masked {A} (f : A → A) (a : list A) (mask : list bool) : list A :=
  zip_with (λ x (b : bool), if b then f x else x) a mask.

(** ** Assignments to attributes *)

(** A program assigns to attributes one after the other; an assignment
    that raises leaves the object as it was. *)
Definition assignments {C O : Type}
    (self : gmap string (RemovingPeople.DynamicPeople.attribute C O))
    (ops : list (string * RemovingPeople.DynamicPeople.attribute C O))
    : gmap string (RemovingPeople.DynamicPeople.attribute C O) :=
  foldl (λ d op, match RemovingPeople.DynamicPeople.__setattr__ d op.1 op.2 with
                 | Ok d' => d'
                 | Err _ => d
                 end) self ops.

(** ** Sound people *)

(** The arrays of [BasePeople] are sound when each has the allocated
    size, which covers the agents in use, and each state allocates as
    many entries as it is asked for. [bp_view] is the attribute that
    [_map_arrays] sets for a state: the entries in use. *)
Definition bp_wf {V} (p : Stisim.BasePeople.t V) : Prop :=
  (Stisim.BasePeople._n p ≤ Stisim.BasePeople._s p)%nat ∧
  Forall (λ c, length (Stisim.BasePeople.data c) = Stisim.BasePeople._s p ∧
               ∀ k, length (Stisim.BasePeople.new c k) = k)
         (Stisim.BasePeople.columns p).

Definition bp_view {V} (p : Stisim.BasePeople.t V) (c : Stisim.BasePeople.column) : list V :=
  take (Stisim.BasePeople._n p) (Stisim.BasePeople.data c).

(** ** Time steps *)

(** [k] updates in a row, from time index [ti] on. *)
Fixpoint ticks {W} (tick : Z → W → res W) (k : nat) (ti : Z) (w : W) : res W :=
  match k with
  | O => Ok w
  | S k' => try w' := tick ti w in ticks tick k' (ti + 1) w'
  end.

(** ** Scenarios *)

(** The column of three agents holding 10, 20, 30. *)
Definition three_agents : States.FusedArray.t Z :=
  States.FusedArray.mk [10; 20; 30] [0; 1; 2] [0; 1; 2].

(** Agents 0, 2 and 3 after agent 1 was removed. *)
Definition after_removal : States.FusedArray.t Z :=
  States.FusedArray.mk [10; 30; 40] [0; 2; 3] [0; Np.INT_NAN; 1; 2].

(** A state [x] of integers with fill value 0, and [x] holding the
    values 10, 20, 30 of three agents. *)
Definition column_x : States.State.t Z :=
  States.State.__init__ "x" 0 (States.State.FillScalar 0).

Definition x3 : States.State.t Z :=
  States.State.mk "x" (States.State.FillScalar 0)
    (States.DynamicView.mk 0 3 [10; 20; 30]) true.

(** The identity map and the identifiers of three agents, as
    [initialize(3)] sets them. *)
Definition uid3 : RemovingPeople.State.t Z :=
  RemovingPeople.State.mk "uid" (RemovingPeople.State.FillScalar 0) 3 [0; 1; 2].

(** Three agents put together by hand, with [x] as the one dynamic
    state and nothing for [initialize] to loop over. *)
Definition scenario : RemovingPeople.DynamicPeople.t (States.State.t Z) :=
  RemovingPeople.DynamicPeople.mk uid3 uid3 [] [x3].

Definition x_of (p : RemovingPeople.DynamicPeople.t (States.State.t Z)) : States.State.t Z :=
  default column_x (RemovingPeople.DynamicPeople._dynamic_states p !! 0%nat).

(** A sim of three time points. Its world is a total and the state of a
    generator; an update draws from the generator (the draw is its
    state, which then moves on) and adds the draw to the total;
    re-seeding puts the generator back to 1; nothing asks to stop. *)
Definition drawing_sim : Stisim.Sim.t (Z * Z) := Stisim.Sim.mk 0 3 false false true (0, 1).
Definition drawing_tick (ti : Z) (w : Z * Z) : res (Z * Z) := Ok (w.1 + w.2, w.2 + 1).
Definition reseed (w : Z * Z) : Z * Z := (w.1, 1).
Definition never_stop (i : nat) (s : Stisim.Sim.t (Z * Z)) : bool := false.

(** A state [y] of the removing_people.py kind, and three agents put
    together by hand that hold 10, 20, 30 in it. *)
Definition column_y : RemovingPeople.State.t Z :=
  RemovingPeople.State.__init__ "y" (RemovingPeople.State.FillScalar 0).

Definition y3 : RemovingPeople.State.t Z :=
  RemovingPeople.State.mk "y" (RemovingPeople.State.FillScalar 0) 3 [10; 20; 30].

Definition y_of (p : RemovingPeople.DynamicPeople.t (RemovingPeople.State.t Z))
    : RemovingPeople.State.t Z :=
  default column_y (RemovingPeople.DynamicPeople._dynamic_states p !! 0%nat).

Definition proto_scenario : RemovingPeople.DynamicPeople.t (RemovingPeople.State.t Z) :=
  RemovingPeople.DynamicPeople.mk uid3 uid3 [] [y3].

(** Two births, then agents 1 and 3 removed, then one more birth. *)
Definition proto_grown : RemovingPeople.DynamicPeople.t (RemovingPeople.State.t Z) :=
  Eval vm_compute in
    match RemovingPeople.DynamicPeople.grow proto_scenario 2 with
    | Ok p => p
    | Err _ => proto_scenario
    end.

Definition proto_reduced : RemovingPeople.DynamicPeople.t (RemovingPeople.State.t Z) :=
  Eval vm_compute in
    match RemovingPeople.DynamicPeople.remove proto_grown [1; 3] with
    | Ok p => p
    | Err _ => proto_scenario
    end.

Definition proto_regrown : RemovingPeople.DynamicPeople.t (RemovingPeople.State.t Z) :=
  Eval vm_compute in
    match RemovingPeople.DynamicPeople.grow proto_reduced 1 with
    | Ok p => p
    | Err _ => proto_scenario
    end.

(** A population object on which [_uid_map] and [uids] are bound as
    [__init__] binds them, and the two lists are bound to [states] and
    [dynamic]. *)
Definition blank_people {C : Type} (states dynamic : list C) : RemovingPeople.DynamicPeople.t C :=
  RemovingPeople.DynamicPeople.mk
    (RemovingPeople.State.__init__ "uid" (RemovingPeople.State.FillScalar 0))
    (RemovingPeople.State.__init__ "uid" (RemovingPeople.State.FillScalar 0))
    states dynamic.

(** * Properties *)

(** ** Checked subscripts and element-wise stores *)
Section np_facts.
Import Np.
Context {A : Type}.
Implicit Types (a : list A) (i : Z) (p : nat).

Lemma bind_Ok {X Y} (m : res X) (k : X → res Y) y :
  bind m k = Ok y ↔ ∃ x, m = Ok x ∧ k x = Ok y.
Proof.
  destruct m as [x|e]; simpl; split.
  - by exists x.
  - by intros (x' & [= <-] & Hk).
  - done.
  - by intros (x' & [=] & _).
Qed.

Lemma unchecked_Ok {B} (r : res B) (x : B) : unchecked r = Ok x → r = Ok x.
Proof. by destruct r as [y|[]]. Qed.

Lemma index_Ok size i :
  0 ≤ i < Z.of_nat size → index size i = Ok (Z.to_nat i).
Proof. intros Hi. unfold index. by rewrite bool_decide_eq_true_2. Qed.

Lemma index_Err size i :
  Z.of_nat size ≤ i → index size i = Err (IndexError (oob_msg i size)).
Proof.
  intros Hi. unfold index.
  rewrite !bool_decide_eq_false_2; [done | lia | lia].
Qed.

Lemma index_lt size i p : index size i = Ok p → (p < size)%nat.
Proof.
  unfold index. repeat case_bool_decide; intros [= <-]; lia.
Qed.

Lemma index_nonneg size i p : 0 ≤ i → index size i = Ok p → p = Z.to_nat i ∧ i < Z.of_nat size.
Proof.
  unfold index. repeat case_bool_decide; intros ? [= <-]; lia.
Qed.

Lemma getitem_Ok a i v :
  0 ≤ i → a !! Z.to_nat i = Some v → getitem a i = Ok v.
Proof.
  intros Hi Hv. unfold getitem. apply lookup_lt_Some in Hv as Hlt.
  rewrite index_Ok by lia. simpl. by rewrite Hv.
Qed.

Lemma getitem_Err a i :
  Z.of_nat (length a) ≤ i → getitem a i = Err (IndexError (oob_msg i (length a))).
Proof. intros Hi. unfold getitem. by rewrite index_Err. Qed.

Lemma getitem_nonneg_inv a i v :
  0 ≤ i → getitem a i = Ok v → a !! Z.to_nat i = Some v.
Proof.
  intros Hi. unfold getitem. intros (p & Hp & Hv)%bind_Ok.
  apply index_nonneg in Hp as [-> _]; [|done].
  destruct (a !! Z.to_nat i); simpl in *; congruence.
Qed.

Lemma getitem_IdentifierNotFound a i e : getitem a i = Err e → IdentifierNotFound e.
Proof.
  unfold getitem, index. repeat case_bool_decide; simpl;
    try (intros [= <-]; done);
    match goal with |- context [a !! ?p] => destruct (a !! p) eqn:E end;
    simpl; intros [= <-]; done.
Qed.

Lemma setitem_Scalar_Ok a i x :
  0 ≤ i < Z.of_nat (length a) → setitem a i (Scalar x) = Ok (<[Z.to_nat i := x]> a).
Proof. intros Hi. unfold setitem. by rewrite index_Ok. Qed.

Lemma setitem_Err a i v :
  Z.of_nat (length a) ≤ i → setitem a i v = Err (IndexError (oob_msg i (length a))).
Proof. intros Hi. unfold setitem. by rewrite index_Err. Qed.

Lemma setitem_length a i v a' : setitem a i v = Ok a' → length a' = length a.
Proof.
  unfold setitem. intros (p & _ & H)%bind_Ok.
  destruct v as [x|[|x [|]]]; simplify_eq; by rewrite length_insert.
Qed.

Lemma mapR_Ok {X Y} (f : X → res Y) l l' :
  mapR f l = Ok l' ↔ Forall2 (λ x y, f x = Ok y) l l'.
Proof.
  revert l'. induction l as [|x l IH]; intros l'; simpl.
  - split; [intros [= <-]; constructor | by inversion 1].
  - split.
    + intros (y & Hy & (ys & Hys & [= <-])%bind_Ok)%bind_Ok.
      constructor; [done | by apply IH].
    + inversion 1 as [|? y ? ys Hy Hys]; subst.
      apply IH in Hys. by rewrite Hy, Hys.
Qed.

Lemma mapR_Err_Exists {X Y} (f : X → res Y) l e (P : exn → Prop) :
  (∀ x e', x ∈ l → f x = Err e' → P e') → mapR f l = Err e → P e.
Proof.
  induction l as [|x l IH]; simpl; [done|]. intros HP.
  destruct (f x) as [y|e'] eqn:Hx; simpl.
  - destruct (mapR f l) as [ys|e''] eqn:Hl; simpl; [done|].
    intros [= <-]. apply IH; [|done]. intros z e' Hz. apply HP. by right.
  - intros [= <-]. eapply HP; [|done]. by left.
Qed.

Lemma getitems_Ok a idx vs :
  Forall (λ i, 0 ≤ i) idx →
  getitems a idx = Ok vs ↔ Forall2 (λ i v, a !! Z.to_nat i = Some v) idx vs.
Proof.
  intros Hidx. unfold getitems. rewrite mapR_Ok.
  revert vs. induction Hidx as [|i idx Hi _ IH]; intros vs.
  - split; inversion 1; constructor.
  - split; inversion 1; subst; constructor;
      [by apply getitem_nonneg_inv | by apply IH | by apply getitem_Ok | by apply IH].
Qed.

Lemma getitems_IdentifierNotFound a idx e : getitems a idx = Err e → IdentifierNotFound e.
Proof. apply mapR_Err_Exists. intros ??? ?. by eapply getitem_IdentifierNotFound. Qed.

Lemma assign_nil a vs : assign a [] vs = a.
Proof. done. Qed.

Lemma assign_cons a p ps v vs :
  assign a (p :: ps) (v :: vs) = assign (<[p := v]> a) ps vs.
Proof. done. Qed.

Lemma assign_length a ps vs : length (assign a ps vs) = length a.
Proof.
  revert a vs. induction ps as [|p ps IH]; intros a [|v vs]; try done.
  rewrite assign_cons, IH. apply length_insert.
Qed.

Lemma assign_lookup_notin a ps vs q :
  q ∉ ps → assign a ps vs !! q = a !! q.
Proof.
  revert a vs. induction ps as [|p ps IH]; intros a [|v vs] Hq; try done.
  rewrite assign_cons, IH by set_solver.
  apply list_lookup_insert_ne. set_solver.
Qed.

Lemma assign_lookup a ps vs j q v :
  NoDup ps → ps !! j = Some q → vs !! j = Some v → (q < length a)%nat →
  assign a ps vs !! q = Some v.
Proof.
  intros Hnd. revert a vs j. induction Hnd as [|p ps Hp Hnd IH]; intros a vs j; [done|].
  destruct vs as [|v' vs]; [by destruct j|].
  destruct j as [|j]; simpl.
  - intros [= ->] [= ->] Hq. rewrite assign_cons, assign_lookup_notin by done.
    by apply list_lookup_insert_eq.
  - intros Hj Hv Hq. rewrite assign_cons. eapply IH; [done..|].
    by rewrite length_insert.
Qed.

(** Of several stores to one position the last one stays. *)
Lemma assign_lookup_last a ps vs j q v :
  ps !! j = Some q → vs !! j = Some v → (q < length a)%nat →
  (∀ j', (j < j')%nat → ps !! j' ≠ Some q) →
  assign a ps vs !! q = Some v.
Proof.
  revert a vs j. induction ps as [|p ps IH]; intros a vs j; [done|].
  destruct vs as [|v' vs]; [by destruct j|].
  destruct j as [|j]; simpl.
  - intros [= ->] [= ->] Hq Hlast. rewrite assign_cons, assign_lookup_notin.
    + by apply list_lookup_insert_eq.
    + intros (j' & Hj')%list_elem_of_lookup_1. by apply (Hlast (S j')); [lia|].
  - intros Hj Hv Hq Hlast. rewrite assign_cons. eapply IH; [done..| |].
    + by rewrite length_insert.
    + intros j' Hj'. apply (Hlast (S j')). lia.
Qed.

(** A store to consecutive positions replaces that stretch. *)
Lemma assign_seq a k vs :
  (k + length vs ≤ length a)%nat →
  assign a (seq k (length vs)) vs = take k a ++ vs ++ drop (k + length vs) a.
Proof.
  revert a k. induction vs as [|v vs IH]; intros a k Hlen; simpl in *.
  - by rewrite Nat.add_0_r, take_drop.
  - rewrite assign_cons, IH by (rewrite length_insert; lia).
    rewrite (take_S_r _ _ v) by (apply list_lookup_insert_eq; lia).
    rewrite take_insert_ge, drop_insert_lt by lia.
    rewrite <- (assoc_L (++)). simpl.
    by replace (S (k + length vs)) with (k + S (length vs))%nat by lia.
Qed.
End np_facts.

(** ** Subscripts of a [FusedArray] *)
Section fused_facts.
Import Np States.
Context {V : Type}.
Implicit Types (f : FusedArray.t V) (u : Z) (p : nat).

Lemma position_not_missing um size u p :
  position_in um size u p → ¬ missing_in um u.
Proof.
  intros (Hu & Hp & Hnan & _) [Hbig|Hflag].
  - apply lookup_lt_Some in Hp. lia.
  - rewrite Hp in Hflag. by injection Hflag.
Qed.

Lemma reraise_IdentifierNotFound e : IdentifierNotFound e → IdentifierNotFound (reraise e).
Proof. destruct e; unfold reraise; try done. by case_match. Qed.

Lemma reraise_Exception m : reraise (Exception m) = Exception m.
Proof. done. Qed.

Lemma reraise_OutOfBounds m : reraise (OutOfBounds m) = OutOfBounds m.
Proof. done. Qed.

(** *** The loop of [_get_vals_uids] *)

Lemma get_loop_Ok um (vals : list V) key : ∀ out m (P : Z → Prop),
  length m = length um →
  tracks um vals out m P →
  Forall (λ u, ∃ p, position_in um (length vals) u p) key →
  ∃ out' m',
    FusedArray._get_vals_uids_loop vals um key (Z.of_nat (length out)) out m = Ok (out', m') ∧
    tracks um vals out' m' (λ u, P u ∨ u ∈ key) ∧
    length out' = (length out + length key)%nat.
Proof.
  induction key as [|k key IH]; intros out m P Hlen Htr Hkey.
  - exists out, m. split; [done|]. split; [|simpl; lia].
    intros u [Hu|Hu]; [by apply Htr | by apply elem_of_nil in Hu].
  - apply Forall_cons in Hkey as [(p & Hk & Hp & Hnan & Hlt) Hkey].
    destruct (lookup_lt_is_Some_2 vals p Hlt) as [v Hv].
    assert (Hklt : (Z.to_nat k < length m)%nat)
      by (rewrite Hlen; by eapply lookup_lt_Some).
    simpl. rewrite (getitem_Ok um k _ Hk Hp). simpl.
    rewrite bool_decide_eq_false_2 by done.
    rewrite (getitem_Ok vals (Z.of_nat p) v) by (rewrite ?Nat2Z.id; done || lia). simpl.
    rewrite setitem_Scalar_Ok by lia. simpl.
    destruct (IH (out ++ [v]) (<[Z.to_nat k := Z.of_nat (length out)]> m)
                 (λ u, P u ∨ u = k)) as (out' & m' & Hrun & Htr' & Hlen').
    + by rewrite length_insert.
    + intros u Hu. destruct (decide (u = k)) as [->|Hne].
      * exists (length out), p, v. repeat split; try done.
        -- by apply list_lookup_insert_eq.
        -- by rewrite lookup_app_r, Nat.sub_diag.
      * destruct Hu as [Hu|Hu]; [|done].
        destruct (Htr u Hu) as (j & q & w & H0 & Hm & Hout & Hum & Hval).
        exists j, q, w. repeat split; try done.
        -- rewrite list_lookup_insert_ne; [done | lia].
        -- by apply lookup_app_l_Some.
    + done.
    + exists out', m'. split; [|split].
      * rewrite <- Hrun. f_equal. rewrite length_app. simpl. lia.
      * intros u Hu. apply Htr'. rewrite elem_of_cons in Hu. tauto.
      * rewrite Hlen', length_app. simpl. lia.
Qed.

Lemma get_loop_Err um (vals : list V) key : ∀ i out m,
  length m = length um →
  Forall (λ u, 0 ≤ u < Z.of_nat (length um) ∧
               (missing_in um u ∨ ∃ p, position_in um (length vals) u p)) key →
  Exists (missing_in um) key →
  ∃ e, FusedArray._get_vals_uids_loop vals um key i out m = Err e ∧ IdentifierNotFound e.
Proof.
  induction key as [|k key IH]; intros i out m Hlen Hkey Hex; [by inversion Hex|].
  apply Forall_cons in Hkey as [[[Hk Hin] [Hmiss|(p & Hpos)]] Hkey]; simpl.
  - destruct Hmiss as [Hbig|Hflag]; [lia|].
    rewrite (getitem_Ok um k _ Hk Hflag). simpl.
    rewrite ?bool_decide_eq_true_2 by done. by eexists.
  - destruct Hpos as (_ & Hp & Hnan & Hlt).
    destruct (lookup_lt_is_Some_2 vals p Hlt) as [v Hv].
    assert (Hklt : (Z.to_nat k < length m)%nat)
      by (rewrite Hlen; by eapply lookup_lt_Some).
    rewrite (getitem_Ok um k _ Hk Hp). simpl.
    rewrite bool_decide_eq_false_2 by done.
    rewrite (getitem_Ok vals (Z.of_nat p) v) by (rewrite ?Nat2Z.id; done || lia). simpl.
    rewrite setitem_Scalar_Ok by lia. simpl.
    apply IH; [by rewrite length_insert | done |].
    apply Exists_cons in Hex as [Hex|Hex]; [|done].
    exfalso. eapply position_not_missing; [|exact Hex]. by repeat split.
Qed.

(** *** The loops of [_set_vals_uids_multiple] and [_set_vals_uids_single] *)

Lemma set_step_Ok um (vals : list V) k p x :
  position_in um (length vals) k p →
  FusedArray._set_vals_uid vals um k (Ok x) = Ok (<[p := x]> vals).
Proof.
  intros (Hk & Hp & Hnan & Hlt). unfold FusedArray._set_vals_uid.
  apply lookup_lt_Some in Hp as Hklt.
  rewrite bool_decide_eq_false_2 by lia.
  rewrite (getitem_Ok um k _ Hk Hp). simpl.
  rewrite bool_decide_eq_false_2 by done.
  rewrite bool_decide_eq_false_2 by lia. simpl.
  rewrite setitem_Scalar_Ok by lia. by rewrite Nat2Z.id.
Qed.

Lemma set_step_rhs_Err um (vals : list V) k p e :
  position_in um (length vals) k p →
  FusedArray._set_vals_uid vals um k (Err e) = Err e.
Proof.
  intros (Hk & Hp & Hnan & Hlt). unfold FusedArray._set_vals_uid.
  apply lookup_lt_Some in Hp as Hklt.
  rewrite bool_decide_eq_false_2 by lia.
  rewrite (getitem_Ok um k _ Hk Hp). simpl.
  rewrite bool_decide_eq_false_2 by done.
  by rewrite bool_decide_eq_false_2 by lia.
Qed.

Lemma set_step_missing um (vals : list V) k rhs :
  0 ≤ k → missing_in um k →
  ∃ e, FusedArray._set_vals_uid vals um k rhs = Err e ∧ IdentifierNotFound e.
Proof.
  intros Hk [Hbig|Hflag]; unfold FusedArray._set_vals_uid.
  - rewrite bool_decide_eq_true_2 by done. by eexists.
  - apply lookup_lt_Some in Hflag as Hklt.
    rewrite bool_decide_eq_false_2 by lia.
    rewrite (getitem_Ok um k _ Hk Hflag). simpl.
    rewrite ?bool_decide_eq_true_2 by done. by eexists.
Qed.

Lemma set_loop_Err (rhs : Z → res V) um key : ∀ vals i,
  (∀ j, i ≤ j < i + Z.of_nat (length key) → ∃ x, rhs j = Ok x) →
  Forall (λ u, 0 ≤ u ∧ (missing_in um u ∨ ∃ p, position_in um (length vals) u p)) key →
  Exists (missing_in um) key →
  ∃ vals' e, FusedArray._set_vals_uids_loop rhs vals key um i = (vals', Some e) ∧
             IdentifierNotFound e.
Proof.
  induction key as [|k key IH]; intros vals i Hrhs Hkey Hex; [by inversion Hex|].
  apply Forall_cons in Hkey as [[Hk [Hmiss|(p & Hpos)]] Hkey]; simpl in *.
  - destruct (set_step_missing um vals k (rhs i) Hk Hmiss) as (e & -> & He).
    by exists vals, e.
  - destruct (Hrhs i) as [x Hi]; [lia|]. rewrite Hi.
    rewrite (set_step_Ok um vals k p x Hpos).
    apply IH; [intros j Hj; apply Hrhs; lia | by rewrite length_insert |].
    apply Exists_cons in Hex as [Hex|Hex]; [|done].
    exfalso. by eapply position_not_missing.
Qed.

Lemma set_loop_Ok (rhs : Z → res V) um key : ∀ vals i,
  Forall (λ u, ∃ p, position_in um (length vals) u p) key →
  (∀ j, i ≤ j < i + Z.of_nat (length key) → ∃ x, rhs j = Ok x) →
  ∃ vals', FusedArray._set_vals_uids_loop rhs vals key um i = (vals', None) ∧
           length vals' = length vals.
Proof.
  induction key as [|k key IH]; intros vals i Hkey Hrhs; [by exists vals|].
  apply Forall_cons in Hkey as [(p & Hpos) Hkey]. simpl in *.
  destruct (Hrhs i) as [x Hx]; [lia|]. rewrite Hx, (set_step_Ok um vals k p x Hpos).
  destruct (IH (<[p := x]> vals) (i + 1)) as (vals' & Hrun & Hlen).
  - by rewrite length_insert.
  - intros j Hj. apply Hrhs. lia.
  - exists vals'. split; [done|]. by rewrite Hlen, length_insert.
Qed.

Lemma set_loop_app (rhs : Z → res V) um k1 k2 : ∀ vals i,
  FusedArray._set_vals_uids_loop rhs vals (k1 ++ k2) um i =
    match FusedArray._set_vals_uids_loop rhs vals k1 um i with
    | (vals', None) =>
        FusedArray._set_vals_uids_loop rhs vals' k2 um (i + Z.of_nat (length k1))
    | r => r
    end.
Proof.
  induction k1 as [|k k1 IH]; intros vals i; simpl.
  - by rewrite Z.add_0_r.
  - destruct (FusedArray._set_vals_uid vals um k (rhs i)); [|done].
    rewrite IH. replace (i + 1 + Z.of_nat (length k1)) with (i + Z.pos (Pos.of_succ_nat (length k1))) by lia.
    done.
Qed.

Lemma set_loop_ext (rhs rhs' : Z → res V) um key : ∀ vals i,
  (∀ j, i ≤ j < i + Z.of_nat (length key) → rhs j = rhs' j) →
  FusedArray._set_vals_uids_loop rhs vals key um i =
  FusedArray._set_vals_uids_loop rhs' vals key um i.
Proof.
  induction key as [|k key IH]; intros vals i Hext; [done|]. simpl in *.
  rewrite <- (Hext i) by lia.
  destruct (FusedArray._set_vals_uid vals um k (rhs i)); [|done].
  apply IH. intros j Hj. apply Hext. lia.
Qed.
(** [_get_vals_uids] reaches an identifier beyond the identity map: the
    subscript of the map leaves its bounds. *)
Lemma get_loop_beyond um (vals : list V) pre u post : ∀ i out m,
  length m = length um →
  Forall (λ u', ∃ p, position_in um (length vals) u' p) pre →
  Z.of_nat (length um) ≤ u →
  FusedArray._get_vals_uids_loop vals um (pre ++ u :: post) i out m =
    Err (OutOfBounds (oob_msg u (length um))).
Proof.
  induction pre as [|k pre IH]; intros i out m Hlen Hpre Hu.
  - simpl. by rewrite getitem_Err.
  - apply Forall_cons in Hpre as [(p & Hk & Hp & Hnan & Hlt) Hpre].
    destruct (lookup_lt_is_Some_2 vals p Hlt) as [v Hv].
    assert (Hklt : (Z.to_nat k < length m)%nat)
      by (rewrite Hlen; by eapply lookup_lt_Some).
    simpl. rewrite (getitem_Ok um k _ Hk Hp). simpl.
    rewrite bool_decide_eq_false_2 by done.
    rewrite (getitem_Ok vals (Z.of_nat p) v) by (rewrite ?Nat2Z.id; done || lia). simpl.
    rewrite setitem_Scalar_Ok by lia. simpl.
    apply IH; [by rewrite length_insert | done | done].
Qed.

(** A value array that has an element for every turn of the loop is read
    within its bounds. *)
Lemma value_covers (value : list V) (n : nat) (j : Z) :
  (n ≤ length value)%nat → 0 ≤ j < 0 + Z.of_nat n →
  ∃ x, unchecked (getitem value j) = Ok x.
Proof.
  intros Hn Hj. destruct (lookup_lt_is_Some_2 value (Z.to_nat j)) as [x Hx]; [lia|].
  exists x. by rewrite (getitem_Ok value j x) by (lia || done).
Qed.
End fused_facts.

(** C6 (fail-fast on missing identifiers) fails on the code for a get by
    an array or a list of identifiers that names an identifier beyond the
    identity map. [_get_vals_uids] subscripts the identity map without
    comparing the identifier with its size, and as a kernel compiled by
    numba it is not stopped at the bounds: when the identifiers before
    [u] are placed and [u] lies beyond the map, the get raises no
    [IndexError] and goes out of bounds. A get by [u] alone raises, and
    so does a set by the same array, whose kernel makes the comparison. *)
Theorem get_beyond_identity_map_is_unchecked {V : Type}
    (c : States.FusedArray.t V) (us : list Z) (k : nat) (u : Z) :
  us !! k = Some u →
  Z.of_nat (length (States.FusedArray._uid_map c)) ≤ u →
  (∀ j u', (j < k)%nat → us !! j = Some u' → ∃ p, position c u' p) →
  missing c u ∧
  (∃ m, States.FusedArray.__getitem__ c (Np.KArray us) = Err (OutOfBounds m)) ∧
  (∃ m, States.FusedArray.__getitem__ c (Np.KList us) = Err (OutOfBounds m)) ∧
  (∀ e, States.FusedArray.__getitem__ c (Np.KArray us) = Err e → ¬ IdentifierNotFound e) ∧
  (∃ e, States.FusedArray.__getitem__ c (Np.KInt u) = Err e ∧ IdentifierNotFound e) ∧
  (∀ x, ∃ c' e, States.FusedArray.__setitem__ c (Np.KArray us) (Np.Scalar x) =
                  (c', Some e) ∧ IdentifierNotFound e).
Proof.
  intros Hk Hu Hbefore. destruct c as [vals uid um]. unfold missing, position in *.
  cbn [States.FusedArray._uid_map States.FusedArray.values] in *.
  assert (Hpre : Forall (λ u', ∃ p, position_in um (length vals) u' p) (take k us)).
  { apply Forall_forall. intros u' (j & Hj)%list_elem_of_lookup_1.
    apply lookup_take_Some in Hj as [Hj Hjk]. by eapply Hbefore. }
  assert (Hget : States.FusedArray._get_vals_uids vals us um =
                 Err (OutOfBounds (Np.oob_msg u (length um)))).
  { unfold States.FusedArray._get_vals_uids.
    rewrite <- (take_drop_middle us k u Hk).
    rewrite (get_loop_beyond um vals (take k us) u (drop (S k) us));
      [done | apply length_replicate | done | done]. }
  split; [by left|].
  unfold States.FusedArray.__getitem__, States.FusedArray.__setitem__.
  cbn [States.FusedArray._uid_map States.FusedArray.values States.FusedArray.uid].
  rewrite Hget. cbn [bind]. rewrite reraise_OutOfBounds.
  split; [by eexists|]. split; [by eexists|]. split; [intros e [= <-] Hnf; exact Hnf|]. split.
  - rewrite (getitem_Err um u Hu). cbn [bind]. eexists. split; [done|].
    by apply reraise_IdentifierNotFound.
  - intros x. unfold States.FusedArray._set_vals_uids_single.
    rewrite <- (take_drop_middle us k u Hk). rewrite set_loop_app.
    destruct (set_loop_Ok (λ _, Ok x) um (take k us) vals 0) as (vals' & -> & Hlen');
      [done | by eexists |].
    destruct (set_step_missing um vals' u (Ok x)) as (e & He & Hnf); [lia | by left |].
    cbn [States.FusedArray._set_vals_uids_loop]. rewrite He. cbn [fst snd fmap option_fmap option_map].
    do 2 eexists. split; [done|]. by apply reraise_IdentifierNotFound.
Qed.

(** Where the code does check, a missing identifier fails fast. In a
    column whose array holds at most [INT_NAN] values, take a key that
    names non-negative identifiers, each placed or without a position
    (beyond the identity map, or flagged in it as removed), one of them
    at least without. A get by one identifier raises
    [IdentifierNotFound], and so does a get by an array or a list whose
    identifiers all lie within the identity map. A set raises
    [IdentifierNotFound] for a scalar value and for a value array that
    has an element for every identifier of the key. *)
Theorem fail_fast_where_checked {V : Type}
    (f : States.FusedArray.t V) (k : Np.key) :
  Z.of_nat (length (States.FusedArray.values f)) ≤ Np.INT_NAN →
  Forall (λ u, 0 ≤ u ∧ (missing f u ∨ ∃ p, position f u p)) (key_uids k) →
  Exists (missing f) (key_uids k) →
  (((∃ u, k = Np.KInt u) ∨
    Forall (λ u, u < Z.of_nat (length (States.FusedArray._uid_map f))) (key_uids k)) →
   ∃ e, States.FusedArray.__getitem__ f k = Err e ∧ IdentifierNotFound e) ∧
  (∀ v, match v with
        | Np.Scalar _ => True
        | Np.Array vs => (length (key_uids k) ≤ length vs)%nat
        end →
        ∃ f' e, States.FusedArray.__setitem__ f k v = (f', Some e) ∧ IdentifierNotFound e).
Proof.
  intros Hsize Hall Hex. destruct f as [vals uid um]. unfold missing, position in *.
  simpl in *.
  assert (Harr : ∀ us, Forall (λ u, 0 ≤ u ∧
                          (missing_in um u ∨ ∃ p, position_in um (length vals) u p)) us →
            Exists (missing_in um) us →
            (Forall (λ u, u < Z.of_nat (length um)) us →
             ∃ e, States.FusedArray._get_vals_uids vals us um = Err e ∧ IdentifierNotFound e) ∧
            (∀ x, ∃ vals' e, States.FusedArray._set_vals_uids_single vals us um x =
                               (vals', Some e) ∧ IdentifierNotFound e) ∧
            (∀ vs, (length us ≤ length vs)%nat →
               ∃ vals' e, States.FusedArray._set_vals_uids_multiple vals us um vs =
                            (vals', Some e) ∧ IdentifierNotFound e)).
  { intros us Hus Hxs. split; [|split].
    - intros Hin.
      destruct (get_loop_Err um vals us 0 [] (Np.full (length um) Np.INT_NAN))
        as (e & He & Hnf); [apply length_replicate | | done |].
      { rewrite Forall_forall in Hus, Hin |- *. intros w Hw.
        destruct (Hus w Hw) as [H0 Hc]. specialize (Hin w Hw). split; [lia | done]. }
      unfold States.FusedArray._get_vals_uids. rewrite He. by exists e.
    - intros x. apply set_loop_Err; [by eexists | done | done].
    - intros vs Hvs. apply set_loop_Err; [|done|done].
      intros j Hj. by apply (value_covers vs (length us)). }
  destruct k as [u|us|mask|sl|us]; simpl in *;
    try (by apply Exists_nil in Hex).
  - apply Exists_cons in Hex as [Hex|Hex]; [|by apply Exists_nil in Hex].
    apply Forall_cons in Hall as [[Hu _] _].
    unfold States.FusedArray.__getitem__, States.FusedArray.__setitem__. simpl.
    destruct Hex as [Hbig|Hflag].
    + rewrite (getitem_Err um u Hbig). simpl. split.
      * intros _. eexists. split; [done|]. by apply reraise_IdentifierNotFound.
      * intros v _. do 2 eexists. split; [done|]. by apply reraise_IdentifierNotFound.
    + rewrite (getitem_Ok um u _ Hu Hflag). simpl.
      rewrite (getitem_Err vals _ Hsize). simpl. split.
      * intros _. eexists. split; [done|]. by apply reraise_IdentifierNotFound.
      * intros v _. rewrite (setitem_Err vals _ v Hsize). simpl.
        do 2 eexists. split; [done|]. by apply reraise_IdentifierNotFound.
  - destruct (Harr us Hall Hex) as (Hget & Hone & Hmany). split.
    + intros [[u [=]]|Hin]. destruct (Hget Hin) as (e & He & Hnf).
      unfold States.FusedArray.__getitem__.
      cbn [States.FusedArray.values States.FusedArray._uid_map].
      rewrite He. simpl. eexists. split; [done|]. by apply reraise_IdentifierNotFound.
    + intros [x|vs] Hv; unfold States.FusedArray.__setitem__; simpl.
      * destruct (Hone x) as (vals' & e' & -> & Hnf'). simpl.
        do 2 eexists. split; [done|]. by apply reraise_IdentifierNotFound.
      * destruct (Hmany vs Hv) as (vals' & e' & -> & Hnf'). simpl.
        do 2 eexists. split; [done|]. by apply reraise_IdentifierNotFound.
  - destruct (Harr us Hall Hex) as (Hget & Hone & Hmany). split.
    + intros [[u [=]]|Hin]. destruct (Hget Hin) as (e & He & Hnf).
      unfold States.FusedArray.__getitem__.
      cbn [States.FusedArray.values States.FusedArray._uid_map].
      rewrite He. simpl. eexists. split; [done|]. by apply reraise_IdentifierNotFound.
    + intros [x|vs] Hv; unfold States.FusedArray.__setitem__; simpl.
      * destruct (Hone x) as (vals' & e' & -> & Hnf'). simpl.
        do 2 eexists. split; [done|]. by apply reraise_IdentifierNotFound.
      * destruct (Hmany vs Hv) as (vals' & e' & -> & Hnf'). simpl.
        do 2 eexists. split; [done|]. by apply reraise_IdentifierNotFound.
Qed.

(** C9 (chained identifier indexing). Indexing a column by an array of
    placed identifiers returns a new [FusedArray], labelled by that array,
    in which every identifier of the array resolves to the value it has in
    the column. *)
Theorem chained_identifier_indexing {V : Type}
    (c : States.FusedArray.t V) (us : list Z) :
  Forall (λ u, ∃ p, position c u p) us →
  ∃ r, States.FusedArray.__getitem__ c (Np.KArray us) = Ok (States.FusedArray.Fused r) ∧
       States.FusedArray.uid r = us ∧
       ∀ u, u ∈ us →
         ∃ v, States.FusedArray.__getitem__ c (Np.KInt u) = Ok (States.FusedArray.Value v) ∧
              States.FusedArray.__getitem__ r (Np.KInt u) = Ok (States.FusedArray.Value v).
Proof.
  intros Hus. destruct c as [vals uid um]. unfold position in *. simpl in *.
  destruct (get_loop_Ok um vals us [] (Np.full (length um) Np.INT_NAN) (λ _, False))
    as (out & m & Hrun & Htr & _); [apply length_replicate | by intros ? [] | done |].
  exists (States.FusedArray.mk out us m).
  unfold States.FusedArray.__getitem__, States.FusedArray._get_vals_uids.
  cbn [States.FusedArray.values States.FusedArray._uid_map States.FusedArray.uid].
  change (Z.of_nat (length (@nil V))) with 0 in Hrun.
  rewrite Hrun. simpl. split; [done|]. split; [done|].
  intros u Hu. destruct (Htr u (or_intror Hu)) as (j & p & v & H0 & Hm & Hout & Hum & Hv).
  exists v.
  rewrite (getitem_Ok um u _ H0 Hum), (getitem_Ok m u _ H0 Hm). simpl.
  rewrite (getitem_Ok vals (Z.of_nat p) v), (getitem_Ok out (Z.of_nat j) v);
    rewrite ?Nat2Z.id; done || lia.
Qed.

Lemma three_agents_position (u : Z) (p : nat) :
  u = Z.of_nat p → (p < 3)%nat → position three_agents u p.
Proof.
  intros -> Hp. unfold position, position_in. simpl.
  rewrite Nat2Z.id. repeat split; [lia | | unfold Np.INT_NAN; lia | done].
  by destruct p as [|[|[|]]]; [..|lia].
Qed.

Lemma chained_identifier_indexing_witness :
  ∃ r, States.FusedArray.__getitem__ three_agents (Np.KArray [2; 0]) =
         Ok (States.FusedArray.Fused r) ∧
       States.FusedArray.uid r = [2; 0] ∧
       ∀ u, u ∈ [2; 0] →
         ∃ v, States.FusedArray.__getitem__ three_agents (Np.KInt u) =
                Ok (States.FusedArray.Value v) ∧
              States.FusedArray.__getitem__ r (Np.KInt u) = Ok (States.FusedArray.Value v).
Proof.
  apply (chained_identifier_indexing three_agents [2; 0]).
  repeat constructor.
  - exists 2%nat. apply three_agents_position; [done | lia].
  - exists 0%nat. apply three_agents_position; [done | lia].
Defined.

Lemma after_removal_missing : missing after_removal 1.
Proof. by right. Qed.

Lemma after_removal_position_0 : position after_removal 0 0.
Proof. unfold position, position_in, Np.INT_NAN. simpl. repeat split; lia || done. Qed.

Lemma get_beyond_identity_map_is_unchecked_witness :
  (∃ m, States.FusedArray.__getitem__ after_removal (Np.KArray [0; 7]) =
          Err (OutOfBounds m)) ∧
  (∃ e, States.FusedArray.__getitem__ after_removal (Np.KInt 7) = Err e ∧
        IdentifierNotFound e) ∧
  (∃ c' e, States.FusedArray.__setitem__ after_removal (Np.KArray [0; 7]) (Np.Scalar 5) =
             (c', Some e) ∧ IdentifierNotFound e).
Proof.
  destruct (get_beyond_identity_map_is_unchecked after_removal [0; 7] 1 7)
    as (_ & Hget & _ & _ & Hint & Hset).
  - reflexivity.
  - simpl. lia.
  - intros [|j] u' Hj; [|lia]. intros [= <-].
    exists 0%nat. apply after_removal_position_0.
  - split; [exact Hget|]. split; [exact Hint | exact (Hset 5)].
Defined.

Lemma fail_fast_where_checked_witness :
  (∃ e, States.FusedArray.__getitem__ after_removal (Np.KArray [0; 1]) = Err e ∧
        IdentifierNotFound e) ∧
  (∃ f' e, States.FusedArray.__setitem__ after_removal (Np.KArray [0; 1])
             (Np.Array [5; 6]) = (f', Some e) ∧ IdentifierNotFound e).
Proof.
  destruct (fail_fast_where_checked after_removal (Np.KArray [0; 1])) as [Hget Hset].
  - unfold Np.INT_NAN. simpl. lia.
  - apply Forall_cons. split.
    { split; [lia|]. right. exists 0%nat. apply after_removal_position_0. }
    apply Forall_cons. split; [|apply Forall_nil_2].
    split; [lia|]. left. apply after_removal_missing.
  - apply Exists_cons_tl, Exists_cons_hd, after_removal_missing.
  - split.
    + apply Hget. right. simpl. repeat constructor; lia.
    + apply (Hset (Np.Array [5; 6])). simpl. lia.
Defined.

Example get_removed_identifier :
  States.FusedArray.__getitem__ after_removal (Np.KInt 1) =
    Err (IndexError "UID not present in array").
Proof. vm_compute. reflexivity. Qed.

Example get_beyond_identity_map :
  States.FusedArray.__getitem__ after_removal (Np.KArray [0; 7]) =
    Err (OutOfBounds "index 7 is out of bounds for axis 0 with size 4").
Proof. vm_compute. reflexivity. Qed.

(** ** Buffers *)
Section buffer_growth.
Import States.
Context {V : Type}.

Lemma DynamicView_grow_fits (dv : DynamicView.t V) k :
  (DynamicView.n dv + k ≤ DynamicView._s dv)%nat →
  DynamicView._data (DynamicView.grow dv k) = DynamicView._data dv.
Proof.
  intros Hfit. unfold DynamicView.grow. simpl.
  rewrite bool_decide_eq_false_2; [done | lia].
Qed.

Lemma DynamicView_grow_realloc (dv : DynamicView.t V) k :
  (DynamicView._s dv < DynamicView.n dv + k)%nat →
  DynamicView._data (DynamicView.grow dv k) =
    DynamicView._data dv ++
      replicate (k `max` (DynamicView._s dv `div` 2))%nat (DynamicView.fill_value dv).
Proof.
  intros Hbig. unfold DynamicView.grow. simpl.
  rewrite bool_decide_eq_true_2; done.
Qed.

Lemma DynamicView_grow_capacity (dv : DynamicView.t V) k :
  (DynamicView.n dv ≤ DynamicView._s dv)%nat →
  (DynamicView.n (DynamicView.grow dv k) ≤ DynamicView._s (DynamicView.grow dv k))%nat.
Proof.
  intros Hn. destruct (decide (DynamicView._s dv < DynamicView.n dv + k)%nat) as [Hb|Hb].
  - pose proof (DynamicView_grow_realloc dv k Hb) as Hd.
    unfold DynamicView._s in *. rewrite Hd, length_app, length_replicate. simpl. lia.
  - pose proof (DynamicView_grow_fits dv k ltac:(lia)) as Hd.
    unfold DynamicView._s in *. rewrite Hd. simpl. lia.
Qed.
End buffer_growth.

(** C8 (buffer growth policy). For a [DynamicView] and for the arrays of
    [BasePeople], [grow(k)] on logical length [n] and capacity [s] keeps
    the allocation as it is when [n + k <= s]; otherwise the capacity
    grows by exactly [max(k, floor(s/2))] and the old allocation is the
    front of the new one. The logical length becomes [n + k] in both
    cases and the capacity never shrinks. *)
Theorem buffer_growth_policy {V : Type} :
  (∀ (dv : States.DynamicView.t V) (k : nat),
     let n := States.DynamicView.n dv in
     let s := States.DynamicView._s dv in
     let dv' := States.DynamicView.grow dv k in
     States.DynamicView.n dv' = (n + k)%nat ∧
     (s ≤ States.DynamicView._s dv')%nat ∧
     ((n + k ≤ s)%nat →
        States.DynamicView._data dv' = States.DynamicView._data dv) ∧
     ((s < n + k)%nat →
        States.DynamicView._s dv' = (s + k `max` (s `div` 2))%nat ∧
        take s (States.DynamicView._data dv') = States.DynamicView._data dv)) ∧
  (∀ (p : Stisim.BasePeople.t V) (k : nat),
     let n := Stisim.BasePeople._n p in
     let s := Stisim.BasePeople._s p in
     let p' := (Stisim.BasePeople._grow p k).1 in
     Stisim.BasePeople._n p' = (n + k)%nat ∧
     (s ≤ Stisim.BasePeople._s p')%nat ∧
     ((n + k ≤ s)%nat →
        Stisim.BasePeople._s p' = s ∧
        Stisim.BasePeople.columns p' = Stisim.BasePeople.columns p) ∧
     ((s < n + k)%nat →
        Stisim.BasePeople._s p' = (s + k `max` (s `div` 2))%nat ∧
        Forall2 (λ c c',
                   Stisim.BasePeople.data c' =
                     Stisim.BasePeople.data c ++
                     Stisim.BasePeople.new c (k `max` (s `div` 2))%nat)
                (Stisim.BasePeople.columns p) (Stisim.BasePeople.columns p'))).
Proof.
  split.
  - intros dv k n s dv'. subst n s dv'. split; [done|].
    destruct (decide (States.DynamicView._s dv < States.DynamicView.n dv + k)%nat) as [Hb|Hb].
    + pose proof (DynamicView_grow_realloc dv k Hb) as Hd.
      unfold States.DynamicView._s in *. rewrite Hd, length_app, length_replicate.
      repeat split; try lia.
      by rewrite take_app_length.
    + pose proof (DynamicView_grow_fits dv k ltac:(lia)) as Hd.
      unfold States.DynamicView._s in *. rewrite Hd.
      repeat split; try lia; done.
  - intros p k n s p'. subst n s p'. unfold Stisim.BasePeople._grow. simpl.
    case_bool_decide as Hb; simpl.
    + repeat split; try lia.
      apply Forall2_fmap_r, Forall_Forall2_diag, Forall_forall.
      by intros c _.
    + repeat split; try lia; done.
Qed.

Example DynamicView_grow_minimum_half :
  let dv := States.DynamicView.mk 0 4 [1; 2; 3; 4] in
  States.DynamicView.grow dv 1 = States.DynamicView.mk 0 5 [1; 2; 3; 4; 0; 0].
Proof. reflexivity. Qed.

(** ** Dimensions *)
Section dimension_facts.
Import Np States.
Context {V : Type}.

Lemma nonzero_from_ge (k : Z) (mask : list bool) :
  Forall (λ i, k ≤ i) (nonzero_from k mask).
Proof.
  revert k. induction mask as [|b mask IH]; intros k; simpl; [constructor|].
  apply Forall_app. split.
  - destruct b; repeat constructor. lia.
  - eapply Forall_impl; [apply IH|]. simpl. intros. lia.
Qed.

Lemma nonzero_nonneg (mask : list bool) : Forall (λ i, 0 ≤ i) (nonzero mask).
Proof. apply nonzero_from_ge. Qed.

Lemma broadcast_Err (k : nat) (vs : list V) :
  length vs ≠ k → length vs ≠ 1%nat →
  ∃ e, broadcast k (Array vs) = Err e ∧ DimensionMismatch e.
Proof.
  intros Hk H1. unfold broadcast. rewrite bool_decide_eq_false_2 by done.
  destruct vs as [|x [|y vs]]; simpl in *; [by eexists | done | by eexists].
Qed.

Lemma broadcast_Scalar (k : nat) (x : V) : broadcast k (Scalar x) = Ok (replicate k x).
Proof. done. Qed.

Lemma broadcast_Array (vs : list V) : broadcast (length vs) (Array vs) = Ok vs.
Proof. unfold broadcast. by rewrite bool_decide_eq_true_2. Qed.

Lemma index_IdentifierNotFound size i e : index size i = Err e → IdentifierNotFound e.
Proof. unfold index. repeat case_bool_decide; by intros [= <-]. Qed.

Lemma indices_Ok (size : nat) (idx : list Z) :
  Forall (λ i, 0 ≤ i < Z.of_nat size) idx →
  mapR (index size) idx = Ok (Z.to_nat <$> idx).
Proof.
  induction 1 as [|i idx Hi _ IH]; simpl; [done|].
  by rewrite index_Ok, IH.
Qed.

Lemma indices_Err (size : nat) (idx : list Z) :
  Forall (λ i, 0 ≤ i) idx → Exists (λ i, Z.of_nat size ≤ i) idx →
  ∃ e, mapR (index size) idx = Err e ∧ IdentifierNotFound e.
Proof.
  intros Hpos Hex. destruct (mapR (index size) idx) as [ps|e] eqn:Hrun.
  - exfalso. apply mapR_Ok in Hrun. apply Exists_exists in Hex as (i & Hi & Hbig).
    apply list_elem_of_lookup_1 in Hi as [j Hj].
    destruct (Forall2_lookup_l _ _ _ _ _ Hrun Hj) as (p & _ & Hp).
    apply index_lt in Hp as Hlt.
    rewrite Forall_forall in Hpos. specialize (Hpos i (list_elem_of_lookup_2 _ _ _ Hj)).
    apply index_nonneg in Hp as [-> _]; [lia | done].
  - exists e. split; [done|]. revert Hrun. apply mapR_Err_Exists.
    intros ????. by eapply index_IdentifierNotFound.
Qed.

Lemma getitems_total (a : list V) (idx : list Z) :
  Forall (λ i, 0 ≤ i < Z.of_nat (length a)) idx →
  ∃ vs, getitems a idx = Ok vs ∧
        Forall2 (λ i v, a !! Z.to_nat i = Some v) idx vs.
Proof.
  intros Hidx. assert (Hpos : Forall (λ i, 0 ≤ i) idx)
    by (eapply Forall_impl; [done|]; simpl; intros; lia).
  induction Hidx as [|i idx Hi Hidx IH].
  - exists []. split; [done | constructor].
  - apply Forall_cons in Hpos as [Hi0 Hpos].
    destruct (IH Hpos) as (vs & Hvs & HF).
    destruct (lookup_lt_is_Some_2 a (Z.to_nat i)) as [v Hv]; [lia|].
    exists (v :: vs). split; [|by constructor].
    unfold getitems in *. simpl. by rewrite (getitem_Ok a i v Hi0 Hv), Hvs.
Qed.

Lemma getitems_Err (a : list V) (idx : list Z) :
  Forall (λ i, 0 ≤ i) idx → Exists (λ i, Z.of_nat (length a) ≤ i) idx →
  ∃ e, getitems a idx = Err e ∧ IdentifierNotFound e.
Proof.
  intros Hpos Hex. destruct (getitems a idx) as [vs|e] eqn:Hrun.
  - exfalso. apply getitems_Ok in Hrun; [|done].
    apply Exists_exists in Hex as (i & Hi & Hbig).
    apply list_elem_of_lookup_1 in Hi as [j Hj].
    destruct (Forall2_lookup_l _ _ _ _ _ Hrun Hj) as (v & _ & Hv).
    apply lookup_lt_Some in Hv.
    rewrite Forall_forall in Hpos. specialize (Hpos i (list_elem_of_lookup_2 _ _ _ Hj)).
    lia.
  - exists e. split; [done|]. by eapply getitems_IdentifierNotFound.
Qed.

Lemma slice_positions_full (len : nat) :
  slice_positions len full_slice = Ok (seq 0 len).
Proof.
  unfold slice_positions, full_slice. simpl.
  f_equal. case_bool_decide.
  - replace ((Z.of_nat len - 0 - 1) `div` 1 + 1) with (Z.of_nat len)
      by (rewrite Z.div_1_r; lia).
    apply list_eq. intros j. rewrite list_lookup_fmap.
    destruct (decide (j < len)%nat) as [Hj|Hj].
    + rewrite lookup_seqZ_lt, lookup_seq_lt by lia. simpl. f_equal. lia.
    + rewrite lookup_seqZ_ge, lookup_seq_ge by lia. done.
  - by replace len with 0%nat by lia.
Qed.
End dimension_facts.

(** C7 as stated fails on the code: a mask shorter than the live count
    is accepted, a set by an identifier array accepts a longer value
    array, and a one-element value array is repeated over the targets. *)
Lemma dimension_checking_counterexample :
  (length [true; false] ≠ length (States.FusedArray.values three_agents) ∧
   States.FusedArray.__getitem__ three_agents (Np.KMask [true; false]) =
     Ok (States.FusedArray.Fused
           (States.FusedArray.mk [10] [0] [0; Np.INT_NAN; Np.INT_NAN]))) ∧
  (length [7; 8; 9] ≠ length [0; 2] ∧
   States.FusedArray.__setitem__ three_agents (Np.KArray [0; 2]) (Np.Array [7; 8; 9]) =
     (States.FusedArray.mk [7; 20; 8] [0; 1; 2] [0; 1; 2], None)) ∧
  (length [5] ≠ length (Np.nonzero [true; false; true]) ∧
   States.FusedArray.__setitem__ three_agents (Np.KMask [true; false; true]) (Np.Array [5]) =
     (States.FusedArray.mk [5; 20; 5] [0; 1; 2] [0; 1; 2], None)).
Proof. vm_compute. repeat split; congruence. Qed.

Lemma reraise_DimensionMismatch e : DimensionMismatch e → States.reraise e = e.
Proof. by destruct e. Qed.

(** C7, amended (dimension checking). In a column whose [uid] has one
    identifier of the identity map per value:
    - a set keyed by a boolean mask, by the full slice or by one placed
      identifier, whose value is an array, raises [DimensionMismatch] and
      stores nothing whenever the array has neither one element nor as
      many elements as the key resolves positions;
    - a get or a set keyed by a boolean mask addresses the positions of
      the [True] entries of the mask, whatever its length: it succeeds
      when they all lie below the live count, and raises an [IndexError]
      when one of them does not. *)
Theorem dimension_checking {V : Type} (c : States.FusedArray.t V) :
  length (States.FusedArray.uid c) = length (States.FusedArray.values c) →
  Forall (λ u, 0 ≤ u < Z.of_nat (length (States.FusedArray._uid_map c)))
         (States.FusedArray.uid c) →
  (∀ (k : Np.key) (vs : list V) (n : nat),
     resolves c k n → length vs ≠ n → length vs ≠ 1%nat →
     ∃ e, States.FusedArray.__setitem__ c k (Np.Array vs) = (c, Some e) ∧
          DimensionMismatch e) ∧
  (∀ mask : list bool,
     Forall (λ i, i < Z.of_nat (length (States.FusedArray.values c))) (Np.nonzero mask) →
     (∃ r, States.FusedArray.__getitem__ c (Np.KMask mask) = Ok (States.FusedArray.Fused r) ∧
           Forall2 (λ i v, States.FusedArray.values c !! Z.to_nat i = Some v)
                   (Np.nonzero mask) (States.FusedArray.values r)) ∧
     (∀ x, ∃ c', States.FusedArray.__setitem__ c (Np.KMask mask) (Np.Scalar x) =
                   (c', None))) ∧
  (∀ mask : list bool,
     Exists (λ i, Z.of_nat (length (States.FusedArray.values c)) ≤ i) (Np.nonzero mask) →
     (∃ e, States.FusedArray.__getitem__ c (Np.KMask mask) = Err e ∧
           IdentifierNotFound e) ∧
     (∀ x, ∃ e, States.FusedArray.__setitem__ c (Np.KMask mask) (Np.Scalar x) =
                  (c, Some e) ∧ IdentifierNotFound e)).
Proof.
  destruct c as [vals uid um]. unfold resolves, position. simpl.
  intros Hlen Huid. split; [|split].
  - intros k vs n Hres Hn H1.
    unfold States.FusedArray.__setitem__.
    cbn [States.FusedArray.values States.FusedArray._uid_map States.FusedArray.uid].
    destruct k as [u|us|mask|sl|us]; try done.
    + destruct Hres as [(p & Hu & Hp & Hnan & Hlt) ->].
      rewrite (getitem_Ok um u _ Hu Hp). simpl. unfold Np.setitem.
      rewrite index_Ok by lia. simpl.
      destruct vs as [|x [|y vs]]; simpl in *; [|done|]; by eexists.
    + destruct Hres as [Hin ->]. unfold Np.setitems.
      destruct (broadcast_Err (length (Np.nonzero mask)) vs Hn H1) as (e & -> & He).
      simpl. exists e. by rewrite reraise_DimensionMismatch.
    + destruct Hres as [-> ->]. simpl. unfold Np.setslice.
      rewrite slice_positions_full. cbn [bind]. rewrite length_seq.
      destruct (broadcast_Err (length vals) vs Hn H1) as (e & -> & He).
      simpl. exists e. by rewrite reraise_DimensionMismatch.
  - intros mask Hin.
    pose proof (nonzero_nonneg mask) as Hpos.
    assert (Hidx : Forall (λ i, 0 ≤ i < Z.of_nat (length vals)) (Np.nonzero mask)).
    { apply Forall_forall. intros i Hi. rewrite Forall_forall in Hin, Hpos.
      split; [by apply Hpos | by apply Hin]. }
    split.
    + destruct (getitems_total uid (Np.nonzero mask)) as (uids & Huids & HFu);
        [by rewrite Hlen|].
      destruct (getitems_total vals (Np.nonzero mask) Hidx) as (out & Hout & HFv).
      assert (Hin_um : Forall (λ u, 0 ≤ u < Z.of_nat (length (Np.full (length um) Np.INT_NAN)))
                         uids).
      { unfold Np.full. rewrite length_replicate. apply Forall_forall. intros u Hu.
        apply list_elem_of_lookup_1 in Hu as [j Hj].
        destruct (Forall2_lookup_r _ _ _ _ _ HFu Hj) as (i & _ & Hi).
        rewrite Forall_forall in Huid. apply Huid. by eapply list_elem_of_lookup_2. }
      exists (States.FusedArray.mk out uids
                (Np.assign (Np.full (length um) Np.INT_NAN) (Z.to_nat <$> uids)
                           (Np.arange 0 (Z.of_nat (length uids))))).
      split; [|done].
      unfold States.FusedArray.__getitem__.
      cbn [States.FusedArray.values States.FusedArray._uid_map States.FusedArray.uid].
      rewrite Huids. simpl. unfold Np.setitems, Np.broadcast.
      rewrite bool_decide_eq_true_2
        by (unfold Np.arange; rewrite length_seqZ; lia).
      simpl. rewrite (indices_Ok _ _ Hin_um). simpl. by rewrite Hout.
    + intros x. unfold States.FusedArray.__setitem__.
      cbn [States.FusedArray.values States.FusedArray._uid_map States.FusedArray.uid].
      unfold Np.setitems. simpl. rewrite (indices_Ok _ _ Hidx). simpl. by eexists.
  - intros mask Hex. pose proof (nonzero_nonneg mask) as Hpos. split.
    + destruct (getitems_Err uid (Np.nonzero mask) Hpos) as (e & He & Hnf);
        [by rewrite Hlen|].
      unfold States.FusedArray.__getitem__.
      cbn [States.FusedArray.values States.FusedArray._uid_map States.FusedArray.uid].
      rewrite He. simpl. eexists. split; [done|]. by apply reraise_IdentifierNotFound.
    + intros x. destruct (indices_Err (length vals) (Np.nonzero mask) Hpos Hex)
        as (e & He & Hnf).
      unfold States.FusedArray.__setitem__.
      cbn [States.FusedArray.values States.FusedArray._uid_map States.FusedArray.uid].
      unfold Np.setitems. simpl. rewrite He. simpl.
      eexists. split; [done|]. by apply reraise_IdentifierNotFound.
Qed.

Lemma dimension_checking_witness :
  (∃ e, States.FusedArray.__setitem__ three_agents (Np.KMask [true; false; true])
          (Np.Array [1; 2; 3]) = (three_agents, Some e) ∧ DimensionMismatch e) ∧
  (∃ r, States.FusedArray.__getitem__ three_agents (Np.KMask [true; false]) =
          Ok (States.FusedArray.Fused r) ∧
        Forall2 (λ i v, States.FusedArray.values three_agents !! Z.to_nat i = Some v)
                (Np.nonzero [true; false]) (States.FusedArray.values r)) ∧
  (∃ e, States.FusedArray.__getitem__ three_agents (Np.KMask [false; false; false; true]) =
          Err e ∧ IdentifierNotFound e).
Proof.
  assert (H1 : length (States.FusedArray.uid three_agents) =
               length (States.FusedArray.values three_agents)) by reflexivity.
  assert (H2 : Forall (λ u, 0 ≤ u < Z.of_nat (length (States.FusedArray._uid_map three_agents)))
                 (States.FusedArray.uid three_agents)).
  { simpl. repeat (apply Forall_cons; split; [lia|]). apply Forall_nil_2. }
  destruct (dimension_checking three_agents H1 H2) as (Hset & Hin & Hout).
  split; [|split].
  - apply (Hset (Np.KMask [true; false; true]) [1; 2; 3] 2%nat).
    + split; [|reflexivity]. simpl.
      repeat (apply Forall_cons; split; [lia|]). apply Forall_nil_2.
    + simpl. lia.
    + simpl. lia.
  - apply (Hin [true; false]). simpl.
    repeat (apply Forall_cons; split; [lia|]). apply Forall_nil_2.
  - apply (Hout [false; false; false; true]). simpl.
    apply Exists_cons_hd. lia.
Defined.

(** ** Slices and stretches of consecutive positions *)
Section stretch_facts.
Import Np.
Context {A : Type}.
Implicit Types (a : list A).

Lemma arange_seqZ (s : Z) (k : Z) : arange s (s + k) = seqZ s k.
Proof. unfold arange. f_equal. lia. Qed.

Lemma arange_0 (k : nat) : arange 0 (Z.of_nat k) = seqZ 0 (Z.of_nat k).
Proof. unfold arange. f_equal. lia. Qed.

Lemma to_nat_seqZ (lo k : nat) :
  Z.to_nat <$> seqZ (Z.of_nat lo) (Z.of_nat k) = seq lo k.
Proof.
  apply list_eq. intros j. rewrite list_lookup_fmap.
  destruct (decide (j < k)%nat) as [Hj|Hj].
  - rewrite lookup_seqZ_lt, lookup_seq_lt by lia. simpl. f_equal. lia.
  - rewrite lookup_seqZ_ge, lookup_seq_ge by lia. done.
Qed.

Lemma positions_seq (lo k : nat) :
  (λ j, Z.to_nat (Z.of_nat lo + j * 1)) <$> seqZ 0 (Z.of_nat k) = seq lo k.
Proof.
  apply list_eq. intros j. rewrite list_lookup_fmap.
  destruct (decide (j < k)%nat) as [Hj|Hj].
  - rewrite lookup_seqZ_lt, lookup_seq_lt by lia. simpl. f_equal. lia.
  - rewrite lookup_seqZ_ge, lookup_seq_ge by lia. done.
Qed.

Lemma clamp_id (n x : Z) : x ≤ n → (if bool_decide (n ≤ x) then n else x) = x.
Proof. intros Hx. case_bool_decide; lia. Qed.

(** [[lo:hi]] within the array *)
Lemma slice_positions_range (len lo hi : nat) :
  (lo ≤ hi ≤ len)%nat →
  slice_positions len (Slice (Some (Z.of_nat lo)) (Some (Z.of_nat hi)) None) =
    Ok (seq lo (hi - lo)).
Proof.
  intros Hr. unfold slice_positions. cbn [step start stop default from_option].
  rewrite (bool_decide_eq_false_2 (1 = 0)) by lia.
  rewrite !(bool_decide_eq_false_2 (_ < 0)) by lia.
  rewrite (bool_decide_eq_true_2 (0 < 1)) by lia.
  f_equal.
  rewrite !clamp_id by lia. case_bool_decide.
  - rewrite Z.div_1_r.
    replace (Z.of_nat hi - Z.of_nat lo - 1 + 1) with (Z.of_nat (hi - lo)) by lia.
    apply positions_seq.
  - by replace (hi - lo)%nat with 0%nat by lia.
Qed.

(** [[:hi]] within the array *)
Lemma slice_positions_prefix (len hi : nat) :
  (hi ≤ len)%nat →
  slice_positions len (Slice None (Some (Z.of_nat hi)) None) = Ok (seq 0 hi).
Proof.
  intros Hr. unfold slice_positions. cbn [step start stop default from_option].
  rewrite (bool_decide_eq_false_2 (1 = 0)) by lia.
  rewrite !(bool_decide_eq_false_2 (_ < 0)) by lia.
  rewrite (bool_decide_eq_true_2 (0 < 1)) by lia.
  f_equal. rewrite clamp_id by lia. case_bool_decide.
  - rewrite Z.div_1_r.
    replace (Z.of_nat hi - 0 - 1 + 1) with (Z.of_nat hi) by lia.
    apply (positions_seq 0).
  - by replace hi with 0%nat by lia.
Qed.

Lemma broadcast_length (k : nat) (v : value A) vs :
  broadcast k v = Ok vs → length vs = k.
Proof.
  destruct v as [x|xs]; simpl.
  - intros [= <-]. apply length_replicate.
  - case_bool_decide; [by intros [= <-]|].
    destruct xs as [|x [|]]; intros [= <-]. apply length_replicate.
Qed.

Lemma set_length a k v a' : set a k v = Ok a' → length a' = length a.
Proof.
  destruct k as [i|idx|mask|s|idx]; simpl.
  - apply setitem_length.
  - unfold setitems. intros (vs & _ & (ps & _ & [= <-])%bind_Ok)%bind_Ok.
    apply assign_length.
  - unfold setmask, setitems. case_bool_decide; [|done].
    intros (vs & _ & (ps & _ & [= <-])%bind_Ok)%bind_Ok. apply assign_length.
  - unfold setslice. intros (ps & _ & (vs & _ & [= <-])%bind_Ok)%bind_Ok.
    apply assign_length.
  - unfold setitems. intros (vs & _ & (ps & _ & [= <-])%bind_Ok)%bind_Ok.
    apply assign_length.
Qed.

(** A store at the positions that follow [a] *)
Lemma setitems_tail a junk xs :
  length junk = length xs →
  setitems (a ++ junk) (seqZ (Z.of_nat (length a)) (Z.of_nat (length xs))) (Array xs) =
    Ok (a ++ xs).
Proof.
  intros Hlen. unfold setitems, broadcast.
  rewrite bool_decide_eq_true_2 by (rewrite length_seqZ; lia). cbn [bind].
  rewrite indices_Ok.
  - cbn [bind]. rewrite to_nat_seqZ, assign_seq by (rewrite length_app; lia).
    rewrite take_app_length, drop_ge by (rewrite length_app; lia).
    by rewrite app_nil_r.
  - apply Forall_seqZ. intros i Hi. rewrite length_app. lia.
Qed.

(** [a[:] = x] *)
Lemma setslice_full_Scalar a x :
  setslice a full_slice (Scalar x) = Ok (replicate (length a) x).
Proof.
  unfold setslice. rewrite slice_positions_full. cbn [bind broadcast].
  rewrite length_seq. f_equal.
  rewrite <- (length_replicate (length a) x) at 1.
  rewrite assign_seq by (rewrite length_replicate; lia).
  rewrite drop_ge by (rewrite length_replicate; lia). by rewrite app_nil_r.
Qed.

(** [a[:] = xs] *)
Lemma setslice_full_Array a xs :
  length xs = length a → setslice a full_slice (Array xs) = Ok xs.
Proof.
  intros Hlen. unfold setslice. rewrite slice_positions_full. cbn [bind].
  rewrite length_seq, <- Hlen, broadcast_Array. cbn [bind]. f_equal.
  rewrite assign_seq by lia. rewrite drop_ge by lia. by rewrite app_nil_r.
Qed.

(** [a[:k] = xs] *)
Lemma setslice_prefix a xs :
  (length xs ≤ length a)%nat →
  setslice a (Slice None (Some (Z.of_nat (length xs))) None) (Array xs) =
    Ok (xs ++ drop (length xs) a).
Proof.
  intros Hlen. unfold setslice. rewrite slice_positions_prefix by done. cbn [bind].
  rewrite length_seq, broadcast_Array. cbn [bind]. f_equal.
  by rewrite assign_seq by lia.
Qed.

(** [a[lo:hi] = x] *)
Lemma setslice_range_Scalar a (lo hi : nat) x :
  (lo ≤ hi ≤ length a)%nat →
  setslice a (Slice (Some (Z.of_nat lo)) (Some (Z.of_nat hi)) None) (Scalar x) =
    Ok (take lo a ++ replicate (hi - lo) x ++ drop hi a).
Proof.
  intros Hr. unfold setslice. rewrite slice_positions_range by done.
  cbn [bind broadcast]. rewrite length_seq. f_equal.
  rewrite <- (length_replicate (hi - lo) x) at 1.
  rewrite assign_seq by (rewrite length_replicate; lia).
  rewrite length_replicate. do 3 f_equal. lia.
Qed.
End stretch_facts.

(** ** The [State] of removing_people.py *)
Section proto_state_facts.
Import Np RemovingPeople.
Context {A : Type}.
Implicit Types (s : State.t A).

Lemma State_values_length s : st_wf s → length (State.values s) = State.n s.
Proof. intros Hwf. unfold State.values. by rewrite length_take_le. Qed.

Lemma State_filled_length s size k new :
  State.filled s size k = Ok new → length new = size.
Proof.
  unfold State.filled. destruct (State.fill_value s).
  - intros [= <-]. apply length_replicate.
  - apply broadcast_length.
Qed.

Lemma State_store_values s vals :
  length vals = State.n s →
  State.values (State.store s vals) = vals ∧ st_wf (State.store s vals).
Proof.
  intros Hlen. unfold State.values, State.store, st_wf. simpl. split.
  - by rewrite take_app_length'.
  - rewrite length_app. lia.
Qed.

Lemma State_setitem_inv um s k v s' :
  State.__setitem__ um s k v = Ok s' →
  st_wf s →
  ∃ vals, s' = State.store s vals ∧ length vals = State.n s.
Proof.
  unfold State.__setitem__. intros (vals & Hset & [= <-])%bind_Ok Hwf.
  exists vals. split; [done|]. rewrite <- (State_values_length s Hwf).
  destruct um as [um|]; [|by eapply set_length].
  destruct k; try (by eapply set_length);
    apply bind_Ok in Hset as (? & _ & Hset); by eapply set_length.
Qed.

Lemma State_grow_inv s k s' :
  State.grow s k = Ok s' → st_wf s →
  st_wf s' ∧ State.n s' = (State.n s + k)%nat ∧
  State.values s = take (State.n s) (State.values s') ∧
  State.fill_value s' = State.fill_value s ∧ State.name s' = State.name s.
Proof.
  unfold State.grow, st_wf, State.values, State._s.
  intros (data & Hdata & [= <-])%bind_Ok Hwf. simpl.
  assert (Hpre : (State.n s + k ≤ length data)%nat ∧
                 take (State.n s) data = take (State.n s) (State._data s)).
  { case_bool_decide as Hb.
    - apply bind_Ok in Hdata as (new & Hnew & [= <-]).
      apply State_filled_length in Hnew. rewrite length_app, Hnew.
      split; [lia|]. by rewrite take_app_le.
    - injection Hdata as <-. split; [lia | done]. }
  destruct Hpre as [Hlen Htake]. repeat split; try done.
  rewrite take_take, Nat.min_l by lia. done.
Qed.

(** Growing by [k] and then storing [xs] at the [k] new positions
    appends [xs] to the values. *)
Lemma State_grow_setitems s k s1 (xs : list A) :
  State.grow s k = Ok s1 → st_wf s → length xs = k →
  State.__setitem__ None s1
      (KArray (arange (Z.of_nat (State.n s)) (Z.of_nat (State.n s) + Z.of_nat k)))
      (Array xs) =
    Ok (State.store s1 (State.values s ++ xs)).
Proof.
  intros Hgrow Hwf Hlen.
  destruct (State_grow_inv s k s1 Hgrow Hwf) as (Hwf1 & Hn1 & Hvals & _).
  unfold State.__setitem__. cbn [set].
  pose proof (State_values_length s1 Hwf1) as Hl1.
  pose proof (State_values_length s Hwf) as Hl.
  rewrite <- (take_drop (State.n s) (State.values s1)), <- Hvals.
  rewrite arange_seqZ, <- Hl, <- Hlen.
  rewrite setitems_tail; [done|].
  rewrite length_drop. lia.
Qed.

Lemma State_trim_spec s (inds : list Z) (kept : list A) :
  st_wf s →
  Forall2 (λ i v, 0 ≤ i ∧ State.values s !! Z.to_nat i = Some v) inds kept →
  (length inds ≤ State.n s)%nat →
  ∃ s', State._trim s inds = Ok s' ∧ State.values s' = kept ∧ st_wf s' ∧
        State._data s' = kept ++ drop (length kept) (State._data s) ∧
        State.n s' = length kept ∧
        State.fill_value s' = State.fill_value s ∧ State.name s' = State.name s.
Proof.
  intros Hwf HF Hlen. unfold State._trim, st_wf in *.
  apply Forall2_length in HF as Hlk.
  assert (Hget : getitems (State._data s) inds = Ok kept).
  { apply getitems_Ok.
    - apply Forall_forall. intros i Hi. apply list_elem_of_lookup_1 in Hi as [j Hj].
      by destruct (Forall2_lookup_l _ _ _ _ _ HF Hj) as (v & _ & H0 & _).
    - eapply Forall2_impl; [done|]. simpl. intros i v [_ Hv].
      unfold State.values in Hv. by apply lookup_take_Some in Hv as [Hv _]. }
  rewrite Hget. cbn [bind]. rewrite Hlk, setslice_prefix by lia. cbn [bind].
  eexists. split; [done|]. unfold State.values. simpl.
  rewrite take_app_length. repeat split; try done.
  rewrite length_app. lia.
Qed.

(** Keeping every position changes nothing. *)
Lemma State_trim_all s :
  st_wf s → State._trim s (arange 0 (Z.of_nat (State.n s))) = Ok s.
Proof.
  intros Hwf.
  destruct (State_trim_spec s (arange 0 (Z.of_nat (State.n s))) (State.values s) Hwf)
    as (s' & Hrun & _ & _ & Hdata & Hn & Hfill & Hname).
  - apply Forall2_same_length_lookup. split.
    + rewrite arange_0, length_seqZ, State_values_length by done. lia.
    + intros j i v Hi Hv. rewrite arange_0 in Hi.
      apply lookup_seqZ in Hi as [-> Hj]. split; [lia|].
      by rewrite Z.add_0_l, Nat2Z.id.
  - rewrite arange_0, length_seqZ. lia.
  - rewrite Hrun. f_equal. destruct s as [nm fv n data], s' as [nm' fv' n' data'].
    simpl in *. subst. unfold State.values in *. simpl in *.
    rewrite length_take_le by done. by rewrite take_drop.
Qed.
End proto_state_facts.

(** ** The [State] of starsim/states.py *)
Section states_state_facts.
Import Np States.
Context {V : Type}.
Implicit Types (dv : DynamicView.t V) (c : State.t V).

Lemma DynamicView_view_length dv :
  dv_wf dv → length (DynamicView._view dv) = DynamicView.n dv.
Proof. intros Hwf. unfold DynamicView._view. by rewrite length_take_le. Qed.

Lemma DynamicView_grow_wf dv k : dv_wf dv → dv_wf (DynamicView.grow dv k).
Proof. apply DynamicView_grow_capacity. Qed.

Lemma DynamicView_setitem_inv dv k v dv' :
  DynamicView.__setitem__ dv k v = Ok dv' → dv_wf dv →
  dv_wf dv' ∧ DynamicView.n dv' = DynamicView.n dv ∧
  DynamicView.fill_value dv' = DynamicView.fill_value dv ∧
  set (DynamicView._view dv) k v = Ok (DynamicView._view dv').
Proof.
  unfold DynamicView.__setitem__. intros (view & Hset & [= <-])%bind_Ok Hwf.
  apply set_length in Hset as Hlen. rewrite DynamicView_view_length in Hlen by done.
  unfold dv_wf, DynamicView._view in *. simpl. repeat split; try done.
  - rewrite length_app. lia.
  - by rewrite take_app_length'.
Qed.

Lemma DynamicView_trim_spec dv (inds : list Z) (kept : list V) :
  dv_wf dv →
  Forall2 (λ i v, 0 ≤ i ∧ DynamicView._view dv !! Z.to_nat i = Some v) inds kept →
  (length inds ≤ DynamicView.n dv)%nat →
  ∃ dv', DynamicView._trim dv inds = Ok dv' ∧ DynamicView._view dv' = kept ∧ dv_wf dv' ∧
         DynamicView.n dv' = length kept ∧
         DynamicView.fill_value dv' = DynamicView.fill_value dv ∧
         DynamicView._data dv' =
           kept ++ replicate (DynamicView.n dv - length kept) (DynamicView.fill_value dv)
                ++ drop (DynamicView.n dv) (DynamicView._data dv).
Proof.
  intros Hwf HF Hlen. unfold DynamicView._trim, dv_wf in *.
  apply Forall2_length in HF as Hlk.
  assert (Hget : getitems (DynamicView._data dv) inds = Ok kept).
  { apply getitems_Ok.
    - apply Forall_forall. intros i Hi. apply list_elem_of_lookup_1 in Hi as [j Hj].
      by destruct (Forall2_lookup_l _ _ _ _ _ HF Hj) as (v & _ & H0 & _).
    - eapply Forall2_impl; [done|]. simpl. intros i v [_ Hv].
      unfold DynamicView._view in Hv. by apply lookup_take_Some in Hv as [Hv _]. }
  rewrite Hget. cbn [bind]. rewrite Hlk, setslice_prefix by lia. cbn [bind].
  rewrite setslice_range_Scalar by (rewrite length_app, length_drop; lia). cbn [bind].
  eexists. split; [done|]. unfold DynamicView._view. simpl.
  rewrite !take_app_length.
  assert (Hdrop : drop (DynamicView.n dv)
                    (kept ++ drop (length kept) (DynamicView._data dv)) =
                  drop (DynamicView.n dv) (DynamicView._data dv)).
  { rewrite drop_app_ge, drop_drop by lia. f_equal. lia. }
  rewrite Hdrop. repeat split; try done.
  rewrite length_app. lia.
Qed.

Lemma DynamicView_trim_all dv :
  dv_wf dv → DynamicView._trim dv (arange 0 (Z.of_nat (DynamicView.n dv))) = Ok dv.
Proof.
  intros Hwf.
  destruct (DynamicView_trim_spec dv (arange 0 (Z.of_nat (DynamicView.n dv)))
              (DynamicView._view dv) Hwf)
    as (dv' & Hrun & _ & _ & Hn & Hfill & Hdata).
  - apply Forall2_same_length_lookup. split.
    + rewrite arange_0, length_seqZ, DynamicView_view_length by done. lia.
    + intros j i v Hi Hv. rewrite arange_0 in Hi.
      apply lookup_seqZ in Hi as [-> Hj]. split; [lia|].
      by rewrite Z.add_0_l, Nat2Z.id.
  - rewrite arange_0, length_seqZ. lia.
  - rewrite Hrun. f_equal. destruct dv as [fv n data], dv' as [fv' n' data'].
    rewrite DynamicView_view_length in * by done.
    unfold DynamicView._view in *. simpl in *. subst.
    rewrite Nat.sub_diag. simpl. by rewrite take_drop.
Qed.

Lemma State_values_length' c : state_wf c → length (State.values c) = DynamicView.n (State._data c).
Proof. apply DynamicView_view_length. Qed.

Lemma State_initialize_spec c (uid : list Z) c' :
  (∃ name dtype fill, c = State.__init__ name dtype fill) →
  State.initialize c uid = Ok c' →
  state_wf c' ∧ length (State.values c') = length uid.
Proof.
  intros (nm & dtype & fill & ->). unfold State.initialize. cbn [State._initialized State.__init__].
  intros (dv & Hset & [= <-])%bind_Ok.
  apply DynamicView_setitem_inv in Hset as (Hwf & Hn & _).
  - split; [done|]. by rewrite State_values_length'.
  - apply DynamicView_grow_wf. unfold dv_wf. simpl. lia.
Qed.

Lemma State_grow_spec c (uids : list Z) c' :
  state_wf c → State.grow c uids = Ok c' →
  state_wf c' ∧ length (State.values c') = (length (State.values c) + length uids)%nat.
Proof.
  intros Hwf. unfold State.grow. intros (dv & Hset & [= <-])%bind_Ok.
  apply DynamicView_setitem_inv in Hset as (Hwf' & Hn & _);
    [|by apply DynamicView_grow_wf].
  split; [done|]. by rewrite !State_values_length'.
Qed.

Lemma State_trim_spec' c (inds : list Z) :
  state_wf c →
  Forall (λ i, 0 ≤ i < Z.of_nat (length (State.values c))) inds →
  (length inds ≤ length (State.values c))%nat →
  ∃ c', State._trim c inds = Ok c' ∧ state_wf c' ∧
        Forall2 (λ i v, State.values c !! Z.to_nat i = Some v) inds (State.values c').
Proof.
  intros Hwf Hin Hlen.
  destruct (getitems_total (State.values c) inds Hin) as (kept & _ & HF).
  destruct (DynamicView_trim_spec (State._data c) inds kept Hwf)
    as (dv' & Hrun & Hview & Hwf' & _).
  - apply Forall2_same_length_lookup. split; [by eapply Forall2_length|].
    intros j i v Hi Hv. rewrite Forall_forall in Hin.
    split; [by apply Hin, (list_elem_of_lookup_2 _ j)|].
    destruct (Forall2_lookup_l _ _ _ _ _ HF Hi) as (v' & Hv' & Hval).
    unfold State.values in Hval. congruence.
  - by rewrite <- State_values_length'.
  - unfold State._trim. rewrite Hrun. cbn [bind]. eexists. split; [done|].
    split; [done|]. unfold State.values at 2. simpl. by rewrite Hview.
Qed.

Lemma State_trim_all' c :
  state_wf c → State._trim c (arange 0 (Z.of_nat (length (State.values c)))) = Ok c.
Proof.
  intros Hwf. unfold State._trim. rewrite State_values_length' by done.
  rewrite DynamicView_trim_all by done. by destruct c.
Qed.
Lemma set_loop_length (rhs : Z → res V) um key : ∀ vals i,
  length (FusedArray._set_vals_uids_loop rhs vals key um i).1 = length vals.
Proof.
  induction key as [|k key IH]; intros vals i; [done|]. simpl.
  destruct (FusedArray._set_vals_uid vals um k (rhs i)) as [vals'|e] eqn:Hstep; [|done].
  rewrite IH. revert Hstep. unfold FusedArray._set_vals_uid.
  case_bool_decide; [done|]. intros (idx & _ & Hstep)%bind_Ok.
  repeat case_bool_decide; try done.
  apply bind_Ok in Hstep as (x & _ & Hstep%unchecked_Ok). by eapply setitem_length.
Qed.

Lemma FusedArray_setitem_length (f : FusedArray.t V) k v :
  length (FusedArray.values (FusedArray.__setitem__ f k v).1) =
    length (FusedArray.values f).
Proof.
  assert (Hlift : ∀ r : res (list V),
            (∀ vals, r = Ok vals → length vals = length (FusedArray.values f)) →
            length (FusedArray.values (FusedArray.lift f r).1) =
              length (FusedArray.values f)).
  { intros [vals|e] Hr; simpl; [by apply Hr | done]. }
  unfold FusedArray.__setitem__. cbn [fst].
  destruct k as [u|us|mask|sl|us].
  - apply Hlift. intros vals (p & _ & Hset)%bind_Ok. by eapply setitem_length.
  - destruct v; simpl; apply set_loop_length.
  - apply Hlift. intros vals Hset. by apply (set_length _ (KArray (nonzero mask)) v).
  - destruct (start sl), (stop sl), (step sl); try done.
    apply Hlift. intros vals Hset. by apply (set_length _ (KSlice sl) v).
  - destruct v; simpl; apply set_loop_length.
Qed.

Lemma State_setitem_spec c (uid um : list Z) k v :
  state_wf c →
  state_wf (State.__setitem__ uid um c k v).1 ∧
  length (State.values (State.__setitem__ uid um c k v).1) = length (State.values c).
Proof.
  intros Hwf. unfold State.__setitem__. cbn [fst].
  pose proof (FusedArray_setitem_length (State.fused uid um c) k v) as Hlen.
  cbn [State.fused FusedArray.values] in Hlen.
  rewrite State_values_length' in Hlen by done.
  unfold state_wf, dv_wf, State.values, DynamicView._view in *.
  cbn [State._data DynamicView.n DynamicView._data].
  split; [rewrite length_app; lia|].
  rewrite take_app_length' by done. rewrite length_take_le by done. done.
Qed.
End states_state_facts.

(** ** What the coordinator relies on *)

(** The [State] of removing_people.py keeps them. *)
Global Program Instance State_laws {V : Type} :
    DynamicStateLaws (RemovingPeople.State.t V) V (Np.value V) := {|
  col_wf := st_wf
|}.
Next Obligation.
  intros V k c c' Hwf Hgrow. simpl in *.
  destruct (State_grow_inv c k c' Hgrow Hwf) as (Hwf' & Hn & Hvals & _).
  split; [done|]. rewrite !State_values_length by done. split; [done|]. by rewrite <- Hvals.
Qed.
Next Obligation.
  intros V inds c Hwf Hin Hlen. simpl in *.
  destruct (getitems_total (RemovingPeople.State.values c) inds Hin) as (kept & _ & HF).
  destruct (State_trim_spec c inds kept Hwf) as (c' & Hrun & Hvals & Hwf' & _).
  - apply Forall2_same_length_lookup. split; [by eapply Forall2_length|].
    intros j i v Hi Hv. rewrite Forall_forall in Hin.
    split; [by apply Hin, (list_elem_of_lookup_2 _ j)|].
    destruct (Forall2_lookup_l _ _ _ _ _ HF Hi) as (v' & Hv' & Hval). congruence.
  - by rewrite <- State_values_length.
  - exists c'. by rewrite Hvals.
Qed.
Next Obligation.
  intros V c Hwf. simpl. rewrite State_values_length by done. by apply State_trim_all.
Qed.
Next Obligation.
  intros V um us c k v Hwf. cbn [RemovingPeople.col_setitem RemovingPeople.col_values
    RemovingPeople.State_DynamicState].
  destruct (RemovingPeople.State.__setitem__ (Some um) c k v) as [c'|e] eqn:Hset;
    [|done].
  destruct (State_setitem_inv _ _ _ _ _ Hset Hwf) as (vals & -> & Hlen).
  destruct (State_store_values c vals Hlen) as [Hv Hw]. cbn [fst].
  by rewrite Hv, Hlen, State_values_length.
Qed.
Next Obligation.
  intros V um us c u p x Hwf Hu Hp Hlt.
  cbn [RemovingPeople.col_setitem RemovingPeople.col_values
       RemovingPeople.State_DynamicState] in *.
  unfold RemovingPeople.State.__setitem__. cbn [Np.get].
  rewrite (getitem_Ok um u _ Hu Hp). cbn [bind Np.as_key Np.set].
  rewrite setitem_Scalar_Ok by lia. cbn [bind fst snd]. rewrite Nat2Z.id.
  split; [done|]. apply State_store_values.
  rewrite length_insert. by apply State_values_length.
Qed.
Next Obligation.
  intros V um us c u p v Hu Hp Hv. simpl.
  unfold RemovingPeople.State.__getitem__. simpl.
  rewrite (getitem_Ok um u _ Hu Hp). simpl.
  by rewrite (getitem_Ok _ (Z.of_nat p) v) by (rewrite ?Nat2Z.id; done || lia).
Qed.
Next Obligation.
  intros V um us c u Hu Hp Hlen. simpl.
  unfold RemovingPeople.State.__getitem__. simpl.
  rewrite (getitem_Ok um u _ Hu Hp). simpl.
  rewrite getitem_Err by done. by eexists.
Qed.

(** The [State] of starsim/states.py keeps them. *)
Global Program Instance States_laws {V : Type} :
    DynamicStateLaws (States.State.t V) V (States.FusedArray.item V) := {|
  col_wf := state_wf
|}.
Next Obligation.
  intros V k c c' Hwf Hgrow. discriminate Hgrow.
Qed.
Next Obligation.
  intros V inds c Hwf Hin Hlen. simpl in *. by apply State_trim_spec'.
Qed.
Next Obligation.
  intros V c Hwf. simpl. by apply State_trim_all'.
Qed.
Next Obligation.
  intros V um us c k v Hwf. by apply State_setitem_spec.
Qed.
Next Obligation.
  intros V um us c u p x Hwf Hu Hp Hlt.
  cbn [RemovingPeople.col_setitem RemovingPeople.col_values
       RemovingPeople.States_DynamicState] in *.
  unfold States.State.__setitem__, States.FusedArray.__setitem__, States.State.fused.
  cbn [States.FusedArray.values States.FusedArray._uid_map States.FusedArray.uid].
  rewrite (getitem_Ok um u _ Hu Hp). cbn [bind].
  rewrite setitem_Scalar_Ok by lia. rewrite Nat2Z.id.
  cbn [States.FusedArray.lift fst snd option_fmap option_map fmap States.FusedArray.values].
  split; [done|].
  unfold States.State.values at 1, States.DynamicView._view.
  cbn [States.State._data States.DynamicView.n States.DynamicView._data].
  rewrite take_app_length'; [done|].
  rewrite length_insert. by rewrite State_values_length'.
Qed.
Next Obligation.
  intros V um us c u p v Hu Hp Hv. simpl.
  unfold States.FusedArray.__getitem__, States.State.fused. simpl.
  rewrite (getitem_Ok um u _ Hu Hp). simpl.
  by rewrite (getitem_Ok _ (Z.of_nat p) v) by (rewrite ?Nat2Z.id; done || lia).
Qed.
Next Obligation.
  intros V um us c u Hu Hp Hlen. simpl.
  unfold States.FusedArray.__getitem__, States.State.fused. simpl.
  rewrite (getitem_Ok um u _ Hu Hp). simpl.
  rewrite getitem_Err by done. simpl. eexists. split; [done|].
  by apply reraise_IdentifierNotFound.
Qed.

(** ** Index arrays read back, masks as filters *)
Section gather_facts.
Import Np.
Context {A : Type}.

Lemma mapR_app {X Y} (f : X → res Y) (l1 l2 : list X) :
  mapR f (l1 ++ l2) =
    bind (mapR f l1) (λ a, bind (mapR f l2) (λ b, Ok (a ++ b))).
Proof.
  induction l1 as [|x l1 IH]; simpl.
  - by destruct (mapR f l2).
  - destruct (f x); [|done]. simpl. rewrite IH.
    destruct (mapR f l1); [|done]. simpl. by destruct (mapR f l2).
Qed.

Lemma mapR_total {X Y} (f : X → res Y) (R : X → Y → Prop) (l : list X) :
  Forall (λ x, ∃ y, f x = Ok y ∧ R x y) l →
  ∃ l', mapR f l = Ok l' ∧ Forall2 R l l'.
Proof.
  induction 1 as [|x l (y & Hy & HR) _ (l' & Hl' & HF)].
  - exists []. split; [done | constructor].
  - exists (y :: l'). simpl. rewrite Hy, Hl'. split; [done | by constructor].
Qed.

Lemma mapR_id {X} (f : X → res X) (l : list X) :
  Forall (λ x, f x = Ok x) l → mapR f l = Ok l.
Proof.
  induction 1 as [|x l Hx _ IH]; [done|]. simpl. by rewrite Hx, IH.
Qed.

(** Reading the stretch that follows [a] *)
Lemma getitems_tail (a xs : list A) :
  getitems (a ++ xs) (seqZ (Z.of_nat (length a)) (Z.of_nat (length xs))) = Ok xs.
Proof.
  apply getitems_Ok.
  - apply Forall_seqZ. intros. lia.
  - apply Forall2_same_length_lookup. split; [rewrite length_seqZ; lia|].
    intros j i v Hi Hv. apply lookup_seqZ in Hi as [-> Hj].
    replace (Z.to_nat (Z.of_nat (length a) + Z.of_nat j)) with (length a + j)%nat by lia.
    by rewrite lookup_app_r, Nat.add_sub' by lia.
Qed.

Lemma getitems_nonzero_from (pre a : list A) (f : A → bool) (P : A → Prop)
    `{!∀ x, Decision (P x)} :
  (∀ x, f x = true ↔ P x) →
  getitems (pre ++ a) (nonzero_from (Z.of_nat (length pre)) (f <$> a)) = Ok (filter P a).
Proof.
  intros Hf. revert pre. induction a as [|x a IH]; intros pre; [done|].
  cbn [fmap list_fmap nonzero_from]. unfold getitems. rewrite mapR_app.
  replace (Z.of_nat (length pre) + 1) with (Z.of_nat (length (pre ++ [x])))
    by (rewrite length_app; simpl; lia).
  replace (pre ++ x :: a) with ((pre ++ [x]) ++ a) by (by rewrite <- (assoc_L (++))).
  fold (getitems ((pre ++ [x]) ++ a)
          (nonzero_from (Z.of_nat (length (pre ++ [x]))) (f <$> a))).
  rewrite IH. rewrite filter_cons.
  destruct (f x) eqn:Hx.
  - rewrite decide_True by (by apply Hf). simpl.
    rewrite (getitem_Ok _ _ x); [done | lia |].
    rewrite Nat2Z.id, <- (assoc_L (++)). by apply list_lookup_middle.
  - rewrite decide_False; [done|]. rewrite <- Hf. congruence.
Qed.

(** [a[mask]] for the mask of a test on [a] itself keeps what passes. *)
Lemma getmask_filter (a : list A) (f : A → bool) (P : A → Prop)
    `{!∀ x, Decision (P x)} :
  (∀ x, f x = true ↔ P x) → getmask a (f <$> a) = Ok (filter P a).
Proof.
  intros Hf. unfold getmask. rewrite bool_decide_eq_true_2 by apply length_fmap.
  by apply (getitems_nonzero_from [] a f P).
Qed.
End gather_facts.

(** ** The coordinator *)
Section coordinator_facts.
Import Np RemovingPeople.
Context {C V I : Type} `{!DynamicState C V I} `{!DynamicStateLaws C V I}.
Implicit Types (p : DynamicPeople.t C) (c : C).

Lemma consistent_len p :
  consistent p → length (DynamicPeople.live p) = DynamicPeople.__len__ p.
Proof. intros (_ & Hus & _). by apply State_values_length. Qed.

Lemma consistent_NoDup p : consistent p → NoDup (DynamicPeople.live p).
Proof.
  intros (_ & _ & _ & Hlink). apply NoDup_alt. intros i j u Hi Hj.
  destruct (Hlink i u Hi) as [_ Hi']. destruct (Hlink j u Hj) as [_ Hj'].
  rewrite Hi' in Hj'. injection Hj'. lia.
Qed.

Lemma uid_state_values nm v n : State.values (uid_state nm v n) = arange 0 (Z.of_nat n).
Proof.
  apply State_store_values. simpl. rewrite arange_0, length_seqZ. lia.
Qed.

Lemma uid_state_wf nm v n : st_wf (uid_state nm v n).
Proof.
  apply State_store_values. simpl. rewrite arange_0, length_seqZ. lia.
Qed.

Lemma State_set_arange (um : option (list Z)) nm v (n : nat) :
  State.__setitem__ um (State.mk nm (State.FillScalar v) n (full n v))
      (KSlice full_slice) (Array (arange 0 (Z.of_nat n))) =
    Ok (uid_state nm v n).
Proof.
  unfold State.__setitem__, uid_state.
  assert (Hset : set (State.values (State.mk nm (State.FillScalar v) n (full n v)))
                   (KSlice full_slice) (Array (arange 0 (Z.of_nat n))) =
                 Ok (arange 0 (Z.of_nat n))).
  { cbn [set]. apply setslice_full_Array.
    rewrite arange_0, length_seqZ. unfold State.values, full. simpl.
    rewrite length_take, length_replicate. lia. }
  destruct um as [um|]; [|by rewrite Hset].
  change (State._map_slice um full_slice) with (Ok full_slice).
  cbn [bind]. by rewrite Hset.
Qed.

(** [initialize] numbers the agents; then it returns if there is no
    state to loop over, and raises in the first turn of the loop if there
    is one. *)
Lemma initialize_run (self : DynamicPeople.t C) (n : nat) (a b : Z) :
  State.fill_value (DynamicPeople._uid_map self) = State.FillScalar a →
  State.fill_value (DynamicPeople.uids self) = State.FillScalar b →
  DynamicPeople.initialize self n =
    match DynamicPeople.states self with
    | [] =>
        Ok (DynamicPeople.mk
              (uid_state (State.name (DynamicPeople._uid_map self)) a n)
              (uid_state (State.name (DynamicPeople.uids self)) b n)
              [] (DynamicPeople._dynamic_states self))
    | state :: _ =>
        bind (col_initialize state) (λ _, Err (NameError "name 'sim' is not defined"))
    end.
Proof.
  intros Ha Hb. unfold DynamicPeople.initialize.
  unfold State.initialize at 1, State.filled. rewrite Ha. cbn [bind].
  change (State.__len__ (State.mk ?nm ?f n ?d)) with n.
  rewrite State_set_arange. cbn [bind].
  rewrite uid_state_values.
  assert (Hlen : length (arange 0 (Z.of_nat n)) = n)
    by (rewrite arange_0, length_seqZ; lia).
  unfold State.initialize, State.filled. rewrite Hlen, Hb. cbn [bind].
  change (State.__len__ (uid_state ?nm ?v n)) with n.
  rewrite State_set_arange. cbn [bind].
  by destruct (DynamicPeople.states self).
Qed.

Lemma State_grow_set {A} (s s1 : State.t A) (k : nat) (xs : list A) :
  State.grow s k = Ok s1 → st_wf s → length xs = k →
  set (State.values s1)
      (KArray (arange (Z.of_nat (State.n s)) (Z.of_nat (State.n s) + Z.of_nat k)))
      (Array xs) = Ok (State.values s ++ xs).
Proof.
  intros Hgrow Hwf Hlen.
  destruct (State_grow_inv s k s1 Hgrow Hwf) as (Hwf1 & Hn1 & Hvals & _).
  pose proof (State_values_length s1 Hwf1) as Hl1.
  pose proof (State_values_length s Hwf) as Hl.
  cbn [set]. rewrite <- (take_drop (State.n s) (State.values s1)), <- Hvals.
  rewrite arange_seqZ, <- Hl, <- Hlen.
  rewrite setitems_tail; [done|].
  rewrite length_drop. lia.
Qed.

Lemma arange_length (a : Z) (k : nat) : length (arange a (a + Z.of_nat k)) = k.
Proof. rewrite arange_seqZ, length_seqZ. lia. Qed.

(** What [grow] does to the identity map and to the identifiers. *)
Lemma grow_run p (n : nat) p' :
  consistent p → DynamicPeople.grow p n = Ok p' →
  State.values (DynamicPeople._uid_map p') =
    State.values (DynamicPeople._uid_map p) ++
    arange (Z.of_nat (DynamicPeople.__len__ p)) (Z.of_nat (DynamicPeople.__len__ p) + Z.of_nat n) ∧
  DynamicPeople.live p' = DynamicPeople.live p ++ DynamicPeople.new_uids p n ∧
  st_wf (DynamicPeople._uid_map p') ∧ st_wf (DynamicPeople.uids p') ∧
  DynamicPeople.__len__ p' = (DynamicPeople.__len__ p + n)%nat ∧
  mapR (col_grow n) (DynamicPeople._dynamic_states p) =
    Ok (DynamicPeople._dynamic_states p') ∧
  DynamicPeople.states p' = DynamicPeople.states p.
Proof.
  intros (Hum & Hus & _ & _). unfold DynamicPeople.grow, DynamicPeople.new_uids,
    DynamicPeople.live, DynamicPeople.__len__, State.__len__.
  intros (um1 & Hg1 & (um2 & Hs1 & (us1 & Hg2 & (us2 & Hs2 & (sts & Hsts & [= <-])%bind_Ok)
    %bind_Ok)%bind_Ok)%bind_Ok)%bind_Ok.
  cbn [DynamicPeople._uid_map DynamicPeople.uids DynamicPeople._dynamic_states].
  set (new_uids := arange (Z.of_nat (State.n (DynamicPeople._uid_map p)))
                     (Z.of_nat (State.n (DynamicPeople._uid_map p)) + Z.of_nat n)) in *.
  set (new_inds := arange (Z.of_nat (State.n (DynamicPeople.uids p)))
                     (Z.of_nat (State.n (DynamicPeople.uids p)) + Z.of_nat n)) in *.
  destruct (State_grow_inv _ _ _ Hg1 Hum) as (Hwf1 & Hn1 & _).
  destruct (State_grow_inv _ _ _ Hg2 Hus) as (Hwf2 & Hn2 & _).
  pose proof (State_grow_set _ _ n new_inds Hg1 Hum (arange_length _ n)) as Hset1.
  pose proof (State_grow_set _ _ n new_uids Hg2 Hus (arange_length _ n)) as Hset2.
  (* the identity map *)
  unfold State.__setitem__ in Hs1. fold new_uids in Hset1. rewrite Hset1 in Hs1.
  injection Hs1 as <-.
  destruct (State_store_values um1 (State.values (DynamicPeople._uid_map p) ++ new_inds))
    as [Hv1 Hw1].
  { rewrite length_app, State_values_length by done. unfold new_inds.
    rewrite arange_length. lia. }
  (* the identifiers *)
  unfold State.__setitem__ in Hs2. rewrite Hv1 in Hs2. cbn [get] in Hs2.
  assert (Hread : getitems (State.values (DynamicPeople._uid_map p) ++ new_inds) new_uids =
                  Ok new_inds).
  { unfold new_uids. rewrite arange_seqZ, <- (State_values_length _ Hum).
    replace (Z.of_nat n) with (Z.of_nat (length new_inds))
      by (unfold new_inds; by rewrite arange_length).
    apply getitems_tail. }
  rewrite Hread in Hs2. cbn [bind as_key] in Hs2. fold new_inds in Hset2.
  rewrite Hset2 in Hs2. injection Hs2 as <-.
  destruct (State_store_values us1 (State.values (DynamicPeople.uids p) ++ new_uids))
    as [Hv2 Hw2].
  { rewrite length_app, State_values_length by done. unfold new_uids.
    rewrite arange_length. lia. }
  rewrite Hv1, Hv2. repeat split; try done.
Qed.

Lemma consistent_grow p (n : nat) p' :
  consistent p → DynamicPeople.grow p n = Ok p' → consistent p'.
Proof.
  intros Hc Hgrow.
  destruct (grow_run p n p' Hc Hgrow) as (Hum' & Hlive' & Hwf1 & Hwf2 & Hlen' & Hsts & _).
  pose proof (consistent_len p Hc) as Hlen.
  destruct Hc as (Hum & Hus & Hcols & Hlink).
  split; [done|]. split; [done|]. split.
  - apply mapR_Ok in Hsts. apply Forall_forall. intros c' Hc'.
    apply list_elem_of_lookup_1 in Hc' as [j Hj].
    destruct (Forall2_lookup_r _ _ _ _ _ Hsts Hj) as (c & Hc & Hg).
    rewrite Forall_forall in Hcols.
    destruct (Hcols c (list_elem_of_lookup_2 _ _ _ Hc)) as [Hwf Hl].
    destruct (col_grow_spec n c c' Hwf Hg) as (Hwf' & Hl' & _).
    split; [done|]. rewrite Hl', Hl, Hlen'. done.
  - intros i u. rewrite Hlive', Hum'. intros [Hi|[Hge Hi]]%lookup_app_Some.
    + destruct (Hlink i u Hi) as [Hu Hp]. split; [done|]. by apply lookup_app_l_Some.
    + unfold DynamicPeople.new_uids in Hi. rewrite arange_seqZ in Hi.
      apply lookup_seqZ in Hi as [-> Hj]. split; [lia|].
      unfold DynamicPeople.__len__, State.__len__ in *.
      rewrite lookup_app_r by (rewrite State_values_length by done; lia).
      rewrite State_values_length by done. rewrite arange_seqZ.
      apply lookup_seqZ. lia.
Qed.

Lemma State_store_store {A} (s : State.t A) (v1 v2 : list A) :
  length v1 = State.n s → State.store (State.store s v1) v2 = State.store s v2.
Proof.
  intros Hlen. unfold State.store. simpl. by rewrite drop_app_length'.
Qed.

Lemma live_lookup p (u : Z) :
  consistent p → u ∈ DynamicPeople.live p →
  ∃ j : nat, DynamicPeople.live p !! j = Some u ∧ 0 ≤ u ∧
             State.values (DynamicPeople._uid_map p) !! Z.to_nat u = Some (Z.of_nat j) ∧
             (j < DynamicPeople.__len__ p)%nat ∧
             (Z.to_nat u < State.n (DynamicPeople._uid_map p))%nat.
Proof.
  intros Hc [j Hj]%list_elem_of_lookup_1. pose proof (consistent_len p Hc) as Hlen.
  destruct Hc as (Hum & _ & _ & Hlink). destruct (Hlink j u Hj) as [Hu Hp].
  exists j. repeat split; try done.
  - apply lookup_lt_Some in Hj. lia.
  - apply lookup_lt_Some in Hp. by rewrite State_values_length in Hp.
Qed.

(** [remove] never fails on a consistent population; this is what it
    leaves. *)
Lemma remove_run p (S : list Z) :
  consistent p →
  let rem := filter (λ u, u ∉ S) (DynamicPeople.live p) in
  ∃ keep sts',
    Forall2 (λ u i, ∃ j : nat, i = Z.of_nat j ∧ DynamicPeople.live p !! j = Some u)
            rem keep ∧
    mapR (col_trim keep) (DynamicPeople._dynamic_states p) = Ok sts' ∧
    Forall2 (λ c c', col_wf c' ∧
               Forall2 (λ i v, col_values c !! Z.to_nat i = Some v) keep (col_values c'))
            (DynamicPeople._dynamic_states p) sts' ∧
    DynamicPeople.remove p S =
      Ok (DynamicPeople.mk
            (State.store (DynamicPeople._uid_map p)
               (assign (replicate (State.n (DynamicPeople._uid_map p)) INT_NAN)
                       (Z.to_nat <$> rem) (arange 0 (Z.of_nat (length rem)))))
            (State.mk (State.name (DynamicPeople.uids p))
                      (State.fill_value (DynamicPeople.uids p))
                      (length rem)
                      (rem ++ drop (length rem) (State._data (DynamicPeople.uids p))))
            (DynamicPeople.states p) sts').
Proof.
  intros Hc rem. pose proof (consistent_len p Hc) as Hlen.
  assert (Hrem_live : ∀ u, u ∈ rem → u ∈ DynamicPeople.live p)
    by (intros u Hu; by apply list_elem_of_filter in Hu as [_ Hu]).
  (* positions of the survivors *)
  destruct (mapR_total (getitem (State.values (DynamicPeople._uid_map p)))
              (λ u i, ∃ j : nat, i = Z.of_nat j ∧ DynamicPeople.live p !! j = Some u) rem)
    as (keep & Hkeep & HFkeep).
  { apply Forall_forall. intros u Hu.
    destruct (live_lookup p u Hc (Hrem_live u Hu)) as (j & Hj & Hu0 & Hp & _).
    exists (Z.of_nat j). split; [by apply getitem_Ok | by exists j]. }
  apply Forall2_length in HFkeep as Hlk.
  assert (Hrem_len : (length rem ≤ DynamicPeople.__len__ p)%nat)
    by (rewrite <- Hlen; apply length_filter).
  assert (Hkeep_range : Forall (λ i, 0 ≤ i < Z.of_nat (DynamicPeople.__len__ p)) keep).
  { apply Forall_forall. intros i Hi. apply list_elem_of_lookup_1 in Hi as [m Hm].
    destruct (Forall2_lookup_r _ _ _ _ _ HFkeep Hm) as (u & _ & j & -> & Hj).
    apply lookup_lt_Some in Hj. lia. }
  (* the states *)
  pose proof Hc as (Hum & Hus & Hcols & Hlink).
  destruct (mapR_total (col_trim keep)
              (λ c c', col_wf c' ∧
                 Forall2 (λ i v, col_values c !! Z.to_nat i = Some v) keep (col_values c'))
              (DynamicPeople._dynamic_states p)) as (sts' & Hsts & HFsts).
  { eapply Forall_impl; [exact Hcols|]. intros c [Hwf Hl]. simpl.
    destruct (col_trim_spec keep c Hwf) as (c' & Hrun & Hwf' & HF).
    - by rewrite Hl.
    - rewrite Hl. lia.
    - by exists c'. }
  exists keep, sts'. split; [done|]. split; [done|]. split; [done|].
  (* the identifiers *)
  destruct (State_trim_spec (DynamicPeople.uids p) keep rem Hus)
    as (us' & Hus' & _ & _ & Hdata & Hn & Hfill & Hname).
  { apply Forall2_flip. eapply Forall2_impl; [exact HFkeep|].
    intros u i (j & -> & Hj). split; [lia|]. by rewrite Nat2Z.id. }
  { unfold DynamicPeople.__len__, State.__len__ in *. lia. }
  (* the run *)
  unfold DynamicPeople.remove.
  fold (DynamicPeople.live p). unfold in1d. rewrite <- list_fmap_compose.
  rewrite (getmask_filter _ _ (λ u, u ∉ S)); [|].
  2:{ intros x. simpl. rewrite negb_true_iff, bool_decide_eq_false. done. }
  fold rem. cbn [bind]. unfold State.__getitem__ at 1. cbn [get].
  unfold getitems. rewrite Hkeep. cbn [bind as_array]. rewrite Hus'. cbn [bind].
  rewrite Hsts. cbn [bind].
  assert (Hflag : State.__setitem__ None (DynamicPeople._uid_map p) (KSlice full_slice)
                    (Scalar INT_NAN) =
                  Ok (State.store (DynamicPeople._uid_map p)
                        (replicate (State.n (DynamicPeople._uid_map p)) INT_NAN))).
  { unfold State.__setitem__. cbn [set].
    by rewrite setslice_full_Scalar, State_values_length by done. }
  rewrite Hflag. cbn [bind]. unfold State.__setitem__.
  destruct (State_store_values (DynamicPeople._uid_map p)
              (replicate (State.n (DynamicPeople._uid_map p)) INT_NAN)) as [Hv _];
    [apply length_replicate|].
  rewrite Hv. cbn [set]. unfold setitems, broadcast.
  rewrite bool_decide_eq_true_2 by (rewrite arange_0, length_seqZ; lia). cbn [bind].
  rewrite indices_Ok.
  2:{ apply Forall_forall. intros u Hu. rewrite length_replicate.
      destruct (live_lookup p u) as (j & _ & Hu0 & _ & _ & Hlt);
        [done | by apply Hrem_live | lia]. }
  cbn [bind]. rewrite State_store_store by apply length_replicate.
  do 2 f_equal. destruct us' as [nm fv n' data']. simpl in *. by subst.
Qed.

Lemma to_nat_NoDup (l : list Z) :
  Forall (λ u, 0 ≤ u) l → NoDup l → NoDup (Z.to_nat <$> l).
Proof.
  intros Hpos Hnd. apply NoDup_fmap_2_strong; [|done].
  rewrite Forall_forall in Hpos. intros x y Hx Hy Heq.
  specialize (Hpos x Hx) as Hx0. specialize (Hpos y Hy) as Hy0. lia.
Qed.

(** After [remove] the population is consistent again, the survivors are
    the identifiers not asked for, in their former order, each with its
    former values, and the identifiers removed are flagged in the
    identity map. *)
Lemma remove_spec p (S : list Z) p' :
  consistent p → DynamicPeople.remove p S = Ok p' →
  consistent p' ∧
  DynamicPeople.live p' = filter (λ u, u ∉ S) (DynamicPeople.live p) ∧
  (∀ u, u ∈ DynamicPeople.live p → u ∈ S →
     State.values (DynamicPeople._uid_map p') !! Z.to_nat u = Some INT_NAN) ∧
  Forall2 (λ c c', ∀ (j i : nat) (u : Z),
             DynamicPeople.live p' !! j = Some u → DynamicPeople.live p !! i = Some u →
             col_values c' !! j = col_values c !! i)
          (DynamicPeople._dynamic_states p) (DynamicPeople._dynamic_states p').
Proof.
  intros Hc Hrun. pose proof (consistent_NoDup p Hc) as Hnd.
  destruct (remove_run p S Hc) as (keep & sts' & HFkeep & Hsts & HFsts & Hrun').
  rewrite Hrun' in Hrun. injection Hrun as <-.
  set (rem := filter (λ u, u ∉ S) (DynamicPeople.live p)) in *.
  set (A := assign (replicate (State.n (DynamicPeople._uid_map p)) INT_NAN)
                   (Z.to_nat <$> rem) (arange 0 (Z.of_nat (length rem)))).
  assert (Hrem_live : ∀ u, u ∈ rem → u ∈ DynamicPeople.live p)
    by (intros u Hu; by apply list_elem_of_filter in Hu as [_ Hu]).
  assert (Hrem_pos : Forall (λ u, 0 ≤ u) rem).
  { apply Forall_forall. intros u Hu.
    by destruct (live_lookup p u Hc (Hrem_live u Hu)) as (_ & _ & H0 & _). }
  assert (Hrem_nd : NoDup (Z.to_nat <$> rem))
    by (apply to_nat_NoDup; [done | by apply NoDup_filter]).
  assert (HlenA : length A = State.n (DynamicPeople._uid_map p))
    by (unfold A; by rewrite assign_length, length_replicate).
  destruct (State_store_values (DynamicPeople._uid_map p) A HlenA) as [HvA HwA].
  assert (Hlive' : DynamicPeople.live
                     (DynamicPeople.mk (State.store (DynamicPeople._uid_map p) A)
                        (State.mk (State.name (DynamicPeople.uids p))
                           (State.fill_value (DynamicPeople.uids p)) (length rem)
                           (rem ++ drop (length rem) (State._data (DynamicPeople.uids p))))
                        (DynamicPeople.states p) sts') = rem).
  { unfold DynamicPeople.live, State.values. simpl. by rewrite take_app_length. }
  apply Forall2_length in HFkeep as Hlk.
  split; [|split; [done|split]].
  - (* consistency *)
    split; [done|]. split; [unfold st_wf; simpl; rewrite length_app; lia|]. split.
    + apply Forall_forall. intros c' Hc'. apply list_elem_of_lookup_1 in Hc' as [m Hm].
      destruct (Forall2_lookup_r _ _ _ _ _ HFsts Hm) as (c & _ & Hwf' & HF).
      split; [done|]. apply Forall2_length in HF. rewrite <- HF, <- Hlk. done.
    + rewrite Hlive'. cbn [DynamicPeople._uid_map]. rewrite HvA.
      intros j u Hj. rewrite Forall_forall in Hrem_pos.
      pose proof (list_elem_of_lookup_2 _ _ _ Hj) as Hu.
      split; [by apply Hrem_pos|]. unfold A.
      destruct (live_lookup p u Hc (Hrem_live u Hu)) as (_ & _ & _ & _ & _ & Hlt).
      apply (assign_lookup _ _ _ j); [done | | | by rewrite length_replicate].
      * by rewrite list_lookup_fmap, Hj.
      * rewrite arange_0. apply lookup_seqZ. apply lookup_lt_Some in Hj. lia.
  - (* the identifiers removed *)
    cbn [DynamicPeople._uid_map]. rewrite HvA. intros u Hu HS.
    destruct (live_lookup p u Hc Hu) as (_ & _ & Hu0 & _ & _ & Hlt).
    unfold A. rewrite assign_lookup_notin.
    + by apply lookup_replicate_2.
    + intros (y & Hy & Hyrem)%list_elem_of_fmap.
      rewrite Forall_forall in Hrem_pos. specialize (Hrem_pos y Hyrem).
      assert (y = u) as -> by lia.
      by apply list_elem_of_filter in Hyrem as [Hnot _].
  - (* the values of the survivors *)
    cbn [DynamicPeople._dynamic_states]. eapply Forall2_impl; [exact HFsts|].
    intros c c' [_ HF] j i u. rewrite Hlive'. intros Hj Hi.
    destruct (Forall2_lookup_l _ _ _ _ _ HFkeep Hj) as (k & Hk & i' & -> & Hi').
    assert (i' = i) as -> by apply (NoDup_lookup _ i' i u Hnd Hi' Hi).
    destruct (Forall2_lookup_l _ _ _ _ _ HF Hk) as (v & -> & Hv).
    by rewrite Nat2Z.id in Hv.
Qed.

Lemma consistent_setitem p (i : nat) c k v :
  consistent p → DynamicPeople._dynamic_states p !! i = Some c →
  consistent (DynamicPeople.setitem p i c k v).
Proof.
  intros (Hum & Hus & Hcols & Hlink) Hi. unfold DynamicPeople.setitem.
  split; [done|]. split; [done|]. split; [|done].
  cbn [DynamicPeople._dynamic_states]. apply Forall_insert; [done|].
  rewrite Forall_forall in Hcols.
  destruct (Hcols c (list_elem_of_lookup_2 _ _ _ Hi)) as [Hwf Hl].
  destruct (col_setitem_spec (State.values (DynamicPeople._uid_map p))
              (State.values (DynamicPeople.uids p)) c k v Hwf) as [Hwf' Hl'].
  split; [done|]. by rewrite Hl'.
Qed.

(** Whatever the program does to a consistent population leaves it
    consistent. *)
Lemma evolves_consistent p q : consistent p → evolves p q → consistent q.
Proof.
  intros Hp. induction 1 as [| p q n q' _ IH Hgrow | p q S q' _ IH Hrem
                              | p q i c k v _ IH Hi].
  - done.
  - eapply consistent_grow; [by apply IH | done].
  - eapply remove_spec; [by apply IH | done].
  - apply consistent_setitem; [by apply IH | done].
Qed.

Lemma filter_all {X} (P : X → Prop) `{!∀ x, Decision (P x)} (l : list X) :
  Forall P l → filter P l = l.
Proof.
  induction 1 as [|x l Hx _ IH]; [done|]. by rewrite filter_cons_True, IH.
Qed.

(** A second [remove] of the same identifiers leaves the population as
    the first one left it. *)
Lemma remove_twice p (S : list Z) p' :
  consistent p → DynamicPeople.remove p S = Ok p' → DynamicPeople.remove p' S = Ok p'.
Proof.
  intros Hc Hrun. destruct (remove_spec p S p' Hc Hrun) as (Hc' & Hlive' & _ & _).
  pose proof (consistent_NoDup p' Hc') as Hnd'.
  pose proof (consistent_len p' Hc') as Hlen'.
  destruct (remove_run p' S Hc') as (keep & sts'' & HFkeep & Hsts & _ & ->).
  assert (Hrem : filter (λ u, u ∉ S) (DynamicPeople.live p') = DynamicPeople.live p').
  { apply filter_all. rewrite Hlive'. apply Forall_forall.
    intros u Hu. by apply list_elem_of_filter in Hu as [Hnot _]. }
  rewrite Hrem in *.
  assert (Hkeep : keep = arange 0 (Z.of_nat (DynamicPeople.__len__ p'))).
  { rewrite <- Hlen', arange_0. apply list_eq_same_length with (length keep).
    - apply Forall2_length in HFkeep. rewrite length_seqZ. lia.
    - done.
    - intros m x y Hm Hx Hy. apply lookup_seqZ in Hy as [-> _].
      destruct (Forall2_lookup_r _ _ _ _ _ HFkeep Hx) as (u & Hu & j & -> & Hj).
      apply list_elem_of_lookup_2 in Hu as Hu'. 
      assert (j = m) as -> by apply (NoDup_lookup _ j m u Hnd' Hj Hu). lia. }
  destruct Hc' as (Hum' & Hus' & Hcols' & _).
  assert (Hsts' : sts'' = DynamicPeople._dynamic_states p').
  { rewrite mapR_id in Hsts; [by injection Hsts|].
    eapply Forall_impl; [exact Hcols'|]. intros c [Hwf Hl]. simpl.
    rewrite Hkeep, <- Hl. by apply col_trim_all. }
  f_equal. destruct p' as [um' us' sts0' sts']. cbn [DynamicPeople._uid_map DynamicPeople.uids
    DynamicPeople._dynamic_states DynamicPeople.states DynamicPeople.live] in *.
  subst sts''. f_equal.
  - (* the identity map *)
    destruct (remove_run p S Hc) as (keep0 & sts0 & _ & _ & _ & Hrun0).
    rewrite Hrun0 in Hrun. injection Hrun as <- <- <- <-.
    rewrite State_store_store; [|by rewrite assign_length, length_replicate].
    cbn [State.store State.n]. rewrite Hlive'. done.
  - (* the identifiers *)
    unfold DynamicPeople.live, State.values, st_wf in *.
    destruct us' as [nm fv n data]. simpl in *.
    rewrite length_take_le by done. by rewrite take_drop.
Qed.

(** [remove] looks at the identifiers asked for only through the
    identifiers alive. *)
Lemma remove_ext p (S S' : list Z) :
  (∀ u, u ∈ DynamicPeople.live p → (u ∈ S ↔ u ∈ S')) →
  DynamicPeople.remove p S = DynamicPeople.remove p S'.
Proof.
  intros Hext. unfold DynamicPeople.remove.
  fold (DynamicPeople.live p).
  replace (in1d (DynamicPeople.live p) S) with (in1d (DynamicPeople.live p) S'); [done|].
  unfold in1d. apply list_fmap_ext. intros i u Hu.
  apply bool_decide_ext. symmetry. apply Hext. by eapply list_elem_of_lookup_2.
Qed.
End coordinator_facts.

(** ** Populations *)

(** C1 (identity integrity). Take a consistent population: sound
    buffers, one value per agent in every dynamic state, and an identity
    map that sends the identifier at each position back to that position.
    After any sequence of [grow], [remove] and stores into states, the
    identity map sends each live identifier [u] to a position below the
    number of live agents, and indexing a dynamic state by [u] returns
    the value at that position of its live view. *)
Theorem identity_integrity {C V I : Type} `{!RemovingPeople.DynamicState C V I}
    `{!DynamicStateLaws C V I} (p0 p : RemovingPeople.DynamicPeople.t C) (u : Z) :
  consistent p0 → evolves p0 p →
  u ∈ RemovingPeople.DynamicPeople.live p →
  ∃ pos : nat,
    RemovingPeople.DynamicPeople.lookup p u = Ok (Np.Scalar (Z.of_nat pos)) ∧
    (pos < RemovingPeople.DynamicPeople.__len__ p)%nat ∧
    ∀ c, c ∈ RemovingPeople.DynamicPeople._dynamic_states p →
      ∃ v, RemovingPeople.col_values c !! pos = Some v ∧
           RemovingPeople.DynamicPeople.getitem p c (Np.KInt u) =
             Ok (RemovingPeople.col_item v).
Proof.
  intros Hc0 Hev Hu. pose proof (evolves_consistent p0 p Hc0 Hev) as Hc.
  destruct (live_lookup p u Hc Hu) as (pos & Hpos & Hu0 & Hmap & Hlt & _).
  exists pos. split; [|split; [done|]].
  - unfold RemovingPeople.DynamicPeople.lookup, RemovingPeople.State.__getitem__.
    cbn [Np.get]. by rewrite (getitem_Ok _ u _ Hu0 Hmap).
  - intros c Hin. destruct Hc as (_ & _ & Hcols & _).
    rewrite Forall_forall in Hcols. destruct (Hcols c Hin) as [_ Hl].
    destruct (lookup_lt_is_Some_2 (RemovingPeople.col_values c) pos) as [v Hv]; [lia|].
    exists v. split; [done|]. by eapply col_getitem_placed.
Qed.

Lemma filter_count (S l : list Z) :
  NoDup l →
  length (filter (λ u, u ∉ S) l) =
    (length l - size ((list_to_set S : gset Z) ∩ list_to_set l))%nat.
Proof.
  intros Hnd.
  assert (Hsize : size ((list_to_set S : gset Z) ∩ list_to_set l) =
                  length (filter (λ u, u ∈ S) l)).
  { rewrite <- (size_list_to_set (C := gset Z)) by (by apply NoDup_filter).
    f_equal. apply set_eq. intros x.
    rewrite elem_of_intersection, !elem_of_list_to_set, list_elem_of_filter. done. }
  rewrite Hsize.
  pose proof (filter_app_complement (λ u, u ∈ S) l) as Hperm.
  apply Permutation_length in Hperm. rewrite length_app in Hperm. lia.
Qed.

(** C2 (removal correctness). On a consistent population of at most
    [INT_NAN] agents, [remove(S)] succeeds; the count drops by the number
    of live identifiers in [S]; every surviving identifier is still live
    and reads, in every registered state, the value it read before; every
    live identifier of [S] is gone and reading it raises
    [IdentifierNotFound]. *)
Theorem removal_correctness {C V I : Type} `{!RemovingPeople.DynamicState C V I}
    `{!DynamicStateLaws C V I} (p : RemovingPeople.DynamicPeople.t C) (S : list Z) :
  consistent p →
  Z.of_nat (RemovingPeople.DynamicPeople.__len__ p) ≤ Np.INT_NAN →
  ∃ p',
    RemovingPeople.DynamicPeople.remove p S = Ok p' ∧
    RemovingPeople.DynamicPeople.__len__ p' =
      (RemovingPeople.DynamicPeople.__len__ p -
       size ((list_to_set S : gset Z) ∩
             list_to_set (RemovingPeople.DynamicPeople.live p)))%nat ∧
    (∀ u, u ∈ RemovingPeople.DynamicPeople.live p → u ∉ S →
       u ∈ RemovingPeople.DynamicPeople.live p' ∧
       Forall2 (λ c c', ∃ v,
                  RemovingPeople.DynamicPeople.getitem p c (Np.KInt u) =
                    Ok (RemovingPeople.col_item v) ∧
                  RemovingPeople.DynamicPeople.getitem p' c' (Np.KInt u) =
                    Ok (RemovingPeople.col_item v))
               (RemovingPeople.DynamicPeople._dynamic_states p)
               (RemovingPeople.DynamicPeople._dynamic_states p')) ∧
    (∀ u, u ∈ RemovingPeople.DynamicPeople.live p → u ∈ S →
       (u ∉ RemovingPeople.DynamicPeople.live p') ∧
       Forall (λ c', ∃ e,
                 RemovingPeople.DynamicPeople.getitem p' c' (Np.KInt u) = Err e ∧
                 IdentifierNotFound e)
              (RemovingPeople.DynamicPeople._dynamic_states p')).
Proof.
  intros Hc Hsize.
  destruct (remove_run p S Hc) as (keep & sts' & _ & _ & _ & Hrun).
  eexists. split; [exact Hrun|].
  destruct (remove_spec p S _ Hc Hrun) as (Hc' & Hlive' & Hflag & Hvals).
  set (p' := RemovingPeople.DynamicPeople.mk _ _ _ sts') in *.
  pose proof (consistent_len p Hc) as Hlen. pose proof (consistent_len p' Hc') as Hlen'.
  pose proof (consistent_NoDup p Hc) as Hnd.
  split; [|split].
  - rewrite <- Hlen', Hlive', <- Hlen. by apply filter_count.
  - intros u Hu HS.
    assert (Hu' : u ∈ RemovingPeople.DynamicPeople.live p')
      by (rewrite Hlive'; by apply list_elem_of_filter).
    split; [done|].
    destruct (live_lookup p u Hc Hu) as (i & Hi & Hu0 & Hmap & Hlt & _).
    destruct (live_lookup p' u Hc' Hu') as (j & Hj & _ & Hmap' & Hlt' & _).
    destruct Hc as (_ & _ & Hcols & _).
    apply Forall2_same_length_lookup. split; [by eapply Forall2_length|].
    intros m c c' Hm Hm'.
    pose proof (Forall2_lookup_lr _ _ _ _ _ _ Hvals Hm Hm' j i u Hj Hi) as Heq.
    rewrite Forall_forall in Hcols.
    destruct (Hcols c (list_elem_of_lookup_2 _ _ _ Hm)) as [_ Hl].
    destruct (lookup_lt_is_Some_2 (RemovingPeople.col_values c) i) as [v Hv]; [lia|].
    exists v. split; eapply col_getitem_placed; try done. by rewrite Heq.
  - intros u Hu HS. split.
    + rewrite Hlive'. intros [Hnot _]%list_elem_of_filter. done.
    + destruct (live_lookup p u Hc Hu) as (_ & _ & Hu0 & _).
      destruct Hc' as (_ & _ & Hcols' & _).
      eapply Forall_impl; [exact Hcols'|]. intros c' [_ Hl]. simpl.
      eapply col_getitem_flagged; [done | by apply Hflag |].
      rewrite Hl, <- Hlen', Hlive'.
      pose proof (length_filter (λ u, u ∉ S) (RemovingPeople.DynamicPeople.live p)). lia.
Qed.

(** C4 (idempotence of removal). On a consistent population [remove(S)]
    succeeds, and a second [remove(S)] succeeds and leaves the population
    exactly as it was after the first one: same count, same identity map,
    same values. Identifiers that are not alive do not count in a
    request: two requests with the same live identifiers do the same. *)
Theorem removal_idempotent {C V I : Type} `{!RemovingPeople.DynamicState C V I}
    `{!DynamicStateLaws C V I} (p : RemovingPeople.DynamicPeople.t C) (S : list Z) :
  consistent p →
  (∃ p', RemovingPeople.DynamicPeople.remove p S = Ok p' ∧
         RemovingPeople.DynamicPeople.remove p' S = Ok p') ∧
  (∀ S' : list Z,
     (∀ u, u ∈ RemovingPeople.DynamicPeople.live p → (u ∈ S ↔ u ∈ S')) →
     RemovingPeople.DynamicPeople.remove p S' = RemovingPeople.DynamicPeople.remove p S).
Proof.
  intros Hc. split.
  - destruct (remove_run p S Hc) as (keep & sts' & _ & _ & _ & Hrun).
    eexists. split; [exact Hrun|]. by eapply remove_twice.
  - intros S' Hext. symmetry. by apply remove_ext.
Qed.

(** ** The scenarios, run *)

(** How the three agents are put together: [initialize(3)] on an object
    with [_uid_map] and [uids] bound and no state to loop over, then
    [y.initialize(uid_map=p._uid_map, uids=p.uids)] and [y[:] = [10, 20,
    30]], and [y] bound as the one dynamic state. *)
Example proto_scenario_assembled :
  ∃ p0 y0,
    RemovingPeople.DynamicPeople.initialize
      (blank_people (C := RemovingPeople.State.t Z) [] []) 3 = Ok p0 ∧
    RemovingPeople.State.initialize column_y None
      (Some (RemovingPeople.State.values (RemovingPeople.DynamicPeople._uid_map p0))) =
      Ok y0 ∧
    RemovingPeople.State.__setitem__
      (Some (RemovingPeople.State.values (RemovingPeople.DynamicPeople._uid_map p0)))
      y0 (Np.KSlice Np.full_slice) (Np.Array [10; 20; 30]) = Ok y3 ∧
    proto_scenario =
      RemovingPeople.DynamicPeople.mk (RemovingPeople.DynamicPeople._uid_map p0)
        (RemovingPeople.DynamicPeople.uids p0) [] [y3].
Proof. do 2 eexists. repeat split; vm_compute; reflexivity. Qed.

Lemma proto_scenario_consistent : consistent proto_scenario.
Proof.
  split; [unfold st_wf; simpl; lia|]. split; [unfold st_wf; simpl; lia|]. split.
  - apply Forall_cons. split; [|apply Forall_nil_2].
    split; [unfold col_wf, State_laws, st_wf; simpl; lia | reflexivity].
  - intros [|[|[|i]]] u; intros [= <-]; (split; [lia | reflexivity]).
Qed.

Lemma proto_grown_evolves : evolves proto_scenario proto_grown.
Proof.
  apply (evolves_grow proto_scenario proto_scenario 2 proto_grown (evolves_refl _)).
  vm_compute. reflexivity.
Qed.

Lemma proto_reduced_evolves : evolves proto_scenario proto_reduced.
Proof.
  apply (evolves_remove proto_scenario proto_grown [1; 3] proto_reduced proto_grown_evolves).
  vm_compute. reflexivity.
Qed.

Lemma proto_reduced_consistent : consistent proto_reduced.
Proof.
  exact (evolves_consistent _ _ proto_scenario_consistent proto_reduced_evolves).
Qed.

Lemma removal_run_of_proto_grown :
  consistent proto_grown ∧
  RemovingPeople.DynamicPeople.remove proto_grown [1; 3] = Ok proto_reduced.
Proof.
  split; [|vm_compute; reflexivity].
  exact (evolves_consistent _ _ proto_scenario_consistent proto_grown_evolves).
Qed.

(** Scenario 1 of the specification, run. *)
Example grow_by_two :
  RemovingPeople.DynamicPeople.live proto_grown = [0; 1; 2; 3; 4] ∧
  RemovingPeople.State.values (y_of proto_grown) = [10; 20; 30; 0; 0].
Proof. vm_compute. done. Qed.

Example proto_reduced_values :
  RemovingPeople.State.values (y_of proto_reduced) = [10; 30; 0] ∧
  RemovingPeople.DynamicPeople.live proto_reduced = [0; 2; 4] ∧
  RemovingPeople.State.values (RemovingPeople.DynamicPeople._uid_map proto_reduced) =
    [0; Np.INT_NAN; 1; Np.INT_NAN; 2].
Proof. vm_compute. done. Qed.

Lemma identity_integrity_witness :
  ∃ pos : nat,
    RemovingPeople.DynamicPeople.lookup proto_reduced 4 = Ok (Np.Scalar (Z.of_nat pos)) ∧
    (pos < RemovingPeople.DynamicPeople.__len__ proto_reduced)%nat ∧
    ∀ c, c ∈ RemovingPeople.DynamicPeople._dynamic_states proto_reduced →
      ∃ v, RemovingPeople.col_values c !! pos = Some v ∧
           RemovingPeople.DynamicPeople.getitem proto_reduced c (Np.KInt 4) =
             Ok (RemovingPeople.col_item v).
Proof.
  apply (identity_integrity proto_scenario proto_reduced 4).
  - apply proto_scenario_consistent.
  - apply proto_reduced_evolves.
  - apply list_elem_of_lookup. exists 2%nat. reflexivity.
Defined.

Lemma removal_correctness_witness :
  ∃ p',
    RemovingPeople.DynamicPeople.remove proto_scenario [1] = Ok p' ∧
    RemovingPeople.DynamicPeople.__len__ p' =
      (RemovingPeople.DynamicPeople.__len__ proto_scenario -
       size ((list_to_set [1%Z] : gset Z) ∩
             list_to_set (RemovingPeople.DynamicPeople.live proto_scenario)))%nat ∧
    (∀ u, u ∈ RemovingPeople.DynamicPeople.live proto_scenario → u ∉ [1] →
       u ∈ RemovingPeople.DynamicPeople.live p' ∧
       Forall2 (λ c c', ∃ v,
                  RemovingPeople.DynamicPeople.getitem proto_scenario c (Np.KInt u) =
                    Ok (RemovingPeople.col_item v) ∧
                  RemovingPeople.DynamicPeople.getitem p' c' (Np.KInt u) =
                    Ok (RemovingPeople.col_item v))
               (RemovingPeople.DynamicPeople._dynamic_states proto_scenario)
               (RemovingPeople.DynamicPeople._dynamic_states p')) ∧
    (∀ u, u ∈ RemovingPeople.DynamicPeople.live proto_scenario → u ∈ [1] →
       (u ∉ RemovingPeople.DynamicPeople.live p') ∧
       Forall (λ c', ∃ e,
                 RemovingPeople.DynamicPeople.getitem p' c' (Np.KInt u) = Err e ∧
                 IdentifierNotFound e)
              (RemovingPeople.DynamicPeople._dynamic_states p')).
Proof.
  apply (removal_correctness proto_scenario [1]).
  - apply proto_scenario_consistent.
  - vm_compute. discriminate.
Defined.

(** Scenario 2 of the specification, run. *)
Example remove_agent_1 :
  ∃ p', RemovingPeople.DynamicPeople.remove proto_scenario [1] = Ok p' ∧
        RemovingPeople.DynamicPeople.__len__ p' = 2%nat ∧
        RemovingPeople.DynamicPeople.getitem p' (y_of p') (Np.KInt 0) =
          Ok (Np.Scalar 10) ∧
        RemovingPeople.DynamicPeople.getitem p' (y_of p') (Np.KInt 2) =
          Ok (Np.Scalar 30) ∧
        ∃ e, RemovingPeople.DynamicPeople.getitem p' (y_of p') (Np.KInt 1) = Err e ∧
             IdentifierNotFound e.
Proof.
  eexists. split; [vm_compute; reflexivity|]. split; [reflexivity|].
  split; [vm_compute; reflexivity|]. split; [vm_compute; reflexivity|].
  eexists. split; [vm_compute; reflexivity | done].
Qed.

Lemma removal_idempotent_witness :
  (∃ p', RemovingPeople.DynamicPeople.remove proto_scenario [1; 7] = Ok p' ∧
         RemovingPeople.DynamicPeople.remove p' [1; 7] = Ok p') ∧
  (∀ S' : list Z,
     (∀ u, u ∈ RemovingPeople.DynamicPeople.live proto_scenario → (u ∈ [1; 7] ↔ u ∈ S')) →
     RemovingPeople.DynamicPeople.remove proto_scenario S' =
       RemovingPeople.DynamicPeople.remove proto_scenario [1; 7]).
Proof.
  apply (removal_idempotent proto_scenario [1; 7]).
  apply proto_scenario_consistent.
Defined.

(** C3 (growth correctness) fails on the code, in each of the two states
    the claim cites.
    - In removing_people.py [State.grow] stores fill values only in the
      memory it adds. A position that the buffer holds already keeps
      what it held, so after a removal the next agent born is shown the
      value of an agent removed: here agent 2 (value 30) is removed,
      agent 3 is born, and [y[3]] is 30 where the fill policy gives 0.
    - In starsim/states.py [State.grow] stores the new values at
      [self._data[-n:]], which for an empty array of new identifiers
      ([n = 0]) is the whole live view: the values 10, 20, 30 of [x]
      become the fill value.
    - [DynamicPeople.grow] hands each dynamic state the number of new
      agents, on which the [State.grow] of starsim/states.py raises: with
      such a state among the dynamic states no [grow] returns, for any
      population and any [n]. *)
Theorem growth_correctness_fails :
  (∃ p1 p2,
     RemovingPeople.State.values (y_of proto_scenario) = [10; 20; 30] ∧
     RemovingPeople.DynamicPeople.remove proto_scenario [2] = Ok p1 ∧
     RemovingPeople.DynamicPeople.grow p1 1 = Ok p2 ∧
     RemovingPeople.DynamicPeople.new_uids p1 1 = [3] ∧
     RemovingPeople.State.fill_value (y_of p2) = RemovingPeople.State.FillScalar 0 ∧
     RemovingPeople.DynamicPeople.getitem p2 (y_of p2) (Np.KInt 3) = Ok (Np.Scalar 30)) ∧
  (States.State.values x3 = [10; 20; 30] ∧
   States.State._new_vals x3 [] = Np.Scalar 0 ∧
   ∃ x', States.State.grow x3 [] = Ok x' ∧ States.State.values x' = [0; 0; 0]) ∧
  (RemovingPeople.DynamicPeople.grow scenario 2 =
     Err (TypeError "object of type 'int' has no len()") ∧
   ∀ (V : Type) (p : RemovingPeople.DynamicPeople.t (States.State.t V)) (n : nat),
     RemovingPeople.DynamicPeople._dynamic_states p ≠ [] →
     ∀ p', RemovingPeople.DynamicPeople.grow p n ≠ Ok p').
Proof.
  split; [|split; [|split]].
  - do 2 eexists. split; [reflexivity|]. split; [vm_compute; reflexivity|].
    split; [vm_compute; reflexivity|]. vm_compute. done.
  - split; [reflexivity|]. split; [reflexivity|]. eexists.
    split; [vm_compute; reflexivity | reflexivity].
  - vm_compute. reflexivity.
  - intros V p n Hne p'. unfold RemovingPeople.DynamicPeople.grow.
    intros (um & _ & (um' & _ & (us & _ & (us' & _ & (sts & Hsts & _)%bind_Ok)%bind_Ok)
      %bind_Ok)%bind_Ok)%bind_Ok.
    destruct (RemovingPeople.DynamicPeople._dynamic_states p) as [|c cs]; [done|].
    discriminate Hsts.
Qed.

(** C5 (slice semantics) fails on the [State] of removing_people.py: a
    bounded slice by identifier is translated through the identity map by
    [_map_slice] and returns data, and a store through it is done. *)
Theorem partial_slice_by_identifier_returns_data :
  States.State.values (x_of scenario) = [10; 20; 30] ∧
  RemovingPeople.State.values (y_of proto_scenario) = [10; 20; 30] ∧
  RemovingPeople.DynamicPeople.getitem proto_scenario (y_of proto_scenario)
    (Np.KSlice (Np.Slice (Some 0) (Some 2) None)) = Ok (Np.Array [10; 20]) ∧
  RemovingPeople.State.values
    (RemovingPeople.col_setitem [0; 1; 2] [0; 1; 2] (y_of proto_scenario)
       (Np.KSlice (Np.Slice (Some 1) None None)) (Np.Scalar 7)).1 = [10; 7; 7] ∧
  RemovingPeople.DynamicPeople.getitem scenario (x_of scenario)
    (Np.KSlice (Np.Slice (Some 0) (Some 2) None)) =
    Err (Exception
      "Slicing not supported - slice the .values attribute by index instead e.g., x.values[0:5], not x[0:5]").
Proof. vm_compute. done. Qed.

(** ** What holds of growth and of slices *)
Section growth_facts.
Import Np States.
Context {V : Type}.

(** [[-k:]] for [1 <= k <= len] *)
Lemma slice_positions_last (len k : nat) :
  (1 ≤ k ≤ len)%nat →
  slice_positions len (Slice (Some (- Z.of_nat k)) None None) = Ok (seq (len - k) k).
Proof.
  intros Hk. unfold slice_positions. cbn [step start stop default from_option].
  rewrite (bool_decide_eq_false_2 (1 = 0)) by lia.
  rewrite !(bool_decide_eq_false_2 (1 < 0)) by lia.
  rewrite (bool_decide_eq_true_2 (- Z.of_nat k < 0)) by lia.
  rewrite (bool_decide_eq_false_2 (- Z.of_nat k + Z.of_nat len < 0)) by lia.
  rewrite (bool_decide_eq_true_2 (0 < 1)) by lia.
  rewrite bool_decide_eq_true_2 by lia. f_equal. rewrite Z.div_1_r.
  replace (- Z.of_nat k + Z.of_nat len) with (Z.of_nat (len - k)) by lia.
  replace (Z.of_nat len - Z.of_nat (len - k) - 1 + 1) with (Z.of_nat k) by lia.
  apply positions_seq.
Qed.

Lemma DynamicView_grow_view (dv : DynamicView.t V) (k : nat) :
  dv_wf dv →
  take (DynamicView.n dv) (DynamicView._view (DynamicView.grow dv k)) = DynamicView._view dv.
Proof.
  intros Hwf. unfold DynamicView._view, dv_wf in *. cbn [DynamicView.grow DynamicView.n
    DynamicView._data]. rewrite take_take, Nat.min_l by lia.
  case_bool_decide; [by rewrite take_app_le | done].
Qed.

(** For at least one new agent, [State.grow] appends what the fill policy
    gives and keeps the values there were. *)
Lemma State_grow_values (c c' : State.t V) (uids : list Z) :
  state_wf c → (1 ≤ length uids)%nat → State.grow c uids = Ok c' →
  ∃ vs, broadcast (length uids) (State._new_vals c uids) = Ok vs ∧
        State.values c' = State.values c ++ vs.
Proof.
  intros Hwf Hk. unfold State.grow, DynamicView.__setitem__.
  intros (dv & (view & Hset & [= <-])%bind_Ok & [= <-])%bind_Ok.
  pose proof (DynamicView_grow_wf _ (length uids) Hwf) as Hwf1.
  pose proof (DynamicView_view_length _ Hwf1) as Hl1.
  pose proof (DynamicView_view_length _ Hwf) as Hl.
  pose proof (DynamicView_grow_view _ (length uids) Hwf) as Hold.
  cbn [DynamicView.grow DynamicView.n] in Hl1.
  cbn [set] in Hset. unfold setslice in Hset.
  rewrite Hl1, slice_positions_last in Hset by lia.
  cbn [bind] in Hset. rewrite length_seq in Hset.
  apply bind_Ok in Hset as (vs & Hvs & [= <-]). exists vs. split; [done|].
  apply broadcast_length in Hvs as Hlen.
  unfold State.values at 1. cbn [State._data]. unfold DynamicView._view at 1.
  cbn [DynamicView.n DynamicView._data DynamicView.grow].
  rewrite take_app_length' by (rewrite assign_length, Hl1; done).
  replace (DynamicView.n (State._data c) + length uids - length uids)%nat
    with (DynamicView.n (State._data c)) by lia.
  rewrite <- Hlen in Hold, Hl1 |- *. rewrite assign_seq by lia.
  rewrite Hold, drop_ge by lia. by rewrite app_nil_r.
Qed.

(** With a scalar fill value [State.grow] cannot fail. *)
Lemma State_grow_total (c : State.t V) (uids : list Z) (v : V) :
  state_wf c → State.fill_value c = State.FillScalar v →
  ∃ c', State.grow c uids = Ok c'.
Proof.
  intros Hwf Hfill. unfold State.grow, DynamicView.__setitem__, State._new_vals.
  rewrite Hfill. cbn [set]. unfold setslice.
  destruct (slice_positions _ _) as [ps|e] eqn:Hps.
  - cbn [bind broadcast]. by eexists.
  - exfalso. revert Hps. unfold slice_positions. cbn [step default].
    by rewrite (bool_decide_eq_false_2 (1 = 0)) by lia.
Qed.
End growth_facts.

(** [State.grow] of starsim/states.py for at least one new agent. On a
    sound state, [grow(uids)] with a non-empty array of new identifiers
    keeps the values there were and appends what the fill policy gives
    for [uids], one value per new identifier; it raises only when the
    fill policy gives an array of another length. With a scalar fill
    value it cannot raise and appends that value [len(uids)] times. *)
Theorem State_grow_appends {V : Type} (c : States.State.t V) (uids : list Z) :
  state_wf c → (1 ≤ length uids)%nat →
  (∀ c', States.State.grow c uids = Ok c' →
     state_wf c' ∧
     ∃ vs, Np.broadcast (length uids) (States.State._new_vals c uids) = Ok vs ∧
           length vs = length uids ∧
           States.State.values c' = States.State.values c ++ vs) ∧
  (∀ e, States.State.grow c uids = Err e →
     Np.broadcast (length uids) (States.State._new_vals c uids) = Err e) ∧
  (∀ v, States.State.fill_value c = States.State.FillScalar v →
     ∃ c', States.State.grow c uids = Ok c' ∧
           States.State.values c' = States.State.values c ++ replicate (length uids) v).
Proof.
  intros Hwf Hk.
  assert (Hrun : ∀ c', States.State.grow c uids = Ok c' →
            state_wf c' ∧
            ∃ vs, Np.broadcast (length uids) (States.State._new_vals c uids) = Ok vs ∧
                  length vs = length uids ∧
                  States.State.values c' = States.State.values c ++ vs).
  { intros c' Hgrow. split; [by eapply State_grow_spec|].
    destruct (State_grow_values c c' uids Hwf Hk Hgrow) as (vs & Hb & Hv).
    exists vs. split; [done|]. split; [by eapply broadcast_length | done]. }
  split; [exact Hrun|]. split.
  - intros e. unfold States.State.grow, States.DynamicView.__setitem__.
    pose proof (DynamicView_grow_wf _ (length uids) Hwf) as Hwf1.
    pose proof (DynamicView_view_length _ Hwf1) as Hl1.
    cbn [States.DynamicView.grow States.DynamicView.n] in Hl1.
    cbn [Np.set]. unfold Np.setslice. rewrite Hl1, slice_positions_last by lia.
    cbn [bind]. rewrite length_seq.
    destruct (Np.broadcast (length uids) (States.State._new_vals c uids));
      cbn [bind]; [done | by intros [= <-]].
  - intros v Hfill. destruct (State_grow_total c uids v Hwf Hfill) as [c' Hc'].
    exists c'. split; [done|]. destruct (Hrun c' Hc') as (_ & vs & Hb & _ & Hv).
    unfold States.State._new_vals in Hb. rewrite Hfill in Hb. cbn in Hb.
    injection Hb as <-. done.
Qed.

Lemma State_grow_appends_witness :
  ∃ c', States.State.grow x3 [3; 4] = Ok c' ∧
        States.State.values c' = States.State.values x3 ++ replicate 2 0.
Proof.
  destruct (State_grow_appends x3 [3; 4]) as (_ & _ & Hscalar).
  - unfold state_wf, dv_wf. simpl. lia.
  - simpl. lia.
  - exact (Hscalar 0 eq_refl).
Defined.

(** The slice rule of [FusedArray] in starsim/states.py: [c[:]] returns the whole column, and a get
    or a set through any other slice raises and changes nothing. *)
Theorem fused_slice_rule {V : Type} (c : States.FusedArray.t V) :
  States.FusedArray.__getitem__ c (Np.KSlice Np.full_slice) = Ok (States.FusedArray.Fused c) ∧
  ∀ s : Np.slice, s ≠ Np.full_slice →
    ∃ msg,
      States.FusedArray.__getitem__ c (Np.KSlice s) = Err (Exception msg) ∧
      ∀ v, States.FusedArray.__setitem__ c (Np.KSlice s) v = (c, Some (Exception msg)).
Proof.
  split; [done|]. intros [a b st] Hs. eexists.
  unfold States.FusedArray.__getitem__, States.FusedArray.__setitem__.
  cbn [Np.start Np.stop Np.step].
  destruct a, b, st; try (split; [reflexivity | intros v; reflexivity]).
  by destruct Hs.
Qed.

Lemma proto_State_grow_total {A : Type} (s : RemovingPeople.State.t A) (k : nat) (v : A) :
  RemovingPeople.State.fill_value s = RemovingPeople.State.FillScalar v →
  ∃ s', RemovingPeople.State.grow s k = Ok s'.
Proof.
  intros Hfill. unfold RemovingPeople.State.grow, RemovingPeople.State.filled.
  rewrite Hfill. case_bool_decide; cbn [bind]; by eexists.
Qed.

(** [grow] returns: on a consistent population whose identity map,
    identifiers and dynamic states (of removing_people.py) have scalar
    fill values, [grow(n)] raises nothing, for every [n]. *)
Theorem grow_returns {V : Type}
    (p : RemovingPeople.DynamicPeople.t (RemovingPeople.State.t V)) (n : nat) (a b : Z) :
  consistent p →
  RemovingPeople.State.fill_value (RemovingPeople.DynamicPeople._uid_map p) =
    RemovingPeople.State.FillScalar a →
  RemovingPeople.State.fill_value (RemovingPeople.DynamicPeople.uids p) =
    RemovingPeople.State.FillScalar b →
  Forall (λ c, ∃ v, RemovingPeople.State.fill_value c = RemovingPeople.State.FillScalar v)
         (RemovingPeople.DynamicPeople._dynamic_states p) →
  ∃ p', RemovingPeople.DynamicPeople.grow p n = Ok p'.
Proof.
  intros Hc Ha Hb Hfills.
  destruct Hc as (Hum & Hus & Hcols & _).
  destruct (proto_State_grow_total _ n _ Ha) as [um1 Hg1].
  destruct (proto_State_grow_total _ n _ Hb) as [us1 Hg2].
  set (new_uids := RemovingPeople.DynamicPeople.new_uids p n).
  set (new_inds := Np.arange
         (Z.of_nat (RemovingPeople.State.__len__ (RemovingPeople.DynamicPeople.uids p)))
         (Z.of_nat (RemovingPeople.State.__len__ (RemovingPeople.DynamicPeople.uids p)) +
          Z.of_nat n)).
  pose proof (State_grow_set _ _ n new_inds Hg1 Hum (arange_length _ n)) as Hset1.
  pose proof (State_grow_set _ _ n new_uids Hg2 Hus (arange_length _ n)) as Hset2.
  destruct (State_grow_inv _ _ _ Hg1 Hum) as (Hwf1 & Hn1 & _).
  destruct (State_grow_inv _ _ _ Hg2 Hus) as (Hwf2 & Hn2 & _).
  destruct (mapR_total (RemovingPeople.col_grow n) (λ _ _, True)
              (RemovingPeople.DynamicPeople._dynamic_states p)) as (sts & Hsts & _).
  { rewrite Forall_forall in Hfills |- *. intros c Hin.
    destruct (Hfills c Hin) as [v Hv].
    destruct (proto_State_grow_total c n v Hv) as [c' Hc']. by exists c'. }
  unfold RemovingPeople.DynamicPeople.grow. fold new_uids. fold new_inds.
  rewrite Hg1. cbn [bind].
  unfold RemovingPeople.State.__setitem__ at 1.
  unfold new_uids at 1, RemovingPeople.DynamicPeople.new_uids, RemovingPeople.State.__len__.
  unfold RemovingPeople.State.__len__ in new_inds. fold new_inds in Hset2.
  rewrite Hset1. cbn [bind]. rewrite Hg2. cbn [bind].
  destruct (State_store_values um1
              (RemovingPeople.State.values (RemovingPeople.DynamicPeople._uid_map p) ++ new_inds))
    as [Hv1 _].
  { rewrite length_app, State_values_length by done. unfold new_inds.
    rewrite arange_length. lia. }
  unfold RemovingPeople.State.__setitem__. rewrite Hv1. cbn [Np.get].
  assert (Hread : Np.getitems
            (RemovingPeople.State.values (RemovingPeople.DynamicPeople._uid_map p) ++ new_inds)
            new_uids = Ok new_inds).
  { unfold new_uids, RemovingPeople.DynamicPeople.new_uids, RemovingPeople.State.__len__.
    rewrite arange_seqZ, <- (State_values_length _ Hum).
    replace (Z.of_nat n) with (Z.of_nat (length new_inds))
      by (unfold new_inds; by rewrite arange_length).
    apply getitems_tail. }
  rewrite Hread. cbn [bind Np.as_key]. rewrite Hset2. cbn [bind].
  rewrite Hsts. cbn [bind]. by eexists.
Qed.

Lemma grow_returns_witness :
  ∃ p', RemovingPeople.DynamicPeople.grow proto_scenario 2 = Ok p'.
Proof.
  apply (grow_returns proto_scenario 2 0 0 proto_scenario_consistent).
  - reflexivity.
  - reflexivity.
  - apply Forall_cons. split; [by exists 0 | apply Forall_nil_2].
Defined.

(** What growth keeps. When [grow(n)] returns on a consistent population,
    the count has grown by [n]; the [n] new identifiers are greater than
    every identifier the identity map knew; the live identifiers are the
    former ones followed by the new ones; every former identifier reads
    its former value in every dynamic state; and the population is
    consistent again. What a new identifier reads is left to the states:
    the [State] of removing_people.py shows it whatever the buffer held
    at its position. *)
Theorem growth_keeps_agents {C V I : Type} `{!RemovingPeople.DynamicState C V I}
    `{!DynamicStateLaws C V I} (p p' : RemovingPeople.DynamicPeople.t C) (n : nat) :
  consistent p →
  RemovingPeople.DynamicPeople.grow p n = Ok p' →
  consistent p' ∧
  RemovingPeople.DynamicPeople.__len__ p' = (RemovingPeople.DynamicPeople.__len__ p + n)%nat ∧
  length (RemovingPeople.DynamicPeople.new_uids p n) = n ∧
  (∀ u w, u ∈ RemovingPeople.DynamicPeople.new_uids p n → issued p w → w < u) ∧
  RemovingPeople.DynamicPeople.live p' =
    RemovingPeople.DynamicPeople.live p ++ RemovingPeople.DynamicPeople.new_uids p n ∧
  (∀ u, u ∈ RemovingPeople.DynamicPeople.live p →
     Forall2 (λ c c', ∃ v,
                RemovingPeople.DynamicPeople.getitem p c (Np.KInt u) =
                  Ok (RemovingPeople.col_item v) ∧
                RemovingPeople.DynamicPeople.getitem p' c' (Np.KInt u) =
                  Ok (RemovingPeople.col_item v))
             (RemovingPeople.DynamicPeople._dynamic_states p)
             (RemovingPeople.DynamicPeople._dynamic_states p')).
Proof.
  intros Hc Hgrow.
  destruct (grow_run p n p' Hc Hgrow) as (Hum' & Hlive' & _ & _ & Hlen' & Hsts & _).
  pose proof (consistent_grow p n p' Hc Hgrow) as Hc'.
  split; [done|]. split; [done|]. split; [apply arange_length|].
  split; [|split; [done|]].
  - intros u w Hu Hw. unfold RemovingPeople.DynamicPeople.new_uids in Hu.
    rewrite arange_seqZ in Hu. apply elem_of_seqZ in Hu. unfold issued in Hw. lia.
  - intros u Hu.
    destruct (live_lookup p u Hc Hu) as (i & Hi & Hu0 & Hmap & Hlt & _).
    assert (Hmap' : RemovingPeople.State.values (RemovingPeople.DynamicPeople._uid_map p')
                      !! Z.to_nat u = Some (Z.of_nat i))
      by (rewrite Hum'; by apply lookup_app_l_Some).
    apply mapR_Ok in Hsts.
    apply Forall2_same_length_lookup. split; [by eapply Forall2_length|].
    intros m c c' Hm Hm'.
    pose proof (Forall2_lookup_lr _ _ _ _ _ _ Hsts Hm Hm') as Hg.
    destruct Hc as (_ & _ & Hcols & _). rewrite Forall_forall in Hcols.
    destruct (Hcols c (list_elem_of_lookup_2 _ _ _ Hm)) as [Hwf Hl].
    destruct (col_grow_spec n c c' Hwf Hg) as (_ & _ & Hpre).
    destruct (lookup_lt_is_Some_2 (RemovingPeople.col_values c) i) as [v Hci]; [lia|].
    exists v. unfold RemovingPeople.DynamicPeople.getitem. split.
    + by eapply col_getitem_placed.
    + eapply col_getitem_placed; [done | done |].
      rewrite <- Hpre in Hci. by apply lookup_take_Some in Hci as [? _].
Qed.

Lemma growth_keeps_agents_witness :
  RemovingPeople.DynamicPeople.__len__ proto_grown =
    (RemovingPeople.DynamicPeople.__len__ proto_scenario + 2)%nat ∧
  RemovingPeople.DynamicPeople.live proto_grown =
    RemovingPeople.DynamicPeople.live proto_scenario ++
    RemovingPeople.DynamicPeople.new_uids proto_scenario 2 ∧
  Forall2 (λ c c', ∃ v,
             RemovingPeople.DynamicPeople.getitem proto_scenario c (Np.KInt 1) =
               Ok (RemovingPeople.col_item v) ∧
             RemovingPeople.DynamicPeople.getitem proto_grown c' (Np.KInt 1) =
               Ok (RemovingPeople.col_item v))
          (RemovingPeople.DynamicPeople._dynamic_states proto_scenario)
          (RemovingPeople.DynamicPeople._dynamic_states proto_grown).
Proof.
  assert (Hgrow : RemovingPeople.DynamicPeople.grow proto_scenario 2 = Ok proto_grown)
    by (vm_compute; reflexivity).
  destruct (growth_keeps_agents proto_scenario proto_grown 2 proto_scenario_consistent Hgrow)
    as (_ & Hlen & _ & _ & Hlive & Hvals).
  split; [exact Hlen|]. split; [exact Hlive|].
  apply Hvals. apply (list_elem_of_lookup_2 _ 1%nat). reflexivity.
Defined.

(** * Further properties of the code *)

(** ** Filters of a [FusedArray] *)
Section filter_facts.
Import Np States.
Context {V : Type}.
Implicit Types (c r : FusedArray.t V) (u : Z).

Lemma nonzero_from_NoDup (k : Z) (mask : list bool) : NoDup (nonzero_from k mask).
Proof.
  revert k. induction mask as [|b mask IH]; intros k; simpl; [constructor|].
  destruct b; simpl; [|apply IH]. constructor; [|apply IH].
  intros Hin. pose proof (nonzero_from_ge (k + 1) mask) as Hge.
  rewrite Forall_forall in Hge. specialize (Hge k Hin). lia.
Qed.

Lemma aligned_NoDup c : aligned c → NoDup (FusedArray.uid c).
Proof.
  intros [_ Hpos]. apply NoDup_alt. intros i j u Hi Hj.
  destruct (Hpos i u Hi) as (_ & Hi' & _). destruct (Hpos j u Hj) as (_ & Hj' & _).
  rewrite Hi' in Hj'. injection Hj'. lia.
Qed.

Lemma aligned_size c : aligned c → Z.of_nat (length (FusedArray.values c)) ≤ INT_NAN.
Proof.
  intros [Hlen Hpos].
  destruct (decide (Z.of_nat (length (FusedArray.values c)) ≤ INT_NAN)) as [|Hbig]; [done|].
  destruct (lookup_lt_is_Some_2 (FusedArray.uid c) (Z.to_nat INT_NAN)) as [u Hu];
    [unfold INT_NAN in *; lia|].
  destruct (Hpos _ u Hu) as (_ & _ & Hnan & _). unfold INT_NAN in *. lia.
Qed.

(** In an aligned column the identifier at a position reads the value at
    that position. *)
Lemma aligned_getitem c (i : nat) u (v : V) :
  aligned c → FusedArray.uid c !! i = Some u → FusedArray.values c !! i = Some v →
  FusedArray.__getitem__ c (KInt u) = Ok (FusedArray.Value v).
Proof.
  intros [_ Hpos] Hu Hv. destruct (Hpos i u Hu) as (H0 & Hm & _).
  unfold FusedArray.__getitem__.
  rewrite (getitem_Ok _ u _ H0 Hm). cbn [bind].
  by rewrite (getitem_Ok _ (Z.of_nat i) v) by (rewrite ?Nat2Z.id; done || lia).
Qed.

(** Distinct positions of a column without repeated identifiers select
    distinct identifiers. *)
Lemma gather_NoDup (uid : list Z) (idx uids : list Z) :
  NoDup uid → NoDup idx → Forall (λ i, 0 ≤ i) idx →
  Forall2 (λ i u, uid !! Z.to_nat i = Some u) idx uids → NoDup uids.
Proof.
  intros Huid Hidx Hpos HF. apply NoDup_alt. intros j j' u Hj Hj'.
  destruct (Forall2_lookup_r _ _ _ _ _ HF Hj) as (i & Hi & Hiu).
  destruct (Forall2_lookup_r _ _ _ _ _ HF Hj') as (i' & Hi' & Hiu').
  rewrite Forall_forall in Hpos.
  pose proof (Hpos i (list_elem_of_lookup_2 _ _ _ Hi)).
  pose proof (Hpos i' (list_elem_of_lookup_2 _ _ _ Hi')).
  assert (Z.to_nat i = Z.to_nat i') as Heq
    by exact (NoDup_lookup _ _ _ u Huid Hiu Hiu').
  assert (i = i') as <- by lia. exact (NoDup_lookup _ _ _ i Hidx Hi Hi').
Qed.

(** What [new_uid_map[uids] = np.arange(len(uids))] leaves in a map of
    flags. *)
Lemma flag_map_lookup (size : nat) (uids : list Z) (j : nat) u :
  NoDup uids → Forall (λ u, 0 ≤ u < Z.of_nat size) uids → uids !! j = Some u →
  assign (full size INT_NAN) (Z.to_nat <$> uids) (arange 0 (Z.of_nat (length uids)))
    !! Z.to_nat u = Some (Z.of_nat j).
Proof.
  intros Hnd Hin Hj. rewrite Forall_forall in Hin.
  pose proof (Hin u (list_elem_of_lookup_2 _ _ _ Hj)) as Hu.
  apply (assign_lookup _ _ _ j).
  - apply to_nat_NoDup; [|done]. apply Forall_forall. intros x Hx. by apply Hin.
  - by rewrite list_lookup_fmap, Hj.
  - rewrite arange_0. apply lookup_seqZ. apply lookup_lt_Some in Hj. lia.
  - unfold full. rewrite length_replicate. lia.
Qed.

Lemma flag_map_lookup_notin (size : nat) (uids vs : list Z) u :
  Forall (λ u, 0 ≤ u) uids → 0 ≤ u < Z.of_nat size → u ∉ uids →
  assign (full size INT_NAN) (Z.to_nat <$> uids) vs !! Z.to_nat u = Some INT_NAN.
Proof.
  intros Hpos Hu Hnotin. rewrite assign_lookup_notin.
  - unfold full. apply lookup_replicate_2. lia.
  - intros (u' & Heq & Hin)%list_elem_of_fmap. rewrite Forall_forall in Hpos.
    specialize (Hpos u' Hin). assert (u = u') as -> by lia. done.
Qed.
End filter_facts.

(** A get by a boolean mask is a filter that can be chained: on an aligned
    column it returns the column of the identifiers and values at the
    [True] positions, which is aligned again; every identifier kept reads
    in it the value it has in the column, and every other (non-negative)
    identifier has no position in it. *)
Theorem mask_filter_keeps_alignment {V : Type}
    (c : States.FusedArray.t V) (mask : list bool) :
  aligned c →
  Forall (λ i, i < Z.of_nat (length (States.FusedArray.values c))) (Np.nonzero mask) →
  ∃ r, States.FusedArray.__getitem__ c (Np.KMask mask) = Ok (States.FusedArray.Fused r) ∧
       Forall2 (λ i u, States.FusedArray.uid c !! Z.to_nat i = Some u)
               (Np.nonzero mask) (States.FusedArray.uid r) ∧
       aligned r ∧
       (∀ u, u ∈ States.FusedArray.uid r →
          ∃ v, States.FusedArray.__getitem__ c (Np.KInt u) = Ok (States.FusedArray.Value v) ∧
               States.FusedArray.__getitem__ r (Np.KInt u) = Ok (States.FusedArray.Value v)) ∧
       (∀ u, 0 ≤ u → u ∉ States.FusedArray.uid r → missing r u).
Proof.
  intros Hal Hin. pose proof Hal as [Hlen Hpos].
  pose proof (aligned_size c Hal) as Hsize.
  pose proof (nonzero_nonneg mask) as Hnn.
  assert (Hidx : Forall (λ i, 0 ≤ i < Z.of_nat (length (States.FusedArray.values c)))
                   (Np.nonzero mask)).
  { apply Forall_forall. intros i Hi. rewrite Forall_forall in Hin, Hnn.
    split; [by apply Hnn | by apply Hin]. }
  destruct (getitems_total (States.FusedArray.uid c) (Np.nonzero mask)) as (uids & Huids & HFu);
    [by rewrite Hlen|].
  destruct (getitems_total (States.FusedArray.values c) (Np.nonzero mask) Hidx)
    as (out & Hout & HFv).
  set (um := States.FusedArray._uid_map c) in *.
  assert (Hplaced : ∀ (j : nat) u, uids !! j = Some u →
            ∃ i : nat, Np.nonzero mask !! j = Some (Z.of_nat i) ∧
                       States.FusedArray.uid c !! i = Some u ∧ position c u i).
  { intros j u Hj. destruct (Forall2_lookup_r _ _ _ _ _ HFu Hj) as (i & Hi & Hiu).
    rewrite Forall_forall in Hnn. pose proof (Hnn i (list_elem_of_lookup_2 _ _ _ Hi)).
    exists (Z.to_nat i). rewrite Z2Nat.id by done. split; [done|]. split; [done|].
    by apply Hpos. }
  assert (Hin_um : Forall (λ u, 0 ≤ u < Z.of_nat (length um)) uids).
  { apply Forall_forall. intros u (j & Hj)%list_elem_of_lookup_1.
    destruct (Hplaced j u Hj) as (i & _ & _ & H0 & Hm & _).
    apply lookup_lt_Some in Hm. fold um in Hm. lia. }
  assert (Hnd : NoDup uids).
  { apply (gather_NoDup (States.FusedArray.uid c) (Np.nonzero mask));
      [by apply aligned_NoDup | apply nonzero_from_NoDup | done | done]. }
  assert (Hcount : (length uids ≤ length (States.FusedArray.values c))%nat).
  { rewrite <- Hlen. apply submseteq_length, NoDup_submseteq; [done|].
    intros u (j & Hj)%list_elem_of_lookup_1.
    destruct (Hplaced j u Hj) as (i & _ & Hi & _). by eapply list_elem_of_lookup_2. }
  set (m := Np.assign (Np.full (length um) Np.INT_NAN) (Z.to_nat <$> uids)
                      (Np.arange 0 (Z.of_nat (length uids)))).
  assert (Hr : aligned (States.FusedArray.mk out uids m)).
  { split; cbn [States.FusedArray.uid States.FusedArray.values States.FusedArray._uid_map].
    - apply Forall2_length in HFu, HFv. congruence.
    - intros j u Hj. unfold position, position_in.
      cbn [States.FusedArray.uid States.FusedArray.values States.FusedArray._uid_map].
      apply lookup_lt_Some in Hj as Hjlt.
      pose proof (proj1 (Forall_forall _ _) Hin_um u (list_elem_of_lookup_2 _ _ _ Hj)) as Hu.
      simpl in Hu. split; [lia|]. split; [by apply flag_map_lookup|].
      apply Forall2_length in HFu, HFv. split; [lia|]. lia. }
  exists (States.FusedArray.mk out uids m). split; [|split; [done|split; [done|split]]].
  - unfold States.FusedArray.__getitem__. fold um.
    rewrite Huids. cbn [bind]. unfold Np.setitems, Np.broadcast.
    rewrite bool_decide_eq_true_2 by (unfold Np.arange; rewrite length_seqZ; lia).
    cbn [bind]. rewrite indices_Ok by (unfold Np.full; by rewrite length_replicate).
    cbn [bind]. by rewrite Hout.
  - cbn [States.FusedArray.uid]. intros u (j & Hj)%list_elem_of_lookup_1.
    destruct (Hplaced j u Hj) as (i & Hi & Hiu & _).
    destruct (Forall2_lookup_l _ _ _ _ _ HFv Hi) as (v & Hv & Hval).
    rewrite Nat2Z.id in Hval. exists v. split.
    + by apply (aligned_getitem c i).
    + by apply (aligned_getitem _ j).
  - cbn [States.FusedArray.uid]. intros u Hu Hnotin. unfold missing, missing_in.
    cbn [States.FusedArray._uid_map].
    assert (Hlm : length m = length um)
      by (unfold m, Np.full; by rewrite assign_length, length_replicate).
    destruct (decide (u < Z.of_nat (length um))) as [Hlt|Hge]; [right|left; lia].
    apply flag_map_lookup_notin; [|lia|done].
    eapply Forall_impl; [exact Hin_um|]. simpl. intros; lia.
Qed.

Lemma three_agents_aligned : aligned three_agents.
Proof.
  split; [done|]. intros i u Hi. apply three_agents_position.
  - by destruct i as [|[|[|]]]; simpl in Hi; simplify_eq.
  - by apply lookup_lt_Some in Hi.
Qed.

Lemma mask_filter_keeps_alignment_witness :
  ∃ r, States.FusedArray.__getitem__ three_agents (Np.KMask [true; false; true]) =
         Ok (States.FusedArray.Fused r) ∧
       Forall2 (λ i u, States.FusedArray.uid three_agents !! Z.to_nat i = Some u)
               (Np.nonzero [true; false; true]) (States.FusedArray.uid r) ∧
       aligned r ∧
       (∀ u, u ∈ States.FusedArray.uid r →
          ∃ v, States.FusedArray.__getitem__ three_agents (Np.KInt u) =
                 Ok (States.FusedArray.Value v) ∧
               States.FusedArray.__getitem__ r (Np.KInt u) = Ok (States.FusedArray.Value v)) ∧
       (∀ u, 0 ≤ u → u ∉ States.FusedArray.uid r → missing r u).
Proof.
  apply (mask_filter_keeps_alignment three_agents [true; false; true]).
  - apply three_agents_aligned.
  - simpl. repeat (apply Forall_cons; split; [lia|]). apply Forall_nil_2.
Defined.

Example mask_filter_run :
  States.FusedArray.__getitem__ three_agents (Np.KMask [true; false; true]) =
    Ok (States.FusedArray.Fused
          (States.FusedArray.mk [10; 30] [0; 2] [0; Np.INT_NAN; 1])).
Proof. vm_compute. reflexivity. Qed.

(** ** Gets by identifier arrays *)
Section gather_by_identifier.
Import Np States.
Context {V : Type}.

(** The loop of [_get_vals_uids] on placed identifiers: the values are
    appended in key order and the new map receives the running index at
    each identifier, in key order. *)
Lemma get_loop_run (um : list Z) (vals : list V) (key : list Z) : ∀ out m,
  length m = length um →
  Forall (λ u, ∃ p, position_in um (length vals) u p) key →
  ∃ vs,
    FusedArray._get_vals_uids_loop vals um key (Z.of_nat (length out)) out m =
      Ok (out ++ vs,
          assign m (Z.to_nat <$> key) (seqZ (Z.of_nat (length out)) (Z.of_nat (length key)))) ∧
    Forall2 (λ u v, ∃ p : nat, 0 ≤ u ∧ um !! Z.to_nat u = Some (Z.of_nat p) ∧
                               vals !! p = Some v) key vs.
Proof.
  induction key as [|k key IH]; intros out m Hlen Hkey.
  - exists []. split; [by rewrite app_nil_r | constructor].
  - apply Forall_cons in Hkey as [(p & Hk & Hp & Hnan & Hlt) Hkey].
    destruct (lookup_lt_is_Some_2 vals p Hlt) as [v Hv].
    assert (Hklt : (Z.to_nat k < length m)%nat)
      by (rewrite Hlen; by eapply lookup_lt_Some).
    destruct (IH (out ++ [v]) (<[Z.to_nat k := Z.of_nat (length out)]> m))
      as (vs & Hrun & HF); [by rewrite length_insert | done |].
    exists (v :: vs). split; [|constructor; [by exists p | done]].
    cbn [FusedArray._get_vals_uids_loop].
    rewrite (getitem_Ok um k _ Hk Hp). cbn [bind unchecked].
    rewrite bool_decide_eq_false_2 by done.
    rewrite (getitem_Ok vals (Z.of_nat p) v) by (rewrite ?Nat2Z.id; done || lia).
    cbn [bind unchecked]. rewrite setitem_Scalar_Ok by lia. cbn [bind unchecked].
    rewrite length_app in Hrun. cbn [length] in Hrun.
    replace (Z.of_nat (length out) + 1) with (Z.of_nat (length out + 1)) by lia.
    rewrite Hrun, <- (assoc_L (++)). do 2 f_equal.
    replace (Z.of_nat (length (k :: key))) with (Z.succ (Z.of_nat (length key)))
      by (cbn [length]; lia).
    rewrite (seqZ_cons (Z.of_nat (length out))) by lia.
    rewrite fmap_cons, assign_cons. do 2 f_equal; lia.
Qed.
End gather_by_identifier.

(** A get by an array (or a list) of placed identifiers returns a column
    labelled by the key whose values are those of the identifiers in key
    order, repeated identifiers included; every non-negative identifier
    outside the key has no position in it; and when the key repeats no
    identifier the result is aligned, so that it can be filtered again. *)
Theorem get_by_identifiers_in_key_order {V : Type}
    (c : States.FusedArray.t V) (us : list Z) :
  Forall (λ u, ∃ p, position c u p) us →
  ∃ r, States.FusedArray.__getitem__ c (Np.KArray us) = Ok (States.FusedArray.Fused r) ∧
       States.FusedArray.__getitem__ c (Np.KList us) = Ok (States.FusedArray.Fused r) ∧
       States.FusedArray.uid r = us ∧
       Forall2 (λ u v, States.FusedArray.__getitem__ c (Np.KInt u) =
                         Ok (States.FusedArray.Value v))
               us (States.FusedArray.values r) ∧
       (∀ u, 0 ≤ u → u ∉ us → missing r u) ∧
       (NoDup us → Z.of_nat (length us) ≤ Np.INT_NAN → aligned r).
Proof.
  intros Hus. destruct c as [vals uid um]. unfold position in Hus.
  cbn [States.FusedArray.values States.FusedArray._uid_map] in Hus.
  destruct (get_loop_run um vals us [] (Np.full (length um) Np.INT_NAN))
    as (vs & Hrun & HF); [apply length_replicate | done |].
  cbn [length app] in Hrun. change (Z.of_nat 0) with 0 in Hrun.
  set (m := Np.assign (Np.full (length um) Np.INT_NAN) (Z.to_nat <$> us)
                      (seqZ 0 (Z.of_nat (length us)))) in *.
  assert (Hpos : Forall (λ u, 0 ≤ u < Z.of_nat (length um)) us).
  { eapply Forall_impl; [exact Hus|]. simpl. intros u (p & H0 & Hp & _).
    apply lookup_lt_Some in Hp. lia. }
  exists (States.FusedArray.mk vs us m).
  unfold States.FusedArray.__getitem__, States.FusedArray._get_vals_uids.
  cbn [States.FusedArray.values States.FusedArray._uid_map States.FusedArray.uid].
  rewrite Hrun. cbn [bind fst snd].
  split; [done|]. split; [done|]. split; [done|]. split; [|split].
  - eapply Forall2_impl; [exact HF|]. simpl. intros u v (p & H0 & Hp & Hv).
    rewrite (getitem_Ok um u _ H0 Hp). cbn [bind].
    by rewrite (getitem_Ok vals (Z.of_nat p) v) by (rewrite ?Nat2Z.id; done || lia).
  - intros u Hu Hnotin. unfold missing, missing_in. cbn [States.FusedArray._uid_map].
    assert (Hlm : length m = length um)
      by (unfold m, Np.full; by rewrite assign_length, length_replicate).
    destruct (decide (u < Z.of_nat (length um))) as [Hlt|Hge]; [right|left; lia].
    apply flag_map_lookup_notin; [|lia|done].
    eapply Forall_impl; [exact Hpos|]. simpl. intros; lia.
  - intros Hnd Hsize. split;
      cbn [States.FusedArray.values States.FusedArray._uid_map States.FusedArray.uid].
    + by apply Forall2_length in HF.
    + intros j u Hj. unfold position, position_in.
      cbn [States.FusedArray.values States.FusedArray._uid_map States.FusedArray.uid].
      apply lookup_lt_Some in Hj as Hjlt.
      pose proof (proj1 (Forall_forall _ _) Hpos u (list_elem_of_lookup_2 _ _ _ Hj)) as Hu.
      simpl in Hu. apply Forall2_length in HF.
      split; [lia|]. split; [|split; lia].
      unfold m. rewrite <- arange_0. by apply flag_map_lookup.
Qed.

Lemma get_by_identifiers_in_key_order_witness :
  ∃ r, States.FusedArray.__getitem__ three_agents (Np.KArray [2; 0; 2]) =
         Ok (States.FusedArray.Fused r) ∧
       States.FusedArray.uid r = [2; 0; 2] ∧
       Forall2 (λ u v, States.FusedArray.__getitem__ three_agents (Np.KInt u) =
                         Ok (States.FusedArray.Value v))
               [2; 0; 2] (States.FusedArray.values r).
Proof.
  destruct (get_by_identifiers_in_key_order three_agents [2; 0; 2])
    as (r & Hget & _ & Huid & Hvals & _).
  - repeat (apply Forall_cons; split); [..|apply Forall_nil_2].
    + exists 2%nat. apply three_agents_position; [done | lia].
    + exists 0%nat. apply three_agents_position; [done | lia].
    + exists 2%nat. apply three_agents_position; [done | lia].
  - exists r. split; [exact Hget|]. split; [exact Huid | exact Hvals].
Defined.

Example get_repeated_identifier :
  States.FusedArray.__getitem__ three_agents (Np.KArray [2; 0; 2]) =
    Ok (States.FusedArray.Fused (States.FusedArray.mk [30; 10; 30] [2; 0; 2] [1; Np.INT_NAN; 2])).
Proof. vm_compute. reflexivity. Qed.

(** ** Sets by identifier arrays, read back *)
Section scatter_by_identifier.
Import Np States.
Context {V : Type}.

Lemma Forall_choice {X Y} (R : X → Y → Prop) (l : list X) :
  Forall (λ x, ∃ y, R x y) l → ∃ k, Forall2 R l k.
Proof.
  induction 1 as [|x l [y Hy] _ [k Hk]]; [by exists [] | exists (y :: k); by constructor].
Qed.

(** The loops of the set kernels on placed identifiers: the values are
    stored at the positions of the identifiers, in key order. *)
Lemma set_loop_run (rhs : Z → res V) (um : list Z) (key : list Z) :
  ∀ (vals : list V) (i : Z) (ps : list nat) (xs : list V),
  Forall2 (λ u p, position_in um (length vals) u p) key ps →
  Forall2 (λ j x, rhs j = Ok x) (seqZ i (Z.of_nat (length key))) xs →
  FusedArray._set_vals_uids_loop rhs vals key um i = (assign vals ps xs, None).
Proof.
  induction key as [|k key IH]; intros vals i ps xs Hps Hxs.
  - by apply Forall2_nil_inv_l in Hps as ->.
  - apply Forall2_cons_inv_l in Hps as (p & ps' & Hp & Hps & ->).
    replace (Z.of_nat (length (k :: key))) with (Z.succ (Z.of_nat (length key))) in Hxs
      by (cbn [length]; lia).
    rewrite seqZ_cons in Hxs by lia.
    apply Forall2_cons_inv_l in Hxs as (x & xs' & Hx & Hxs & ->).
    cbn [FusedArray._set_vals_uids_loop]. rewrite Hx, (set_step_Ok um vals k p x Hp).
    rewrite assign_cons. apply IH.
    + eapply Forall2_impl; [exact Hps|]. simpl. intros u q Hq.
      by rewrite length_insert.
    + rewrite Z.pred_succ in Hxs. by replace (i + 1) with (Z.succ i) by lia.
Qed.

Lemma getitem_seqZ (value : list V) :
  Forall2 (λ j x, unchecked (getitem value j) = Ok x)
          (seqZ 0 (Z.of_nat (length value))) value.
Proof.
  apply Forall2_same_length_lookup. split; [rewrite length_seqZ; lia|].
  intros j i x [-> Hj]%lookup_seqZ Hx. rewrite (getitem_Ok value _ x); [done | lia |].
  by rewrite Z.add_0_l, Nat2Z.id.
Qed.

Lemma scalar_seqZ (x : V) (i : Z) (k : nat) :
  Forall2 (λ (j : Z) y, (λ _ : Z, Ok x) j = Ok y) (seqZ i (Z.of_nat k)) (replicate k x).
Proof.
  apply Forall2_same_length_lookup. split; [rewrite length_seqZ, length_replicate; lia|].
  by intros j ? y _ [-> _]%lookup_replicate.
Qed.
End scatter_by_identifier.

(** C10 (bulk set is not atomic). A set by an identifier array [key] with
    a value array of the same length writes in key order. When [key[k]]
    is the first identifier without a position, the set raises
    [IdentifierNotFound] and the column is left as the set of the first
    [k] identifiers with the first [k] values leaves it: the identifiers
    and the identity map as they were, each of the first [k] values
    stored at the position of its identifier (the last one, where several
    go to one position), every other position untouched. The column is
    not restored: whenever one of these values differs from what its
    position held, the column after the failed call differs from the
    column before it. *)
Theorem bulk_set_not_atomic {V : Type}
    (c : States.FusedArray.t V) (key : list Z) (value : list V) (k : nat) (u : Z) :
  length value = length key →
  key !! k = Some u → 0 ≤ u → missing c u →
  (∀ j u', (j < k)%nat → key !! j = Some u' → ∃ p, position c u' p) →
  ∃ c' e,
    States.FusedArray.__setitem__ c (Np.KArray key) (Np.Array value) = (c', Some e) ∧
    IdentifierNotFound e ∧
    States.FusedArray.__setitem__ c (Np.KArray (take k key)) (Np.Array (take k value)) =
      (c', None) ∧
    States.FusedArray.uid c' = States.FusedArray.uid c ∧
    States.FusedArray._uid_map c' = States.FusedArray._uid_map c ∧
    length (States.FusedArray.values c') = length (States.FusedArray.values c) ∧
    (∀ (j : nat) u' (p : nat) x,
       (j < k)%nat → key !! j = Some u' → position c u' p → value !! j = Some x →
       (∀ (j' : nat) u'', (j < j' < k)%nat → key !! j' = Some u'' → ¬ position c u'' p) →
       States.FusedArray.values c' !! p = Some x) ∧
    (∀ p : nat,
       (∀ (j : nat) u', (j < k)%nat → key !! j = Some u' → ¬ position c u' p) →
       States.FusedArray.values c' !! p = States.FusedArray.values c !! p) ∧
    (∀ (j : nat) u' (p : nat) x,
       (j < k)%nat → key !! j = Some u' → position c u' p → value !! j = Some x →
       (∀ (j' : nat) u'', (j < j' < k)%nat → key !! j' = Some u'' → ¬ position c u'' p) →
       States.FusedArray.values c !! p ≠ Some x →
       c' ≠ c).
Proof.
  intros Hlen Hk Hu Hmiss Hbefore. destruct c as [vals uid um].
  unfold missing, position in *.
  cbn [States.FusedArray.values States.FusedArray._uid_map States.FusedArray.uid] in *.
  apply lookup_lt_Some in Hk as Hklt.
  destruct (Forall_choice (λ u' (p : nat), position_in um (length vals) u' p) (take k key))
    as [ps Hps].
  { apply Forall_forall. intros u' (j & Hj)%list_elem_of_lookup_1.
    apply lookup_take_Some in Hj as [Hj Hjk]. by eapply Hbefore. }
  assert (Hlk : length (take k key) = k) by (rewrite length_take; lia).
  assert (Hxs : Forall2 (λ j x, Np.unchecked (Np.getitem value j) = Ok x)
                  (seqZ 0 (Z.of_nat (length (take k key)))) (take k value)).
  { apply Forall2_same_length_lookup. split; [rewrite length_seqZ, !length_take; lia|].
    intros j i x [-> Hj]%lookup_seqZ [Hx _]%lookup_take_Some.
    rewrite (getitem_Ok value _ x); [done | lia |]. by rewrite Z.add_0_l, Nat2Z.id. }
  pose proof (set_loop_run (λ i, Np.unchecked (Np.getitem value i)) um (take k key)
                vals 0 ps (take k value) Hps Hxs) as Hrun.
  set (vals' := Np.assign vals ps (take k value)) in *.
  assert (Hlen' : length vals' = length vals) by apply assign_length.
  destruct (set_step_missing um vals' u
              (Np.unchecked (Np.getitem value (0 + Z.of_nat (length (take k key)))))
              Hu Hmiss) as (e & Hstep & Hnf).
  assert (Hfull : States.FusedArray._set_vals_uids_loop
                    (λ i, Np.unchecked (Np.getitem value i)) vals key um 0
                  = (vals', Some e)).
  { rewrite <- (take_drop_middle key k u Hk).
    rewrite set_loop_app, Hrun. simpl. by rewrite Hstep. }
  assert (Hpart : States.FusedArray._set_vals_uids_loop
                    (λ i, Np.unchecked (Np.getitem (take k value) i)) vals
                    (take k key) um 0 = (vals', None)).
  { rewrite <- Hrun. apply set_loop_ext.
    intros j Hj. rewrite length_take in Hj. unfold Np.getitem.
    rewrite length_take, Nat.min_l by lia.
    rewrite !index_Ok by lia. simpl.
    rewrite lookup_take_lt by lia.
    by destruct (lookup_lt_is_Some_2 value (Z.to_nat j)) as [x ->]; [lia|]. }
  assert (Hwritten : ∀ (j : nat) u' (p : nat) x,
            (j < k)%nat → key !! j = Some u' → position_in um (length vals) u' p →
            value !! j = Some x →
            (∀ (j' : nat) u'', (j < j' < k)%nat → key !! j' = Some u'' →
               ¬ position_in um (length vals) u'' p) →
            vals' !! p = Some x).
  { intros j u' p x Hj Hju Hpos Hx Hlast.
    assert (Hpj : ps !! j = Some p).
    { destruct (Forall2_lookup_l _ _ _ _ _ Hps (proj2 (lookup_take_Some key k j u')
                  (conj Hju Hj))) as (q & Hq & Hposq).
      destruct Hpos as (_ & Hm & _). destruct Hposq as (_ & Hm' & _).
      rewrite Hm in Hm'. injection Hm' as Heq. by rewrite (Nat2Z.inj _ _ Heq). }
    apply (assign_lookup_last vals ps (take k value) j p x); [done | | by destruct Hpos as (_ & _ & _ & ?) |].
    - by apply lookup_take_Some.
    - intros j' Hj' Hpj'.
      destruct (Forall2_lookup_r _ _ _ _ _ Hps Hpj') as (u'' & Hu'' & Hpos'').
      apply lookup_take_Some in Hu'' as [Hu'' Hj'k].
      by apply (Hlast j' u''); [lia | |]. }
  exists (States.FusedArray.mk vals' uid um), (States.reraise e).
  unfold States.FusedArray.__setitem__, States.FusedArray._set_vals_uids_multiple.
  cbn [States.FusedArray.values States.FusedArray._uid_map States.FusedArray.uid].
  rewrite Hfull, Hpart.
  split; [done|]. split; [by apply reraise_IdentifierNotFound|].
  split; [done|]. split; [done|]. split; [done|]. split; [done|].
  split; [exact Hwritten|]. split.
  - intros p Hnone. apply assign_lookup_notin.
    intros (j & Hj)%list_elem_of_lookup_1.
    destruct (Forall2_lookup_r _ _ _ _ _ Hps Hj) as (u' & Hu' & Hpos').
    apply lookup_take_Some in Hu' as [Hu' Hjk]. by apply (Hnone j u').
  - intros j u' p x Hj Hju Hpos Hx Hlast Hold [= Heq].
    apply Hold. rewrite <- Heq. by eapply Hwritten.
Qed.

Lemma bulk_set_not_atomic_witness :
  ∃ c' e,
    States.FusedArray.__setitem__ after_removal (Np.KArray [0; 1; 2]) (Np.Array [7; 8; 9]) =
      (c', Some e) ∧
    IdentifierNotFound e ∧
    States.FusedArray.values c' !! 0%nat = Some 7 ∧
    States.FusedArray.values c' !! 1%nat = Some 30 ∧
    c' ≠ after_removal.
Proof.
  destruct (bulk_set_not_atomic after_removal [0; 1; 2] [7; 8; 9] 1 1)
    as (c' & e & Hset & Hnf & _ & _ & _ & _ & Hwritten & Hkept & Hdiff).
  - reflexivity.
  - reflexivity.
  - lia.
  - apply after_removal_missing.
  - intros [|j] u' Hj; [|lia]. intros [= <-].
    exists 0%nat. apply after_removal_position_0.
  - exists c', e. split; [exact Hset|]. split; [exact Hnf|]. split; [|split].
    + apply (Hwritten 0%nat 0 0%nat 7); [lia | reflexivity | apply after_removal_position_0
        | reflexivity | intros j' u'' Hj'; lia].
    + rewrite (Hkept 1%nat); [reflexivity|].
      intros [|j] u' Hj; [|lia]. intros [= <-] (_ & Hm & _). discriminate Hm.
    + apply (Hdiff 0%nat 0 0%nat 7); [lia | reflexivity | apply after_removal_position_0
        | reflexivity | intros j' u'' Hj'; lia | discriminate].
Defined.

(** The first value is stored although the call fails. *)
Example bulk_set_leaves_first_write :
  States.FusedArray.__setitem__ after_removal (Np.KArray [0; 1; 2]) (Np.Array [7; 8; 9]) =
    (States.FusedArray.mk [7; 30; 40] [0; 2; 3] [0; Np.INT_NAN; 1; 2],
     Some (IndexError "UID not present in array")).
Proof. vm_compute. reflexivity. Qed.

(** Set and get by identifiers are a round trip. On an aligned column, a
    set keyed by distinct live identifiers [us] with an array of as many
    values raises nothing, changes neither the identifiers nor the
    identity map, and a get by [us] then returns exactly those values; the
    live identifiers outside [us] read what they read before. A scalar is
    stored at every identifier of [us]. *)
Theorem set_get_roundtrip {V : Type}
    (c : States.FusedArray.t V) (us : list Z) (vs : list V) :
  aligned c → NoDup us → Forall (λ u, u ∈ States.FusedArray.uid c) us →
  length vs = length us →
  (∃ c', States.FusedArray.__setitem__ c (Np.KArray us) (Np.Array vs) = (c', None) ∧
         States.FusedArray.uid c' = States.FusedArray.uid c ∧
         States.FusedArray._uid_map c' = States.FusedArray._uid_map c ∧
         States.FusedArray.__getitem__ c' (Np.KArray us) =
           Ok (States.FusedArray.Fused
                 (States.FusedArray.mk vs us
                    (Np.assign (Np.full (length (States.FusedArray._uid_map c)) Np.INT_NAN)
                               (Z.to_nat <$> us) (seqZ 0 (Z.of_nat (length us)))))) ∧
         (∀ u, u ∈ States.FusedArray.uid c → u ∉ us →
            States.FusedArray.__getitem__ c' (Np.KInt u) =
            States.FusedArray.__getitem__ c (Np.KInt u))) ∧
  (∀ x, ∃ c', States.FusedArray.__setitem__ c (Np.KArray us) (Np.Scalar x) = (c', None) ∧
              (∀ u, u ∈ us →
                 States.FusedArray.__getitem__ c' (Np.KInt u) =
                   Ok (States.FusedArray.Value x)) ∧
              (∀ u, u ∈ States.FusedArray.uid c → u ∉ us →
                 States.FusedArray.__getitem__ c' (Np.KInt u) =
                 States.FusedArray.__getitem__ c (Np.KInt u))).
Proof.
  intros Hal Hnd Hlive Hlen. pose proof Hal as [Hlu Hpos].
  destruct c as [vals uid um]. unfold position in Hpos.
  cbn [States.FusedArray.values States.FusedArray._uid_map States.FusedArray.uid] in *.
  destruct (Forall_choice (λ u (p : nat), uid !! p = Some u) us) as [ps Hps].
  { eapply Forall_impl; [exact Hlive|]. simpl. intros u Hu.
    by apply list_elem_of_lookup_1. }
  assert (Hplaced : Forall2 (λ u p, position_in um (length vals) u p) us ps).
  { eapply Forall2_impl; [exact Hps|]. simpl. intros u p Hp. by apply Hpos. }
  assert (Hndp : NoDup ps).
  { apply NoDup_alt. intros j j' p Hj Hj'.
    destruct (Forall2_lookup_r _ _ _ _ _ Hps Hj) as (u & Hu & Hup).
    destruct (Forall2_lookup_r _ _ _ _ _ Hps Hj') as (u' & Hu' & Hup').
    assert (u = u') as <- by congruence. exact (NoDup_lookup _ _ _ u Hnd Hu Hu'). }
  (* what a store at [ps] leaves at the positions *)
  assert (Hkept : ∀ (xs : list V) (i : nat) u, uid !! i = Some u → u ∉ us →
            Np.assign vals ps xs !! i = vals !! i).
  { intros xs i u Hi Hnotin. apply assign_lookup_notin.
    intros (j & Hj)%list_elem_of_lookup_1.
    destruct (Forall2_lookup_r _ _ _ _ _ Hps Hj) as (u' & Hu' & Hup').
    assert (u = u') as <- by congruence. apply Hnotin. by eapply list_elem_of_lookup_2. }
  assert (Hread : ∀ (vals' : list V) (i : nat) u, length vals' = length vals →
            uid !! i = Some u →
            States.FusedArray.__getitem__ (States.FusedArray.mk vals' uid um) (Np.KInt u) =
              from_option (λ v, Ok (States.FusedArray.Value v))
                          (Err (IndexError "")) (vals' !! i)).
  { intros vals' i u Hl Hi. destruct (Hpos i u Hi) as (H0 & Hm & _ & Hlt).
    destruct (lookup_lt_is_Some_2 vals' i) as [v Hv]; [lia|]. rewrite Hv. simpl.
    apply (aligned_getitem _ i); [|done|done].
    split; [cbn; lia|]. intros i' u' Hi'. unfold position. cbn. rewrite Hl. by apply Hpos. }
  assert (Hunchanged : ∀ (xs : list V) u, u ∈ uid → u ∉ us →
            States.FusedArray.__getitem__ (States.FusedArray.mk (Np.assign vals ps xs) uid um)
              (Np.KInt u) =
            States.FusedArray.__getitem__ (States.FusedArray.mk vals uid um) (Np.KInt u)).
  { intros xs u (i & Hi)%list_elem_of_lookup_1 Hnotin.
    rewrite (Hread _ i u (assign_length _ _ _) Hi), (Hread vals i u eq_refl Hi).
    by rewrite (Hkept xs i u Hi Hnotin). }
  split.
  - exists (States.FusedArray.mk (Np.assign vals ps vs) uid um).
    unfold States.FusedArray.__setitem__ at 1, States.FusedArray._set_vals_uids_multiple.
    cbn [States.FusedArray.values States.FusedArray._uid_map States.FusedArray.uid].
    rewrite (set_loop_run (λ i, Np.unchecked (Np.getitem vs i)) um us vals 0 ps vs Hplaced)
      by (rewrite <- Hlen; apply getitem_seqZ).
    split; [done|]. split; [done|]. split; [done|]. split; [|by apply Hunchanged].
    destruct (get_loop_run um (Np.assign vals ps vs) us [] (Np.full (length um) Np.INT_NAN))
      as (out & Hrun & HF); [apply length_replicate | |].
    { apply Forall_forall. intros u (j & Hu)%list_elem_of_lookup_1.
      destruct (Forall2_lookup_l _ _ _ _ _ Hplaced Hu) as (p & _ & Hp).
      exists p. by rewrite assign_length. }
    cbn [length app] in Hrun. change (Z.of_nat 0) with 0 in Hrun.
    unfold States.FusedArray.__getitem__, States.FusedArray._get_vals_uids.
    cbn [States.FusedArray.values States.FusedArray._uid_map States.FusedArray.uid].
    rewrite Hrun. cbn [bind fst snd]. do 3 f_equal.
    apply list_eq_same_length with (length us);
      [done | by apply Forall2_length in HF |].
    intros j v v' Hj Hv Hv'.
    destruct (Forall2_lookup_r _ _ _ _ _ HF Hv) as (u & Hu & q & H0 & Hq & Hval).
    destruct (Forall2_lookup_l _ _ _ _ _ Hps Hu) as (p & Hp & Hup).
    destruct (Hpos p u Hup) as (_ & Hm & _ & Hlt).
    assert (q = p) as -> by (rewrite Hm in Hq; injection Hq; lia).
    rewrite (assign_lookup vals ps vs j p v' Hndp Hp Hv' Hlt) in Hval. congruence.
  - intros x. exists (States.FusedArray.mk (Np.assign vals ps (replicate (length us) x)) uid um).
    unfold States.FusedArray.__setitem__ at 1, States.FusedArray._set_vals_uids_single.
    cbn [States.FusedArray.values States.FusedArray._uid_map States.FusedArray.uid].
    rewrite (set_loop_run (λ _, Ok x) um us vals 0 ps (replicate (length us) x) Hplaced)
      by apply scalar_seqZ.
    split; [done|]. split; [|by apply Hunchanged].
    intros u (j & Hu)%list_elem_of_lookup_1.
    destruct (Forall2_lookup_l _ _ _ _ _ Hps Hu) as (p & Hp & Hup).
    destruct (Hpos p u Hup) as (_ & _ & _ & Hlt).
    rewrite (Hread _ p u (assign_length _ _ _) Hup).
    rewrite (assign_lookup vals ps _ j p x Hndp Hp); [done | | done].
    apply lookup_replicate_2. by apply lookup_lt_Some in Hu.
Qed.

Lemma set_get_roundtrip_witness :
  ∃ c', States.FusedArray.__setitem__ three_agents (Np.KArray [2; 0]) (Np.Array [7; 8]) =
          (c', None) ∧
        States.FusedArray.__getitem__ c' (Np.KArray [2; 0]) =
          Ok (States.FusedArray.Fused
                (States.FusedArray.mk [7; 8] [2; 0]
                   (Np.assign (Np.full 3 Np.INT_NAN) (Z.to_nat <$> [2; 0]) (seqZ 0 2)))) ∧
        States.FusedArray.__getitem__ c' (Np.KInt 1) =
          States.FusedArray.__getitem__ three_agents (Np.KInt 1).
Proof.
  destruct (set_get_roundtrip three_agents [2; 0] [7; 8]) as [(c' & Hset & _ & _ & Hget & Hrest) _].
  - apply three_agents_aligned.
  - apply NoDup_cons. split; [|apply NoDup_singleton].
    by intros [=]%list_elem_of_singleton.
  - simpl. apply Forall_cons. split; [by apply (list_elem_of_lookup_2 _ 2%nat)|].
    apply Forall_cons. split; [by apply (list_elem_of_lookup_2 _ 0%nat) | apply Forall_nil_2].
  - reflexivity.
  - exists c'. split; [exact Hset|]. split; [exact Hget|].
    apply Hrest; [by apply (list_elem_of_lookup_2 _ 1%nat)|].
    by intros [[=]|[=]%list_elem_of_singleton]%elem_of_cons.
Defined.

(** ** Negative identifiers *)

Lemma getitem_wrap {A : Type} (a : list A) (i : Z) :
  - Z.of_nat (length a) ≤ i < 0 → Np.getitem a i = Np.getitem a (Z.of_nat (length a) + i).
Proof.
  intros Hi. unfold Np.getitem, Np.index.
  rewrite (bool_decide_eq_false_2 (0 ≤ i < _)) by lia.
  rewrite (bool_decide_eq_true_2 (- _ ≤ i < 0)) by lia.
  rewrite (bool_decide_eq_true_2 (0 ≤ _ + i < _)) by lia. cbn [bind].
  by destruct (lookup_lt_is_Some_2 a (Z.to_nat (Z.of_nat (length a) + i))) as [x ->]; [lia|].
Qed.

(** A negative identifier is not refused: numpy counts it from the end of
    the identity map, so that [c[-k]] reads, and [c[-k] = v] writes, the
    entry of the identifier [len(uid_map) - k]. *)
Theorem negative_identifier_wraps {V : Type} (c : States.FusedArray.t V) (u : Z) :
  - Z.of_nat (length (States.FusedArray._uid_map c)) ≤ u < 0 →
  States.FusedArray.__getitem__ c (Np.KInt u) =
    States.FusedArray.__getitem__ c
      (Np.KInt (Z.of_nat (length (States.FusedArray._uid_map c)) + u)) ∧
  ∀ v, States.FusedArray.__setitem__ c (Np.KInt u) v =
       States.FusedArray.__setitem__ c
         (Np.KInt (Z.of_nat (length (States.FusedArray._uid_map c)) + u)) v.
Proof.
  intros Hu. unfold States.FusedArray.__getitem__, States.FusedArray.__setitem__.
  by rewrite (getitem_wrap _ u Hu).
Qed.

Lemma negative_identifier_wraps_witness :
  States.FusedArray.__getitem__ three_agents (Np.KInt (-1)) =
    States.FusedArray.__getitem__ three_agents (Np.KInt 2) ∧
  States.FusedArray.__getitem__ three_agents (Np.KInt (-1)) = Ok (States.FusedArray.Value 30).
Proof.
  split; [|reflexivity].
  apply (negative_identifier_wraps three_agents (-1)). simpl. lia.
Defined.

(** ** Clean buffers *)

(** [DynamicView] keeps its unused slots clean. A new view is clean;
    [grow], a store through the view and [_trim] at valid positions keep
    it clean; and so [grow(k)] always shows [k] fill values after the
    agents there were, whether or not it allocates, for instance after a
    [_trim] freed the slots. *)
Theorem DynamicView_unused_slots_hold_fill {V : Type} :
  (∀ (dtype : V) (fill : option V), dv_clean (States.DynamicView.__init__ dtype fill)) ∧
  (∀ (dv : States.DynamicView.t V) (k : nat),
     dv_clean dv →
     dv_clean (States.DynamicView.grow dv k) ∧
     States.DynamicView._view (States.DynamicView.grow dv k) =
       States.DynamicView._view dv ++ replicate k (States.DynamicView.fill_value dv)) ∧
  (∀ (dv dv' : States.DynamicView.t V) (key : Np.key) (v : Np.value V),
     dv_clean dv → States.DynamicView.__setitem__ dv key v = Ok dv' → dv_clean dv') ∧
  (∀ (dv : States.DynamicView.t V) (inds : list Z),
     dv_clean dv →
     Forall (λ i, 0 ≤ i < Z.of_nat (States.DynamicView.n dv)) inds →
     (length inds ≤ States.DynamicView.n dv)%nat →
     ∃ dv', States.DynamicView._trim dv inds = Ok dv' ∧ dv_clean dv' ∧
            Forall2 (λ i v, States.DynamicView._view dv !! Z.to_nat i = Some v)
                    inds (States.DynamicView._view dv')).
Proof.
  split; [|split; [|split]].
  - intros dtype fill. split; [unfold dv_wf; simpl; lia|]. by intros i v _ Hi.
  - intros dv k [Hwf Htail]. unfold dv_wf in Hwf.
    assert (Hdata : ∃ m, States.DynamicView._data (States.DynamicView.grow dv k) =
              States.DynamicView._data dv ++ replicate m (States.DynamicView.fill_value dv) ∧
              (States.DynamicView.n dv + k ≤
                 length (States.DynamicView._data dv) + m)%nat).
    { unfold States.DynamicView.grow, States.DynamicView._s, Np.full.
      cbn [States.DynamicView._data]. case_bool_decide.
      - eexists. split; [done|]. lia.
      - exists 0%nat. rewrite app_nil_r. split; [done|]. lia. }
    destruct Hdata as (m & Hdata & Hm).
    assert (Hclean : ∀ (i : nat) v, (States.DynamicView.n dv ≤ i)%nat →
              States.DynamicView._data (States.DynamicView.grow dv k) !! i = Some v →
              v = States.DynamicView.fill_value dv).
    { intros i v Hi. rewrite Hdata. intros [Hv|[_ Hv]]%lookup_app_Some.
      - by apply (Htail i).
      - by apply lookup_replicate in Hv as [-> _]. }
    split; [split|].
    + unfold dv_wf. rewrite Hdata, length_app, length_replicate.
      cbn [States.DynamicView.grow States.DynamicView.n]. lia.
    + intros i v Hi. apply Hclean. cbn [States.DynamicView.grow States.DynamicView.n] in Hi. lia.
    + unfold States.DynamicView._view.
      change (States.DynamicView.n (States.DynamicView.grow dv k))
        with (States.DynamicView.n dv + k)%nat.
      apply list_eq_same_length with (States.DynamicView.n dv + k)%nat.
      * rewrite length_app, length_take_le, length_replicate by done. lia.
      * rewrite length_take_le; [done|]. rewrite Hdata, length_app, length_replicate. lia.
      * intros i x y Hi Hx Hy. apply lookup_take_Some in Hx as [Hx _].
        destruct (decide (i < States.DynamicView.n dv)%nat) as [Hlt|Hge].
        -- rewrite lookup_app_l in Hy by (rewrite length_take_le; lia).
           rewrite lookup_take_lt in Hy by done.
           rewrite Hdata, lookup_app_l in Hx by lia. congruence.
        -- rewrite lookup_app_r in Hy by (rewrite length_take_le; lia).
           apply lookup_replicate in Hy as [-> _]. apply (Hclean i); [lia | done].
  - intros dv dv' key v [Hwf Htail] Hset.
    destruct (DynamicView_setitem_inv dv key v dv' Hset Hwf) as (Hwf' & Hn & Hfill & Hview).
    split; [done|]. intros i x Hi. rewrite Hn in Hi. rewrite Hfill.
    unfold States.DynamicView.__setitem__ in Hset.
    apply bind_Ok in Hset as (view & Hv & [= <-]). cbn [States.DynamicView._data].
    apply set_length in Hv. rewrite DynamicView_view_length in Hv by done.
    rewrite lookup_app_r by lia. rewrite lookup_drop. intros Hx.
    apply (Htail (States.DynamicView.n dv + (i - length view))%nat); [lia | done].
  - intros dv inds [Hwf Htail] Hin Hlen.
    destruct (getitems_total (States.DynamicView._view dv) inds) as (kept & _ & HF).
    { by rewrite DynamicView_view_length. }
    destruct (DynamicView_trim_spec dv inds kept Hwf)
      as (dv' & Hrun & Hview & Hwf' & Hn & Hfill & Hdata); [|done|].
    { apply Forall2_same_length_lookup. split; [by eapply Forall2_length|].
      intros j i v Hi Hv. rewrite Forall_forall in Hin.
      split; [by apply Hin, (list_elem_of_lookup_2 _ j)|].
      destruct (Forall2_lookup_l _ _ _ _ _ HF Hi) as (v' & Hv' & Hval). congruence. }
    exists dv'. split; [done|]. split; [|by rewrite Hview].
    split; [done|]. intros i v Hi. rewrite Hn in Hi. rewrite Hfill, Hdata.
    rewrite lookup_app_r by done.
    intros [Hv|[_ Hv]]%lookup_app_Some.
    + by apply lookup_replicate in Hv as [-> _].
    + rewrite lookup_drop in Hv. eapply Htail; [|exact Hv]. lia.
Qed.

(** Slots freed by [_trim] come back as fill values. *)
Example DynamicView_trim_then_grow :
  let dv := States.DynamicView.mk 0 3 [10; 20; 30] in
  ∃ dv', States.DynamicView._trim dv [0; 2] = Ok dv' ∧
         States.DynamicView._view dv' = [10; 30] ∧
         States.DynamicView._view (States.DynamicView.grow dv' 1) = [10; 30; 0].
Proof. eexists. split; [vm_compute; reflexivity|]. by vm_compute. Qed.

(** ** Initialization of a [State] *)

(** [State.initialize] (starsim/states.py) acts once. On a new state it
    sizes the buffer to the population, stores what the fill policy gives
    for the identifiers, as numpy broadcasts it to one value per agent (a
    scalar or a one-element array is repeated, any other array must have
    one value per agent), and marks the state initialized; with a scalar
    fill value it cannot fail; and once a state is initialized,
    initializing it again, against any population, leaves it as it is. *)
Theorem State_initialize_once {V : Type}
    (name : string) (dtype : V) (fill : States.State.fill V) (uid : list Z) :
  let s := States.State.__init__ name dtype fill in
  (∀ s', States.State.initialize s uid = Ok s' →
     States.State._initialized s' = true ∧
     state_wf s' ∧
     Np.broadcast (length uid) (States.State._new_vals s uid) = Ok (States.State.values s') ∧
     ∀ uid', States.State.initialize s' uid' = Ok s') ∧
  (∀ v, fill = States.State.FillScalar v →
     ∃ s', States.State.initialize s uid = Ok s' ∧
           States.State.values s' = replicate (length uid) v).
Proof.
  intros s.
  assert (Hrun : ∀ s', States.State.initialize s uid = Ok s' →
            ∃ vs, Np.broadcast (length uid) (States.State._new_vals s uid) = Ok vs ∧
                  s' = States.State.mk name fill
                         (States.DynamicView.mk dtype (length uid)
                            (vs ++ drop (length uid)
                                     (States.DynamicView._data
                                        (States.DynamicView.grow
                                           (States.DynamicView.__init__ dtype None)
                                           (length uid)))))
                         true).
  { intros s'. unfold States.State.initialize, s.
    cbn [States.State._initialized States.State.__init__ States.State._data
         States.State.name States.State.fill_value].
    unfold States.DynamicView.__setitem__.
    intros (dv & (view & Hset & [= <-])%bind_Ok & [= <-])%bind_Ok.
    cbn [Np.set] in Hset. unfold Np.setslice in Hset.
    assert (Hlen : length (States.DynamicView._view
                     (States.DynamicView.grow (States.DynamicView.__init__ dtype None)
                        (length uid))) = length uid).
    { apply DynamicView_view_length, DynamicView_grow_wf. unfold dv_wf. simpl. lia. }
    rewrite slice_positions_prefix in Hset by lia. cbn [bind] in Hset.
    rewrite length_seq in Hset. apply bind_Ok in Hset as (vs & Hvs & [= <-]).
    exists vs. split; [done|]. apply broadcast_length in Hvs as Hl.
    replace (seq 0 (length uid)) with (seq 0 (length vs)) by (by rewrite Hl).
    rewrite (assign_seq _ 0) by (rewrite Hlen; simpl; lia).
    rewrite take_0, drop_ge by (rewrite Hlen; simpl; lia). by rewrite app_nil_r. }
  split.
  - intros s' Hs'. destruct (Hrun s' Hs') as (vs & Hvs & ->).
    apply broadcast_length in Hvs as Hl.
    split; [done|]. split; [|split].
    + unfold state_wf, dv_wf. simpl. rewrite length_app. lia.
    + unfold States.State.values, States.DynamicView._view. simpl.
      by rewrite take_app_length' by done.
    + done.
  - intros v ->. destruct (States.State.initialize s uid) as [s'|e] eqn:Hs'.
    + exists s'. split; [done|]. destruct (Hrun s' eq_refl) as (vs & Hvs & ->).
      injection Hvs as <-. unfold States.State.values, States.DynamicView._view. simpl.
      rewrite take_app_length'; [done | by rewrite length_replicate].
    + exfalso. revert Hs'. unfold States.State.initialize, s.
      cbn [States.State._initialized States.State.__init__ States.State._data
           States.State.name States.State.fill_value].
      unfold States.DynamicView.__setitem__, States.State._new_vals.
      cbn [States.State.fill_value Np.set]. unfold Np.setslice.
      rewrite slice_positions_prefix; [done|].
      rewrite DynamicView_view_length; [done|].
      apply DynamicView_grow_wf. unfold dv_wf. simpl. lia.
Qed.

Example State_initialize_array_fill :
  States.State.initialize
    (States.State.__init__ "age" 0 (States.State.FillCallable (λ k, seqZ 18 (Z.of_nat k))))
    [0; 1; 2] =
  Ok (States.State.mk "age" (States.State.FillCallable (λ k, seqZ 18 (Z.of_nat k)))
        (States.DynamicView.mk 0 3 [18; 19; 20]) true).
Proof. vm_compute. reflexivity. Qed.

(** ** The first identifiers *)

(** [__init__] and [initialize]. The constructor returns no population,
    whatever states it is given. On a population object put together by
    hand whose [_uid_map] and [uids] have scalar fill values,
    [initialize(n)] raises as soon as there is a state to loop over. With
    no state to loop over it issues the identifiers [0, ..., n-1] in
    position order and returns a population of [n] agents in which the
    identity map sends each of these identifiers to itself and knows no
    other identifier (a lookup of [n] or more raises); the dynamic
    states are left as they were, so the population is consistent when
    each of them is sound and holds [n] values. *)
Theorem initialize_issues_identifiers {C V I : Type} `{!RemovingPeople.DynamicState C V I}
    `{!DynamicStateLaws C V I} (self : RemovingPeople.DynamicPeople.t C) (n : nat) (a b : Z) :
  RemovingPeople.State.fill_value (RemovingPeople.DynamicPeople._uid_map self) =
    RemovingPeople.State.FillScalar a →
  RemovingPeople.State.fill_value (RemovingPeople.DynamicPeople.uids self) =
    RemovingPeople.State.FillScalar b →
  (RemovingPeople.DynamicPeople.states self = [] →
   ∃ p, RemovingPeople.DynamicPeople.initialize self n = Ok p ∧
        RemovingPeople.DynamicPeople.live p = seqZ 0 (Z.of_nat n) ∧
        RemovingPeople.DynamicPeople.__len__ p = n ∧
        RemovingPeople.DynamicPeople._dynamic_states p =
          RemovingPeople.DynamicPeople._dynamic_states self ∧
        (∀ u, 0 ≤ u < Z.of_nat n →
           RemovingPeople.DynamicPeople.lookup p u = Ok (Np.Scalar u)) ∧
        (∀ u, Z.of_nat n ≤ u →
           ∃ e, RemovingPeople.DynamicPeople.lookup p u = Err e ∧ IdentifierNotFound e) ∧
        flagged p ∧
        (Forall (λ c, col_wf c ∧ length (RemovingPeople.col_values c) = n)
                (RemovingPeople.DynamicPeople._dynamic_states self) →
         consistent p)) ∧
  (RemovingPeople.DynamicPeople.states self ≠ [] →
   ∃ e, RemovingPeople.DynamicPeople.initialize self n = Err e) ∧
  (∀ (states : list C) (p : RemovingPeople.DynamicPeople.t C),
     RemovingPeople.DynamicPeople.__init__ states ≠ Ok p).
Proof.
  intros Ha Hb. rewrite (initialize_run self n a b Ha Hb). split; [|split].
  - intros ->. eexists. split; [reflexivity|].
    unfold RemovingPeople.DynamicPeople.live, RemovingPeople.DynamicPeople.__len__,
      RemovingPeople.DynamicPeople.lookup, RemovingPeople.State.__getitem__, flagged, issued,
      consistent.
    cbn [RemovingPeople.DynamicPeople.uids RemovingPeople.DynamicPeople._uid_map
         RemovingPeople.DynamicPeople._dynamic_states Np.get].
    unfold RemovingPeople.DynamicPeople.live.
    cbn [RemovingPeople.DynamicPeople.uids].
    rewrite !uid_state_values, arange_0.
    split; [done|]. split; [done|]. split; [done|]. split; [|split; [|split]].
    + intros u Hu. rewrite (getitem_Ok _ u u); [done | lia |].
      apply lookup_seqZ. lia.
    + intros u Hu. rewrite getitem_Err by (rewrite length_seqZ; lia).
      by eexists.
    + intros u Hu Hdead. exfalso. apply Hdead. apply elem_of_seqZ.
      unfold RemovingPeople.State.__len__, uid_state in Hu. simpl in Hu. lia.
    + intros Hcols. split; [apply uid_state_wf|]. split; [apply uid_state_wf|].
      split; [done|]. intros i u [-> Hi]%lookup_seqZ.
      split; [lia|]. rewrite Z.add_0_l, Nat2Z.id. apply lookup_seqZ. lia.
  - intros Hne. destruct (RemovingPeople.DynamicPeople.states self) as [|c cs]; [done|].
    destruct (RemovingPeople.col_initialize c); cbn [bind]; by eexists.
  - by intros states p.
Qed.

Lemma initialize_issues_identifiers_witness :
  (∃ p, RemovingPeople.DynamicPeople.initialize
          (blank_people (C := RemovingPeople.State.t Z) [] []) 3 = Ok p ∧
        RemovingPeople.DynamicPeople.live p = seqZ 0 3 ∧
        RemovingPeople.DynamicPeople.lookup p 2 = Ok (Np.Scalar 2) ∧
        ∃ e, RemovingPeople.DynamicPeople.lookup p 3 = Err e ∧ IdentifierNotFound e) ∧
  (∃ e, RemovingPeople.DynamicPeople.initialize (blank_people [column_y] []) 3 = Err e).
Proof.
  split.
  - destruct (initialize_issues_identifiers
                (blank_people (C := RemovingPeople.State.t Z) [] []) 3 0 0 eq_refl eq_refl)
      as (Hnone & _ & _).
    destruct (Hnone eq_refl) as (p & Hinit & Hlive & _ & _ & Hin & Hout & _).
    exists p. split; [exact Hinit|]. split; [exact Hlive|].
    split; [apply Hin; lia | apply Hout; lia].
  - destruct (initialize_issues_identifiers (blank_people [column_y] []) 3 0 0 eq_refl eq_refl)
      as (_ & Hsome & _).
    apply Hsome. discriminate.
Defined.

(** The exceptions are those of the source: the constructor fails on
    [self.hiv], and a state of removing_people.py handed the population
    fails on the shape of its array. *)
Example constructor_and_initialize_raise :
  RemovingPeople.DynamicPeople.__init__ [column_y] =
    Err (AttributeError "'DynamicPeople' object has no attribute 'hiv'") ∧
  RemovingPeople.DynamicPeople.initialize (blank_people [column_y] [column_y]) 3 =
    Err (TypeError "'DynamicPeople' object cannot be interpreted as an integer") ∧
  RemovingPeople.DynamicPeople.initialize (blank_people [column_x] [column_x]) 3 =
    Err (AttributeError "'DynamicPeople' object has no attribute 'people'") ∧
  RemovingPeople.DynamicPeople.initialize (blank_people [x3] [x3]) 3 =
    Err (NameError "name 'sim' is not defined").
Proof. repeat split; vm_compute; reflexivity. Qed.

(** ** Identifiers are issued once *)
Section issued_once.
Import Np RemovingPeople.
Context {C V I : Type} `{!DynamicState C V I} `{!DynamicStateLaws C V I}.
Implicit Types (p q : DynamicPeople.t C).

Lemma live_issued p u : consistent p → u ∈ DynamicPeople.live p → issued p u.
Proof.
  intros Hc Hu. destruct (live_lookup p u Hc Hu) as (j & _ & H0 & _ & _ & Hlt).
  unfold issued, State.__len__. lia.
Qed.

Lemma remove_keeps_map_size p S p' :
  consistent p → DynamicPeople.remove p S = Ok p' →
  State.__len__ (DynamicPeople._uid_map p') = State.__len__ (DynamicPeople._uid_map p).
Proof.
  intros Hc Hrun. destruct (remove_run p S Hc) as (keep & sts' & _ & _ & _ & Heq).
  rewrite Heq in Hrun. by injection Hrun as <-.
Qed.

Lemma grow_extends_map p n p' :
  consistent p → DynamicPeople.grow p n = Ok p' →
  State.__len__ (DynamicPeople._uid_map p') =
    (State.__len__ (DynamicPeople._uid_map p) + n)%nat.
Proof.
  intros Hc Hrun. pose proof Hc as (Hum & _).
  destruct (grow_run p n p' Hc Hrun) as (Hvals & _ & Hwf' & _).
  unfold State.__len__. rewrite <- !State_values_length by done.
  rewrite Hvals, length_app, arange_length. done.
Qed.

(** [grow] keeps the flags of the identity map, and [remove] sets them. *)
Lemma grow_flagged p n p' :
  consistent p → flagged p → DynamicPeople.grow p n = Ok p' → flagged p'.
Proof.
  intros Hc Hf Hg u Hu Hdead. pose proof Hc as (Hum & _).
  destruct (grow_run p n p' Hc Hg) as (Hvals & Hlive & _).
  pose proof (grow_extends_map p n p' Hc Hg) as Hsize.
  rewrite Hlive in Hdead. apply not_elem_of_app in Hdead as [Hdead Hnew].
  unfold issued in *. rewrite Hsize in Hu.
  destruct (decide (u < Z.of_nat (State.__len__ (DynamicPeople._uid_map p)))) as [Hold|Hge].
  - rewrite Hvals. apply lookup_app_l_Some. apply Hf; [unfold issued; lia | done].
  - exfalso. apply Hnew. unfold DynamicPeople.new_uids. rewrite arange_seqZ.
    apply elem_of_seqZ. lia.
Qed.

Lemma remove_flagged p S p' :
  consistent p → DynamicPeople.remove p S = Ok p' → flagged p'.
Proof.
  intros Hc Hr u Hu Hdead.
  destruct (remove_run p S Hc) as (keep & sts' & _ & _ & _ & Heq).
  destruct (remove_spec p S p' Hc Hr) as (_ & Hlive & _).
  pose proof (remove_keeps_map_size p S p' Hc Hr) as Hsize.
  rewrite Heq in Hr. injection Hr as <-.
  unfold issued in Hu. rewrite Hsize in Hu. unfold State.__len__ in Hu.
  cbn [DynamicPeople._uid_map]. rewrite Hlive in Hdead.
  destruct (State_store_values (DynamicPeople._uid_map p)
              (assign (replicate (State.n (DynamicPeople._uid_map p)) INT_NAN)
                 (Z.to_nat <$> filter (λ u, u ∉ S) (DynamicPeople.live p))
                 (arange 0 (Z.of_nat (length (filter (λ u, u ∉ S) (DynamicPeople.live p)))))))
    as [-> _]; [by rewrite assign_length, length_replicate|].
  apply (flag_map_lookup_notin (State.n (DynamicPeople._uid_map p))); [|lia|done].
  apply Forall_forall. intros w Hw%list_elem_of_filter.
  destruct Hw as [_ Hw]. by destruct (live_lookup p w Hc Hw) as (_ & _ & ? & _).
Qed.

Lemma evolves_flagged p q : consistent p → flagged p → evolves p q → flagged q.
Proof.
  intros Hc Hf Hev.
  induction Hev as [|p q n q' Hev IH Hg|p q S q' Hev IH Hr|p q i c k v Hev IH Hi].
  - done.
  - eapply grow_flagged; [by eapply evolves_consistent | by apply IH | done].
  - eapply remove_flagged; [by eapply evolves_consistent | done].
  - by apply IH.
Qed.

(** Along a history the identity map only grows, and whoever is alive
    later was alive before or did not have an identifier yet. *)
Lemma evolves_fresh p q :
  consistent p → evolves p q →
  (State.__len__ (DynamicPeople._uid_map p) ≤ State.__len__ (DynamicPeople._uid_map q))%nat ∧
  ∀ u, u ∈ DynamicPeople.live q → u ∈ DynamicPeople.live p ∨ ¬ issued p u.
Proof.
  intros Hp Hev.
  induction Hev as [|p q n q' Hev IH Hg|p q S q' Hev IH Hr|p q i c k v Hev IH Hi].
  - split; [done|]. by left.
  - destruct (IH Hp) as [Hsize Hlive].
    pose proof (evolves_consistent p q Hp Hev) as Hc.
    rewrite (grow_extends_map q n q' Hc Hg).
    destruct (grow_run q n q' Hc Hg) as (_ & -> & _).
    split; [lia|]. intros u [Hu|Hu]%elem_of_app; [by apply Hlive|].
    right. unfold issued, DynamicPeople.new_uids in *. rewrite arange_seqZ in Hu.
    apply elem_of_seqZ in Hu. lia.
  - destruct (IH Hp) as [Hsize Hlive].
    pose proof (evolves_consistent p q Hp Hev) as Hc.
    rewrite (remove_keeps_map_size q S q' Hc Hr).
    destruct (remove_spec q S q' Hc Hr) as (_ & -> & _).
    split; [done|]. intros u [_ Hu]%list_elem_of_filter. by apply Hlive.
  - by apply IH.
Qed.
End issued_once.

(** Identifiers are never reused. Take a consistent population whose
    identity map flags the identifiers that are not alive, and an
    identifier that was issued and is not alive in it (it was removed).
    Whatever the program does next (growth, removals, stores), the
    identifier stays issued and dead: it is not among the live
    identifiers, the identity map holds the flag [INT_NAN] for it, and a
    get by it in any dynamic state raises the missing-identifier error.
    Every identifier alive later was alive already or had not been
    issued. *)
Theorem identifiers_never_reused {C V I : Type} `{!RemovingPeople.DynamicState C V I}
    `{!DynamicStateLaws C V I} (p q : RemovingPeople.DynamicPeople.t C) (u : Z) :
  consistent p → flagged p → evolves p q →
  issued p u → u ∉ RemovingPeople.DynamicPeople.live p →
  issued q u ∧
  (u ∉ RemovingPeople.DynamicPeople.live q) ∧
  RemovingPeople.DynamicPeople.lookup q u = Ok (Np.Scalar Np.INT_NAN) ∧
  (Z.of_nat (RemovingPeople.DynamicPeople.__len__ q) ≤ Np.INT_NAN →
   Forall (λ c, ∃ e, RemovingPeople.DynamicPeople.getitem q c (Np.KInt u) = Err e ∧
                     IdentifierNotFound e)
          (RemovingPeople.DynamicPeople._dynamic_states q)) ∧
  (∀ w, w ∈ RemovingPeople.DynamicPeople.live q →
     w ∈ RemovingPeople.DynamicPeople.live p ∨ ¬ issued p w).
Proof.
  intros Hp Hf Hev Hu Hdead.
  destruct (evolves_fresh p q Hp Hev) as [Hsize Hfresh].
  pose proof (evolves_consistent p q Hp Hev) as Hc.
  assert (Huq : issued q u) by (unfold issued in *; lia).
  assert (Hdq : u ∉ RemovingPeople.DynamicPeople.live q).
  { intros Hin. by destruct (Hfresh u Hin). }
  pose proof (evolves_flagged p q Hp Hf Hev u Huq Hdq) as Hflag.
  split; [done|]. split; [done|]. split; [|split; [|done]].
  - unfold RemovingPeople.DynamicPeople.lookup, RemovingPeople.State.__getitem__.
    cbn [Np.get]. by rewrite (getitem_Ok _ u _ (proj1 Hu) Hflag).
  - intros Hbound. destruct Hc as (_ & _ & Hcols & _).
    eapply Forall_impl; [exact Hcols|]. simpl. intros c [_ Hlen].
    apply col_getitem_flagged; [apply Hu | done | by rewrite Hlen].
Qed.

Lemma proto_reduced_flagged : flagged proto_reduced.
Proof.
  destruct (removal_run_of_proto_grown) as [Hc Hr].
  exact (remove_flagged proto_grown [1; 3] proto_reduced Hc Hr).
Qed.

Lemma identifiers_never_reused_witness :
  issued proto_regrown 1 ∧
  (1 ∉ RemovingPeople.DynamicPeople.live proto_regrown) ∧
  RemovingPeople.DynamicPeople.lookup proto_regrown 1 = Ok (Np.Scalar Np.INT_NAN) ∧
  RemovingPeople.DynamicPeople.live proto_regrown = [0; 2; 4; 5].
Proof.
  assert (Hg : RemovingPeople.DynamicPeople.grow proto_reduced 1 = Ok proto_regrown)
    by (vm_compute; reflexivity).
  assert (Hev : evolves proto_reduced proto_regrown)
    by exact (evolves_grow _ _ 1%nat _ (evolves_refl _) Hg).
  assert (Hu : issued proto_reduced 1) by (unfold issued; simpl; lia).
  assert (Hdead : 1 ∉ RemovingPeople.DynamicPeople.live proto_reduced).
  { change (RemovingPeople.DynamicPeople.live proto_reduced) with [0; 2; 4].
    by intros [[=]|[[=]|[=]%list_elem_of_singleton]%elem_of_cons]%elem_of_cons. }
  destruct (identifiers_never_reused proto_reduced proto_regrown 1
              proto_reduced_consistent proto_reduced_flagged Hev Hu Hdead)
    as (H1 & H2 & H3 & _).
  split; [exact H1|]. split; [exact H2|]. split; [exact H3 | reflexivity].
Defined.

(** ** Masks as subscripts *)
Section mask_facts.
Import Np.
Context {A : Type}.
Implicit Types (a pre : list A) (mask : list bool).

Lemma nonzero_from_range (k : Z) mask :
  Forall (λ i, k ≤ i < k + Z.of_nat (length mask)) (nonzero_from k mask).
Proof.
  revert k. induction mask as [|b mask IH]; intros k; simpl; [constructor|].
  apply Forall_app. split.
  - destruct b; repeat constructor; lia.
  - eapply Forall_impl; [apply IH|]. simpl. intros. lia.
Qed.

Lemma nonzero_from_length (k : Z) a mask :
  length mask = length a → length (nonzero_from k mask) = length (select a mask).
Proof.
  revert k mask. induction a as [|x a IH]; intros k [|b mask] Hlen; try done.
  simpl in *. rewrite !length_app, (IH (k + 1) mask) by lia. by destruct b.
Qed.

Lemma select_length a mask : (length (select a mask) ≤ length a)%nat.
Proof.
  revert mask. induction a as [|x a IH]; intros [|b mask]; simpl; try lia.
  rewrite length_app. specialize (IH mask). destruct b; simpl; lia.
Qed.

Lemma masked_length (f : A → A) a mask :
  length mask = length a → length (masked f a mask) = length a.
Proof. intros Hlen. unfold masked. rewrite length_zip_with. lia. Qed.

(** [a[mask]] lists the selected entries. *)
Lemma getitems_mask pre a mask :
  length mask = length a →
  getitems (pre ++ a) (nonzero_from (Z.of_nat (length pre)) mask) = Ok (select a mask).
Proof.
  revert pre mask. induction a as [|x a IH]; intros pre [|b mask] Hlen; try done.
  simpl in Hlen. cbn [nonzero_from select]. unfold getitems in *. rewrite mapR_app.
  assert (Hrest : mapR (getitem (pre ++ x :: a))
                    (nonzero_from (Z.of_nat (length pre) + 1) mask) = Ok (select a mask)).
  { replace (Z.of_nat (length pre) + 1) with (Z.of_nat (length (pre ++ [x])))
      by (rewrite length_app; simpl; lia).
    rewrite (cons_middle x pre a), (assoc_L (++)). apply IH. lia. }
  rewrite Hrest. destruct b; cbn [mapR bind]; [|done].
  rewrite (getitem_Ok _ _ x); [done | lia |].
  rewrite Nat2Z.id. by apply list_lookup_middle.
Qed.

(** A store at the selected positions of what [g] makes of the selected
    entries. *)
Lemma assign_mask (g : A → A) pre a mask :
  length mask = length a →
  assign (pre ++ a) (Z.to_nat <$> nonzero_from (Z.of_nat (length pre)) mask)
         (g <$> select a mask) = pre ++ masked g a mask.
Proof.
  revert pre mask. induction a as [|x a IH]; intros pre [|b mask] Hlen; try done.
  simpl in Hlen. cbn [nonzero_from select]. unfold masked. cbn [zip_with].
  assert (Hrest : ∀ y, assign (pre ++ y :: a)
                         (Z.to_nat <$> nonzero_from (Z.of_nat (length pre) + 1) mask)
                         (g <$> select a mask) = pre ++ y :: masked g a mask).
  { intros y. replace (Z.of_nat (length pre) + 1) with (Z.of_nat (length (pre ++ [y])))
      by (rewrite length_app; simpl; lia).
    rewrite (cons_middle y pre a), (assoc_L (++)), IH by lia.
    by rewrite <- (assoc_L (++)). }
  destruct b; cbn [app fmap list_fmap]; [|apply Hrest].
  rewrite assign_cons, Nat2Z.id.
  rewrite insert_app_r_alt, Nat.sub_diag by done. apply Hrest.
Qed.

Lemma indices_mask (a : list A) mask :
  length mask = length a →
  mapR (index (length a)) (nonzero mask) = Ok (Z.to_nat <$> nonzero mask).
Proof.
  intros Hlen. apply indices_Ok. rewrite <- Hlen.
  eapply Forall_impl; [apply (nonzero_from_range 0)|]. simpl. intros. lia.
Qed.

(** [a[mask.nonzero()[0]] = g(a[mask])] *)
Lemma setitems_update (g : A → A) a mask :
  length mask = length a →
  setitems a (nonzero mask) (Array (g <$> select a mask)) = Ok (masked g a mask).
Proof.
  intros Hlen. unfold setitems.
  unfold broadcast. rewrite bool_decide_eq_true_2
    by (rewrite length_fmap; symmetry; by apply nonzero_from_length).
  cbn [bind]. rewrite indices_mask by done. cbn [bind]. f_equal.
  apply (assign_mask g [] a mask Hlen).
Qed.

(** [a[mask.nonzero()[0]] = x] *)
Lemma setitems_scalar (x : A) a mask :
  length mask = length a →
  setitems a (nonzero mask) (Scalar x) = Ok (masked (λ _, x) a mask).
Proof.
  intros Hlen. unfold setitems.
  cbn [broadcast bind]. rewrite indices_mask by done. cbn [bind]. f_equal.
  unfold nonzero. rewrite (nonzero_from_length 0 a mask Hlen).
  pose proof (assign_mask (λ _, x) [] a mask Hlen) as Heq. cbn [app length] in Heq.
  rewrite <- Heq. f_equal.
  apply list_eq. intros j. rewrite list_lookup_fmap.
  destruct (select a mask !! j) as [y|] eqn:Hy; simpl.
  - apply lookup_replicate_2. by apply lookup_lt_Some in Hy.
  - apply lookup_replicate_None. by apply lookup_ge_None in Hy.
Qed.

(** [a[mask] = g(a[mask])], as [a[mask] += dt] does it, and [a[mask] = x]. *)
Lemma setmask_update (g : A → A) a mask :
  length mask = length a →
  setmask a mask (Array (g <$> select a mask)) = Ok (masked g a mask).
Proof.
  intros Hlen. unfold setmask. rewrite bool_decide_eq_true_2 by done.
  by apply setitems_update.
Qed.

Lemma setmask_scalar (x : A) a mask :
  length mask = length a →
  setmask a mask (Scalar x) = Ok (masked (λ _, x) a mask).
Proof.
  intros Hlen. unfold setmask. rewrite bool_decide_eq_true_2 by done.
  by apply setitems_scalar.
Qed.

Lemma getmask_select a mask :
  length mask = length a → getmask a mask = Ok (select a mask).
Proof.
  intros Hlen. unfold getmask. rewrite bool_decide_eq_true_2 by done.
  apply (getitems_mask [] a mask Hlen).
Qed.

Lemma masked_lookup (f : A → A) a mask (i : nat) (x : A) (b : bool) :
  a !! i = Some x → mask !! i = Some b →
  masked f a mask !! i = Some (if b then f x else x).
Proof.
  intros Hx Hb. unfold masked. rewrite lookup_zip_with, Hx. simpl. by rewrite Hb.
Qed.
End mask_facts.

(** A set by a boolean mask writes the [True] positions and nothing else.
    With a mask of one entry per value, [c[mask] = x] stores [x] at the
    [True] positions, [c[mask] = g(c[mask])] (an update in place of the
    selected values) applies [g] there, and both leave every other value,
    the identifiers and the identity map as they were; [c[mask]] returns
    the selected values with the selected identifiers. *)
Theorem mask_set_writes_selected {V : Type} (c : States.FusedArray.t V) (mask : list bool) :
  length mask = length (States.FusedArray.values c) →
  (∀ x, States.FusedArray.__setitem__ c (Np.KMask mask) (Np.Scalar x) =
          (States.FusedArray.mk (masked (λ _, x) (States.FusedArray.values c) mask)
             (States.FusedArray.uid c) (States.FusedArray._uid_map c), None)) ∧
  (∀ g, States.FusedArray.__setitem__ c (Np.KMask mask)
          (Np.Array (g <$> select (States.FusedArray.values c) mask)) =
          (States.FusedArray.mk (masked g (States.FusedArray.values c) mask)
             (States.FusedArray.uid c) (States.FusedArray._uid_map c), None)) ∧
  (length (States.FusedArray.uid c) = length (States.FusedArray.values c) →
   Forall (λ u, 0 ≤ u < Z.of_nat (length (States.FusedArray._uid_map c)))
          (States.FusedArray.uid c) →
   ∃ m, States.FusedArray.__getitem__ c (Np.KMask mask) =
          Ok (States.FusedArray.Fused
                (States.FusedArray.mk (select (States.FusedArray.values c) mask)
                   (select (States.FusedArray.uid c) mask) m))).
Proof.
  intros Hlen. destruct c as [vals uid um].
  cbn [States.FusedArray.values States.FusedArray._uid_map States.FusedArray.uid] in *.
  split; [|split].
  - intros x. unfold States.FusedArray.__setitem__.
    cbn [States.FusedArray.values States.FusedArray._uid_map States.FusedArray.uid].
    by rewrite setitems_scalar.
  - intros g. unfold States.FusedArray.__setitem__.
    cbn [States.FusedArray.values States.FusedArray._uid_map States.FusedArray.uid].
    by rewrite setitems_update.
  - intros Hlu Hin. unfold States.FusedArray.__getitem__.
    cbn [States.FusedArray.values States.FusedArray._uid_map States.FusedArray.uid].
    assert (Hu : Np.getitems uid (Np.nonzero mask) = Ok (select uid mask))
      by (apply (getitems_mask [] uid mask); lia).
    assert (Hv : Np.getitems vals (Np.nonzero mask) = Ok (select vals mask))
      by (apply (getitems_mask [] vals mask); lia).
    rewrite Hu, Hv. cbn [bind].
    unfold Np.setitems, Np.broadcast.
    rewrite bool_decide_eq_true_2 by (unfold Np.arange; rewrite length_seqZ; lia).
    cbn [bind]. rewrite indices_Ok; [cbn [bind]; by eexists|].
    unfold Np.full. rewrite length_replicate.
    assert (Hsub : ∀ (l : list Z) (mk : list bool) (P : Z → Prop),
              Forall P l → Forall P (select l mk)).
    { intros l. induction l as [|y l IH]; intros [|b mk] P HP; simpl; try constructor.
      apply Forall_cons in HP as [Hy HP]. apply Forall_app. split; [|by apply IH].
      destruct b; by repeat constructor. }
    by apply Hsub.
Qed.

Lemma mask_set_writes_selected_witness :
  States.FusedArray.__setitem__ three_agents (Np.KMask [true; false; true]) (Np.Scalar 5) =
    (States.FusedArray.mk [5; 20; 5] [0; 1; 2] [0; 1; 2], None).
Proof.
  destruct (mask_set_writes_selected three_agents [true; false; true]) as (Hset & _);
    [reflexivity|].
  exact (Hset 5).
Defined.

(** ** Demographics *)

(** [People.update_demographics] ages the living and buries the due.
    With one entry per agent in [age], [alive] and [ti_dead] it raises
    nothing; the age of an agent alive before the step grows by [dt] and
    the age of a dead agent is left alone; an agent is alive afterwards
    exactly when it was alive and its time of death is not due; nobody
    comes back to life; and [ti_dead] is not touched. *)
Theorem update_demographics_never_revives {F : Type} (add : F → F → F) (le_ti : F → Z → bool)
    (p : Stisim.People.t F) (dt : F) (ti : Z) :
  length (Stisim.People.alive p) = length (Stisim.People.age p) →
  length (Stisim.People.ti_dead p) = length (Stisim.People.age p) →
  ∃ p', Stisim.People.update_demographics add le_ti p dt ti = Ok p' ∧
    Stisim.People.age p' =
      masked (λ a, add a dt) (Stisim.People.age p) (Stisim.People.alive p) ∧
    Stisim.People.ti_dead p' = Stisim.People.ti_dead p ∧
    length (Stisim.People.alive p') = length (Stisim.People.alive p) ∧
    (∀ (i : nat) (b : bool) (t : F),
       Stisim.People.alive p !! i = Some b → Stisim.People.ti_dead p !! i = Some t →
       Stisim.People.alive p' !! i = Some (b && negb (le_ti t ti))) ∧
    (∀ i : nat, Stisim.People.alive p' !! i = Some true →
       Stisim.People.alive p !! i = Some true) ∧
    (∀ (i : nat) (a : F),
       Stisim.People.alive p !! i = Some false → Stisim.People.age p !! i = Some a →
       Stisim.People.age p' !! i = Some a).
Proof.
  intros Hal Htd. destruct p as [age alive ti_dead].
  cbn [Stisim.People.age Stisim.People.alive Stisim.People.ti_dead] in *.
  set (due := (λ t, le_ti t ti) <$> ti_dead).
  assert (Hdue : length due = length alive) by (unfold due; rewrite length_fmap; lia).
  exists (Stisim.People.mk (masked (λ a, add a dt) age alive)
            (masked (λ _, false) alive due) ti_dead).
  cbn [Stisim.People.age Stisim.People.alive Stisim.People.ti_dead].
  assert (Hstep : ∀ (i : nat) (b : bool) (t : F), alive !! i = Some b → ti_dead !! i = Some t →
            masked (λ _, false) alive due !! i = Some (b && negb (le_ti t ti))).
  { intros i b t Hb Ht.
    rewrite (masked_lookup _ alive due i b (le_ti t ti) Hb)
      by (unfold due; by rewrite list_lookup_fmap, Ht).
    by destruct b, (le_ti t ti). }
  split; [|split; [done|split; [done|split; [by apply masked_length|split; [done|split]]]]].
  - unfold Stisim.People.update_demographics.
    cbn [Stisim.People.age Stisim.People.alive Stisim.People.ti_dead].
    rewrite getmask_select by done. cbn [bind].
    rewrite setmask_update by done. cbn [bind].
    fold due. by rewrite setmask_scalar by done.
  - intros i Hi.
    destruct (lookup_lt_is_Some_2 alive i) as [b Hb].
    { apply lookup_lt_Some in Hi. by rewrite masked_length in Hi. }
    destruct (lookup_lt_is_Some_2 ti_dead i) as [t Ht].
    { apply lookup_lt_Some in Hb. lia. }
    rewrite (Hstep i b t Hb Ht) in Hi. destruct b; [done|]. simpl in Hi. congruence.
  - intros i a Hb Ha. by rewrite (masked_lookup _ age alive i a false Ha Hb).
Qed.

Lemma update_demographics_never_revives_witness :
  ∃ p', Stisim.People.update_demographics Z.add (λ t ti, bool_decide (t ≤ ti))
          (Stisim.People.mk [30; 40; 50] [true; false; true] [99; 1; 2]) 1 2 = Ok p' ∧
        Stisim.People.age p' = [31; 40; 51] ∧
        Stisim.People.alive p' = [true; false; false].
Proof.
  destruct (update_demographics_never_revives Z.add (λ t ti, bool_decide (t ≤ ti))
              (Stisim.People.mk [30; 40; 50] [true; false; true] [99; 1; 2]) 1 2)
    as (p' & Hrun & Hage & _); [reflexivity | reflexivity |].
  exists p'. split; [exact Hrun|]. split; [exact Hage|].
  revert Hrun. vm_compute. by intros [= <-].
Defined.

(** ** Attributes that hold states *)

(** [DynamicPeople.__setattr__] protects states. A name that holds no
    [State] (a new name, or one holding another object) can be assigned
    anything, a [State] included; once a name holds a [State], every
    assignment to it raises, and no sequence of assignments, to any
    names, changes what it holds. *)
Theorem states_cannot_be_reassigned {C O : Type}
    (self : gmap string (RemovingPeople.DynamicPeople.attribute C O)) (attr : string) :
  (∀ value, (∀ s, self !! attr ≠ Some (RemovingPeople.DynamicPeople.AState s)) →
     RemovingPeople.DynamicPeople.__setattr__ self attr value = Ok (<[attr := value]> self)) ∧
  (∀ s, self !! attr = Some (RemovingPeople.DynamicPeople.AState s) →
     (∀ value, ∃ msg,
        RemovingPeople.DynamicPeople.__setattr__ self attr value = Err (Exception msg)) ∧
     (∀ ops, assignments self ops !! attr = Some (RemovingPeople.DynamicPeople.AState s))).
Proof.
  split.
  - intros value Hnot. unfold RemovingPeople.DynamicPeople.__setattr__.
    destruct (self !! attr) as [[s|o]|] eqn:Hs; [|done..]. by destruct (Hnot s).
  - intros s Hs. split.
    + intros value. unfold RemovingPeople.DynamicPeople.__setattr__. rewrite Hs. by eexists.
    + intros ops. revert self Hs. induction ops as [|[a v] ops IH]; intros self Hs; [done|].
      unfold assignments in *. cbn [foldl fst snd]. apply IH.
      unfold RemovingPeople.DynamicPeople.__setattr__.
      destruct (self !! a) as [[s'|o]|] eqn:Ha; [done|..];
        (rewrite lookup_insert_ne; [done|]; intros ->; congruence).
Qed.

Example setattr_twice :
  let uid := RemovingPeople.State.__init__ (V := Z) "uid" (RemovingPeople.State.FillScalar 0) in
  ∃ d, RemovingPeople.DynamicPeople.__setattr__ (O := Z) ∅ "uids"
         (RemovingPeople.DynamicPeople.AState uid) = Ok d ∧
       d !! "uids" = Some (RemovingPeople.DynamicPeople.AState uid) ∧
       ∃ msg, RemovingPeople.DynamicPeople.__setattr__ d "uids"
                (RemovingPeople.DynamicPeople.AOther 7) = Err (Exception msg).
Proof.
  eexists. split; [reflexivity|]. split; [by rewrite lookup_insert_eq|].
  unfold RemovingPeople.DynamicPeople.__setattr__. rewrite lookup_insert_eq. by eexists.
Qed.

(** ** Growth of [BasePeople] *)

(** [BasePeople._grow] keeps people sound and keeps what they hold: after
    [_grow(k)] every array has the allocated size again, the view of every
    state has exactly [k] entries more and starts with the former view,
    and the indices returned are the [k] positions after the former
    agents, in order. *)
Theorem BasePeople_grow_keeps_views {V : Type} (p : Stisim.BasePeople.t V) (k : nat) :
  bp_wf p →
  let p' := (Stisim.BasePeople._grow p k).1 in
  bp_wf p' ∧
  (Stisim.BasePeople._grow p k).2 =
    seqZ (Z.of_nat (Stisim.BasePeople._n p)) (Z.of_nat k) ∧
  Forall2 (λ c c',
             Stisim.BasePeople.new c' = Stisim.BasePeople.new c ∧
             length (bp_view p' c') = (Stisim.BasePeople._n p + k)%nat ∧
             take (Stisim.BasePeople._n p) (bp_view p' c') = bp_view p c)
          (Stisim.BasePeople.columns p) (Stisim.BasePeople.columns p').
Proof.
  intros [Hn Hcols] p'. subst p'. unfold Stisim.BasePeople._grow, bp_wf, bp_view.
  cbn [fst snd Stisim.BasePeople._n Stisim.BasePeople._s Stisim.BasePeople.columns].
  split; [|split].
  - case_bool_decide as Hb; cbn [fst snd].
    + split; [unfold States.int_half; lia|].
      apply Forall_fmap, Forall_forall. intros c Hc. rewrite Forall_forall in Hcols.
      destruct (Hcols c Hc) as [Hl Hnew]. cbn. rewrite length_app, Hl, Hnew. done.
    + split; [lia | done].
  - unfold Np.arange. f_equal. lia.
  - case_bool_decide as Hb; cbn [fst snd].
    + apply Forall2_fmap_r, Forall_Forall2_diag, Forall_forall. intros c Hc.
      rewrite Forall_forall in Hcols. destruct (Hcols c Hc) as [Hl Hnew].
      split; [done|]. cbn [Stisim.BasePeople.new Stisim.BasePeople.data]. split.
      * rewrite length_take_le; [done|]. rewrite length_app, Hl, Hnew.
        unfold States.int_half. lia.
      * rewrite take_take, Nat.min_l by lia. by rewrite take_app_le by lia.
    + apply Forall_Forall2_diag, Forall_forall. intros c Hc.
      rewrite Forall_forall in Hcols. destruct (Hcols c Hc) as [Hl Hnew].
      split; [done|]. split.
      * rewrite length_take_le; [done|]. lia.
      * by rewrite take_take, Nat.min_l by lia.
Qed.

Lemma BasePeople_grow_keeps_views_witness :
  let p := Stisim.BasePeople.mk
             [Stisim.BasePeople.Column (λ k, replicate k 0) [5; 6; 0; 0]] 2 4 in
  (Stisim.BasePeople._grow p 3).2 = seqZ 2 3 ∧
  Forall2 (λ c c', take 2 (bp_view (Stisim.BasePeople._grow p 3).1 c') = bp_view p c)
          (Stisim.BasePeople.columns p)
          (Stisim.BasePeople.columns (Stisim.BasePeople._grow p 3).1).
Proof.
  intros p.
  destruct (BasePeople_grow_keeps_views p 3) as (_ & Hinds & Hviews).
  - split; [simpl; lia|]. apply Forall_cons. split; [|apply Forall_nil_2].
    split; [reflexivity|]. intros k. apply length_replicate.
  - split; [exact Hinds|].
    eapply Forall2_impl; [exact Hviews|]. simpl. by intros c c' (_ & _ & Hv).
Defined.

(** ** Runs of a simulation *)
Section sim_facts.
Import Stisim.
Context {W : Type} (tick : Z → W → res W) (set_seed : W → W).
Context (initialize : Sim.t W → Sim.ran (Sim.t W)) (stop : nat → Sim.t W → bool).
Implicit Types (s : Sim.t W).

Lemma ticks_app (k1 k2 : nat) (ti : Z) (w : W) :
  ticks tick (k1 + k2) ti w =
    bind (ticks tick k1 ti w) (ticks tick k2 (ti + Z.of_nat k1)).
Proof.
  revert ti w. induction k1 as [|k1 IH]; intros ti w.
  - simpl. by rewrite Z.add_0_r.
  - cbn [Nat.add ticks]. destruct (tick ti w) as [w'|e]; cbn [bind]; [|done].
    rewrite IH. do 2 f_equal. lia.
Qed.

(** The loop of [run] when nothing asks to stop: [k] steps, which are
    [k] updates, unless one of them raises. *)
Lemma run_loop_ticks (k i : nat) s :
  (∀ j s', stop j s' = false) →
  Sim.complete s = false → Sim.ti s + Z.of_nat k ≤ Sim.npts s →
  Sim.run_loop tick stop k i (Sim.ti s + Z.of_nat k) s =
    match ticks tick k (Sim.ti s) (Sim.people s) with
    | Ok w =>
        Sim.Done (Sim.mk (Sim.ti s + Z.of_nat k) (Sim.npts s)
                    (bool_decide (k ≠ 0%nat ∧ Sim.ti s + Z.of_nat k = Sim.npts s))
                    (Sim.results_ready s) (Sim.initialized s) w, false)
    | Err e => Sim.Fail (Sim.Raised e)
    end.
Proof.
  intros Hstop. revert i s. induction k as [|k IH]; intros i s Hc Hk.
  - cbn [Sim.run_loop ticks]. destruct s. cbn in *. subst.
    rewrite Z.add_0_r, bool_decide_eq_false_2; [done|]. by intros [? _].
  - cbn [Sim.run_loop ticks]. rewrite bool_decide_eq_true_2 by lia.
    rewrite Hstop. unfold Sim.step. rewrite Hc.
    destruct (tick (Sim.ti s) (Sim.people s)) as [w|e]; cbn [bind]; [|done].
    set (s1 := Sim.mk _ _ _ _ _ w).
    assert (Hc1 : Sim.complete s1 = bool_decide (Sim.ti s + 1 = Sim.npts s))
      by (unfold s1; cbn; by case_bool_decide).
    destruct k as [|k'].
    + cbn [Sim.run_loop ticks]. unfold s1. do 2 f_equal. f_equal; try lia.
      repeat case_bool_decide; try done; lia.
    + replace (Sim.ti s + Z.of_nat (S (S k'))) with (Sim.ti s1 + Z.of_nat (S k'))
        by (unfold s1; cbn [Sim.ti]; lia).
      rewrite IH.
      * change (Sim.ti s1) with (Sim.ti s + 1). change (Sim.people s1) with w.
        destruct (ticks tick (S k') (Sim.ti s + 1) w); [|done].
        do 2 f_equal. unfold s1. cbn [Sim.npts Sim.results_ready Sim.initialized].
        f_equal; repeat case_bool_decide; try done; lia.
      * rewrite Hc1. apply bool_decide_eq_false_2. lia.
      * unfold s1. cbn [Sim.ti Sim.npts]. lia.
Qed.

(** A run of an initialized sim to [u], with nothing asking to stop. *)
Lemma run_eq s (u : Z) (until : option Z) (reset_seed : bool) :
  (∀ j s', stop j s' = false) →
  Sim.initialized s = true → Sim.complete s = false →
  default (Sim.npts s) until = u →
  Sim.ti s < u → u ≤ Sim.npts s →
  Sim.run tick set_seed initialize stop s until reset_seed =
    match ticks tick (Z.to_nat (u - Sim.ti s)) (Sim.ti s)
                (if reset_seed then set_seed (Sim.people s) else Sim.people s) with
    | Ok w =>
        let s' := Sim.mk u (Sim.npts s) (bool_decide (u = Sim.npts s))
                    (Sim.results_ready s) true w in
        if bool_decide (u = Sim.npts s) then Sim.finalize s' else Sim.Done s'
    | Err e => Sim.Fail (Sim.Raised e)
    end.
Proof.
  intros Hstop Hi0 Hc0 Hdef Hu Hun. unfold Sim.run. rewrite Hi0.
  set (s0 := if reset_seed
             then Sim.mk (Sim.ti s) (Sim.npts s) (Sim.complete s) (Sim.results_ready s)
                         (Sim.initialized s) (set_seed (Sim.people s))
             else s).
  assert (Hs0 : Sim.ti s0 = Sim.ti s ∧ Sim.npts s0 = Sim.npts s ∧
                Sim.complete s0 = false ∧ Sim.results_ready s0 = Sim.results_ready s ∧
                Sim.initialized s0 = true ∧
                Sim.people s0 = if reset_seed then set_seed (Sim.people s) else Sim.people s)
    by (unfold s0; by destruct reset_seed).
  destruct Hs0 as (Hti & Hnp & Hc & Hrr & Hin & Hw).
  cbn zeta. rewrite Hnp, Hdef, Hti, Hc.
  rewrite (bool_decide_eq_false_2 (_ < _)) by lia.
  rewrite (bool_decide_eq_false_2 (_ ≤ _)) by lia.
  set (j := Z.to_nat (u - Sim.ti s)).
  assert (Hu' : u = Sim.ti s0 + Z.of_nat j) by (unfold j; lia).
  rewrite Hu' at 1. rewrite (run_loop_ticks j 0 s0 Hstop Hc) by lia.
  rewrite Hti, Hw.
  destruct (ticks tick j (Sim.ti s) _) as [w|e]; [|done].
  cbn [Sim.complete]. rewrite Hnp, Hrr, Hin. replace (Sim.ti s + Z.of_nat j) with u by lia.
  assert (Hb : bool_decide (j ≠ 0%nat ∧ u = Sim.npts s) = bool_decide (u = Sim.npts s)).
  { apply bool_decide_ext. split; [by intros [_ ?] | intros ?; split; [lia | done]]. }
  rewrite Hb. by case_bool_decide.
Qed.
End sim_facts.

(** A simulation runs to its end once. From an initialized sim that is
    neither complete nor finalized, with time index below [npts] and
    nothing asking to stop, [run()] re-seeds the generator if
    [reset_seed] is set and performs the updates of the remaining time
    indices in order; if one raises, so does [run]; otherwise the sim is
    complete and finalized and its time index is [npts - 1], the last
    one. After that, [run] (to any [until], re-seeding or not), [step]
    and [finalize] all raise [AlreadyRunError]. *)
Theorem Sim_runs_once {W : Type} (tick : Z → W → res W) (set_seed : W → W)
    (initialize : Stisim.Sim.t W → Stisim.Sim.ran (Stisim.Sim.t W))
    (stop : nat → Stisim.Sim.t W → bool) (s : Stisim.Sim.t W) (reset_seed : bool) :
  (∀ j s', stop j s' = false) →
  Stisim.Sim.initialized s = true → Stisim.Sim.complete s = false →
  Stisim.Sim.results_ready s = false → Stisim.Sim.ti s < Stisim.Sim.npts s →
  Stisim.Sim.run tick set_seed initialize stop s None reset_seed =
    match ticks tick (Z.to_nat (Stisim.Sim.npts s - Stisim.Sim.ti s))
                (Stisim.Sim.ti s)
                (if reset_seed then set_seed (Stisim.Sim.people s)
                 else Stisim.Sim.people s) with
    | Ok w => Stisim.Sim.Done
                (Stisim.Sim.mk (Stisim.Sim.npts s - 1) (Stisim.Sim.npts s) true true true w)
    | Err e => Stisim.Sim.Fail (Stisim.Sim.Raised e)
    end ∧
  ∀ s', Stisim.Sim.run tick set_seed initialize stop s None reset_seed = Stisim.Sim.Done s' →
    (∀ until rs, ∃ msg, Stisim.Sim.run tick set_seed initialize stop s' until rs =
                          Stisim.Sim.Fail (Stisim.Sim.AlreadyRunError msg)) ∧
    (∃ msg, Stisim.Sim.step tick s' = Stisim.Sim.Fail (Stisim.Sim.AlreadyRunError msg)) ∧
    (∃ msg, Stisim.Sim.finalize s' = Stisim.Sim.Fail (Stisim.Sim.AlreadyRunError msg)).
Proof.
  intros Hstop Hinit Hc Hr Hti.
  set (k := Z.to_nat (Stisim.Sim.npts s - Stisim.Sim.ti s)).
  set (w0 := if reset_seed then set_seed (Stisim.Sim.people s) else Stisim.Sim.people s).
  assert (Hk : Stisim.Sim.npts s = Stisim.Sim.ti s + Z.of_nat k) by (unfold k; lia).
  assert (Hrun : Stisim.Sim.run tick set_seed initialize stop s None reset_seed =
            match ticks tick k (Stisim.Sim.ti s) w0 with
            | Ok w => Stisim.Sim.Done
                        (Stisim.Sim.mk (Stisim.Sim.npts s - 1) (Stisim.Sim.npts s)
                           true true true w)
            | Err e => Stisim.Sim.Fail (Stisim.Sim.Raised e)
            end).
  { rewrite (run_eq tick set_seed initialize stop s (Stisim.Sim.npts s) None reset_seed
               Hstop Hinit Hc eq_refl) by lia.
    fold w0. fold k.
    destruct (ticks tick k (Stisim.Sim.ti s) w0) as [w|e]; [|done].
    cbn zeta. rewrite bool_decide_eq_true_2 by done.
    unfold Stisim.Sim.finalize. cbn [Stisim.Sim.results_ready]. rewrite Hr.
    by cbn [Stisim.Sim.ti Stisim.Sim.npts Stisim.Sim.complete Stisim.Sim.initialized
            Stisim.Sim.people]. }
  split; [exact Hrun|]. intros s' Hs'. rewrite Hrun in Hs'.
  destruct (ticks tick k (Stisim.Sim.ti s) w0) as [w|e]; [|done].
  injection Hs' as <-. split; [|split].
  - intros u rs. unfold Stisim.Sim.run.
    cbn [Stisim.Sim.initialized Stisim.Sim.complete]. destruct rs; by eexists.
  - unfold Stisim.Sim.step. cbn [Stisim.Sim.complete]. by eexists.
  - unfold Stisim.Sim.finalize. cbn [Stisim.Sim.results_ready]. by eexists.
Qed.

(** Runs in stages. With nothing asking to stop, a run of an initialized
    sim to [k], before its end, leaves it at time index [k], neither
    complete nor finalized, after the updates of the time indices up to
    [k]. Going on to [m] without re-seeding ([reset_seed=False]) is
    running the sim to [m] at once: the same updates in the same order on
    the same draws, the same time index and flags. Going on with the
    default [reset_seed] puts the generator back first: the later
    updates start from the re-seeded generator, and draw again what the
    first stage drew. *)
Theorem Sim_runs_compose {W : Type} (tick : Z → W → res W) (set_seed : W → W)
    (initialize : Stisim.Sim.t W → Stisim.Sim.ran (Stisim.Sim.t W))
    (stop : nat → Stisim.Sim.t W → bool) (s s1 : Stisim.Sim.t W) (k m : Z)
    (reset_seed : bool) :
  (∀ j s', stop j s' = false) →
  Stisim.Sim.initialized s = true → Stisim.Sim.complete s = false →
  Stisim.Sim.ti s < k → k < m → m ≤ Stisim.Sim.npts s →
  Stisim.Sim.run tick set_seed initialize stop s (Some k) reset_seed = Stisim.Sim.Done s1 →
  Stisim.Sim.ti s1 = k ∧ Stisim.Sim.complete s1 = false ∧
  Stisim.Sim.results_ready s1 = Stisim.Sim.results_ready s ∧
  ticks tick (Z.to_nat (k - Stisim.Sim.ti s)) (Stisim.Sim.ti s)
        (if reset_seed then set_seed (Stisim.Sim.people s) else Stisim.Sim.people s) =
    Ok (Stisim.Sim.people s1) ∧
  Stisim.Sim.run tick set_seed initialize stop s1 (Some m) false =
    Stisim.Sim.run tick set_seed initialize stop s (Some m) reset_seed ∧
  Stisim.Sim.run tick set_seed initialize stop s1 (Some m) true =
    match ticks tick (Z.to_nat (m - k)) k (set_seed (Stisim.Sim.people s1)) with
    | Ok w =>
        let s' := Stisim.Sim.mk m (Stisim.Sim.npts s) (bool_decide (m = Stisim.Sim.npts s))
                    (Stisim.Sim.results_ready s) true w in
        if bool_decide (m = Stisim.Sim.npts s) then Stisim.Sim.finalize s'
        else Stisim.Sim.Done s'
    | Err e => Stisim.Sim.Fail (Stisim.Sim.Raised e)
    end.
Proof.
  intros Hstop Hinit Hc Hk Hm Hn.
  rewrite (run_eq tick set_seed initialize stop s k (Some k) reset_seed Hstop Hinit Hc eq_refl)
    by lia.
  set (w0 := if reset_seed then set_seed (Stisim.Sim.people s) else Stisim.Sim.people s).
  destruct (ticks tick (Z.to_nat (k - Stisim.Sim.ti s)) (Stisim.Sim.ti s) w0)
    as [w|e] eqn:Hw; [|done].
  cbn zeta. rewrite bool_decide_eq_false_2 by lia. intros [= <-].
  set (s1 := Stisim.Sim.mk k (Stisim.Sim.npts s) false (Stisim.Sim.results_ready s) true w).
  assert (H1 : Stisim.Sim.initialized s1 = true) by done.
  assert (H2 : Stisim.Sim.complete s1 = false) by done.
  assert (H3 : default (Stisim.Sim.npts s1) (Some m) = m) by done.
  cbn [Stisim.Sim.ti Stisim.Sim.complete Stisim.Sim.results_ready Stisim.Sim.people s1].
  split; [done|]. split; [done|]. split; [done|]. split; [done|]. split.
  - rewrite (run_eq tick set_seed initialize stop s m (Some m) reset_seed Hstop Hinit Hc eq_refl)
      by lia.
    rewrite (run_eq tick set_seed initialize stop s1 m (Some m) false Hstop H1 H2 H3)
      by (cbn; lia).
    cbn [Stisim.Sim.ti Stisim.Sim.npts Stisim.Sim.people Stisim.Sim.results_ready s1].
    fold w0.
    replace (Z.to_nat (m - Stisim.Sim.ti s))
      with (Z.to_nat (k - Stisim.Sim.ti s) + Z.to_nat (m - k))%nat by lia.
    rewrite ticks_app, Hw. cbn [bind].
    by replace (Stisim.Sim.ti s + Z.of_nat (Z.to_nat (k - Stisim.Sim.ti s))) with k by lia.
  - by rewrite (run_eq tick set_seed initialize stop s1 m (Some m) true Hstop H1 H2 H3)
      by (cbn; lia).
Qed.

Lemma Sim_runs_once_witness :
  Stisim.Sim.run drawing_tick reseed Stisim.Sim.Done never_stop drawing_sim None true =
    Stisim.Sim.Done (Stisim.Sim.mk 2 3 true true true (6, 4)) ∧
  ∃ msg, Stisim.Sim.run drawing_tick reseed Stisim.Sim.Done never_stop
           (Stisim.Sim.mk 2 3 true true true (6, 4)) None true =
         Stisim.Sim.Fail (Stisim.Sim.AlreadyRunError msg).
Proof.
  destruct (Sim_runs_once drawing_tick reseed Stisim.Sim.Done never_stop drawing_sim true)
    as [Hrun Hafter]; [done | reflexivity | reflexivity | reflexivity | simpl; lia |].
  split; [exact Hrun|].
  destruct (Hafter _ Hrun) as (Hagain & _). exact (Hagain None true).
Defined.

Lemma Sim_runs_compose_witness :
  Stisim.Sim.run drawing_tick reseed Stisim.Sim.Done never_stop
    (Stisim.Sim.mk 1 3 false false true (1, 2)) (Some 3) false =
  Stisim.Sim.run drawing_tick reseed Stisim.Sim.Done never_stop drawing_sim (Some 3) true ∧
  Stisim.Sim.run drawing_tick reseed Stisim.Sim.Done never_stop drawing_sim (Some 3) true =
    Stisim.Sim.Done (Stisim.Sim.mk 2 3 true true true (6, 4)) ∧
  Stisim.Sim.run drawing_tick reseed Stisim.Sim.Done never_stop
    (Stisim.Sim.mk 1 3 false false true (1, 2)) (Some 3) true =
    Stisim.Sim.Done (Stisim.Sim.mk 2 3 true true true (4, 3)).
Proof.
  destruct (Sim_runs_compose drawing_tick reseed Stisim.Sim.Done never_stop drawing_sim
              (Stisim.Sim.mk 1 3 false false true (1, 2)) 1 3 true)
    as (_ & _ & _ & _ & Hsame & Hreseeded);
    [done | reflexivity | reflexivity | simpl; lia | lia | simpl; lia | reflexivity |].
  split; [exact Hsame|]. split; [reflexivity|]. exact Hreseeded.
Defined.

(** ** Removing nobody *)

(** A removal that names no live identifier (the empty request, or
    identifiers that were removed before or never issued) succeeds and
    leaves the population exactly as it is: the identity map, the
    identifiers, every state and every buffer. This holds of a consistent
    population whose identity map flags the identifiers that are not
    alive, as [initialize] and [remove] leave it. *)
Theorem remove_nobody_changes_nothing {C V I : Type} `{!RemovingPeople.DynamicState C V I}
    `{!DynamicStateLaws C V I} (p : RemovingPeople.DynamicPeople.t C) (S : list Z) :
  consistent p → flagged p →
  (∀ u, u ∈ S → u ∉ RemovingPeople.DynamicPeople.live p) →
  RemovingPeople.DynamicPeople.remove p S = Ok p.
Proof.
  intros Hc Hf Hnone.
  pose proof (consistent_NoDup p Hc) as Hnd.
  pose proof (consistent_len p Hc) as Hlen.
  destruct (remove_run p S Hc) as (keep & sts' & HFkeep & Hsts & _ & ->).
  assert (Hrem : filter (λ u, u ∉ S) (RemovingPeople.DynamicPeople.live p) =
                 RemovingPeople.DynamicPeople.live p).
  { apply filter_all, Forall_forall. intros u Hu Hin. by apply (Hnone u). }
  rewrite Hrem in *.
  assert (Hkeep : keep = Np.arange 0 (Z.of_nat (RemovingPeople.DynamicPeople.__len__ p))).
  { rewrite <- Hlen, arange_0. apply list_eq_same_length with (length keep).
    - apply Forall2_length in HFkeep. rewrite length_seqZ. lia.
    - done.
    - intros m x y Hm Hx Hy. apply lookup_seqZ in Hy as [-> _].
      destruct (Forall2_lookup_r _ _ _ _ _ HFkeep Hx) as (u & Hu & j & -> & Hj).
      assert (j = m) as -> by apply (NoDup_lookup _ j m u Hnd Hj Hu). lia. }
  pose proof Hc as (Hum & Hus & Hcols & Hlink).
  assert (Hsts' : sts' = RemovingPeople.DynamicPeople._dynamic_states p).
  { rewrite mapR_id in Hsts; [by injection Hsts|].
    eapply Forall_impl; [exact Hcols|]. intros c [Hwf Hl]. simpl.
    rewrite Hkeep, <- Hl. by apply col_trim_all. }
  assert (Hlive_in : Forall (λ u, 0 ≤ u < Z.of_nat (RemovingPeople.State.n
                               (RemovingPeople.DynamicPeople._uid_map p)))
                       (RemovingPeople.DynamicPeople.live p)).
  { apply Forall_forall. intros u Hu.
    destruct (live_lookup p u Hc Hu) as (_ & _ & ? & _ & _ & ?). lia. }
  assert (Hmap : Np.assign
            (replicate (RemovingPeople.State.n (RemovingPeople.DynamicPeople._uid_map p))
                       Np.INT_NAN)
            (Z.to_nat <$> RemovingPeople.DynamicPeople.live p)
            (Np.arange 0 (Z.of_nat (length (RemovingPeople.DynamicPeople.live p)))) =
          RemovingPeople.State.values (RemovingPeople.DynamicPeople._uid_map p)).
  { apply list_eq_same_length
      with (RemovingPeople.State.n (RemovingPeople.DynamicPeople._uid_map p)).
    - by apply State_values_length.
    - by rewrite assign_length, length_replicate.
    - intros i x y Hi Hx Hy.
      destruct (decide (Z.of_nat i ∈ RemovingPeople.DynamicPeople.live p)) as [Hin|Hout].
      + apply list_elem_of_lookup_1 in Hin as [j Hj].
        destruct (Hlink j _ Hj) as [_ Hpos]. rewrite Nat2Z.id in Hpos.
        pose proof (flag_map_lookup _ _ j _ Hnd Hlive_in Hj) as Hnew.
        rewrite Nat2Z.id in Hnew. unfold Np.full in Hnew. congruence.
      + pose proof (Hf (Z.of_nat i)) as Hflag.
        rewrite Nat2Z.id in Hflag. rewrite Hflag in Hy;
          [|unfold issued, RemovingPeople.State.__len__; lia | done].
        pose proof (flag_map_lookup_notin
                      (RemovingPeople.State.n (RemovingPeople.DynamicPeople._uid_map p))
                      (RemovingPeople.DynamicPeople.live p)
                      (Np.arange 0 (Z.of_nat (length (RemovingPeople.DynamicPeople.live p))))
                      (Z.of_nat i)) as Hnew.
        rewrite Nat2Z.id in Hnew. unfold Np.full in Hnew. rewrite Hnew in Hx; [congruence|..].
        * eapply Forall_impl; [exact Hlive_in|]. simpl. intros; lia.
        * lia.
        * done. }
  rewrite Hmap, Hsts'. f_equal.
  destruct p as [um us sts0 sts]. cbn [RemovingPeople.DynamicPeople._uid_map
    RemovingPeople.DynamicPeople.uids RemovingPeople.DynamicPeople._dynamic_states
    RemovingPeople.DynamicPeople.states RemovingPeople.DynamicPeople.live] in *. f_equal.
  - unfold RemovingPeople.State.store, RemovingPeople.State.values.
    destruct um as [nm fv n data]. simpl. by rewrite take_drop.
  - unfold RemovingPeople.DynamicPeople.live, RemovingPeople.State.values, st_wf in *.
    destruct us as [nm fv n data]. simpl in *.
    rewrite length_take_le by done. by rewrite take_drop.
Qed.

Lemma remove_nobody_changes_nothing_witness :
  RemovingPeople.DynamicPeople.remove proto_reduced [1; 3; 9] = Ok proto_reduced.
Proof.
  apply (remove_nobody_changes_nothing proto_reduced [1; 3; 9]
           proto_reduced_consistent proto_reduced_flagged).
  change (RemovingPeople.DynamicPeople.live proto_reduced) with [0; 2; 4].
  intros u Hu Hin.
  repeat (apply elem_of_cons in Hu as [->|Hu]); try (by apply elem_of_nil in Hu);
    repeat (apply elem_of_cons in Hin as [Hin|Hin]); try done;
    by apply elem_of_nil in Hin.
Defined.

(** ** Growth by nobody, with the states of removing_people.py *)

Lemma State_store_own_values {A : Type} (s : RemovingPeople.State.t A) :
  RemovingPeople.State.store s (RemovingPeople.State.values s) = s.
Proof.
  destruct s as [nm fv n data]. unfold RemovingPeople.State.store, RemovingPeople.State.values.
  simpl. by rewrite take_drop.
Qed.

Lemma proto_State_grow_nobody {A : Type} (s : RemovingPeople.State.t A) :
  st_wf s → RemovingPeople.State.grow s 0 = Ok s.
Proof.
  intros Hwf. unfold RemovingPeople.State.grow, RemovingPeople.State._s, st_wf in *.
  rewrite bool_decide_eq_false_2 by lia. cbn [bind]. destruct s. simpl.
  by rewrite Nat.add_0_r.
Qed.

(** With the states of removing_people.py, [grow(0)] issues no identifier
    and leaves a consistent population exactly as it is. *)
Theorem grow_by_zero_changes_nothing {V : Type}
    (p : RemovingPeople.DynamicPeople.t (RemovingPeople.State.t V)) :
  consistent p →
  RemovingPeople.DynamicPeople.new_uids p 0 = [] ∧
  RemovingPeople.DynamicPeople.grow p 0 = Ok p.
Proof.
  intros Hc. destruct Hc as (Hum & Hus & Hcols & _).
  assert (Hnew : RemovingPeople.DynamicPeople.new_uids p 0 = []).
  { unfold RemovingPeople.DynamicPeople.new_uids, Np.arange.
    by replace (_ + Z.of_nat 0 - _) with 0 by lia. }
  split; [done|]. unfold RemovingPeople.DynamicPeople.grow. rewrite Hnew.
  replace (Np.arange _ (_ + Z.of_nat 0)) with (@nil Z)
    by (unfold Np.arange; by replace (_ + Z.of_nat 0 - _) with 0 by lia).
  rewrite !proto_State_grow_nobody by done. cbn [bind].
  unfold RemovingPeople.State.__setitem__. cbn [Np.set Np.get Np.as_key bind].
  change (Np.setitems ?a [] (Np.Array [])) with (Ok a).
  change (Np.getitems ?a []) with (@Ok (list Z) []). cbn [bind Np.as_key Np.set].
  change (Np.setitems ?a [] (Np.Array [])) with (Ok a). cbn [bind].
  rewrite !State_store_own_values.
  rewrite mapR_id; [by destruct p|].
  eapply Forall_impl; [exact Hcols|]. simpl. intros c [Hwf _].
  by apply proto_State_grow_nobody.
Qed.

Lemma grow_by_zero_changes_nothing_witness :
  RemovingPeople.DynamicPeople.grow proto_scenario 0 = Ok proto_scenario.
Proof.
  apply (grow_by_zero_changes_nothing proto_scenario proto_scenario_consistent).
Defined.

(** ** Stores into the state of a population *)

(** A store through a dynamic state is what later gets see. In a
    consistent population, [state[u] = x] for a live identifier [u]
    raises nothing; afterwards [state[u]] is [x], every other live
    identifier reads in that state what it read before, and the other
    states, the identifiers and the identity map are untouched. *)
Theorem store_then_read {C V I : Type} `{!RemovingPeople.DynamicState C V I}
    `{!DynamicStateLaws C V I} (p : RemovingPeople.DynamicPeople.t C)
    (i : nat) (c : C) (u : Z) (x : V) :
  consistent p →
  RemovingPeople.DynamicPeople._dynamic_states p !! i = Some c →
  u ∈ RemovingPeople.DynamicPeople.live p →
  let p' := RemovingPeople.DynamicPeople.setitem p i c (Np.KInt u) (Np.Scalar x) in
  (RemovingPeople.col_setitem
     (RemovingPeople.State.values (RemovingPeople.DynamicPeople._uid_map p))
     (RemovingPeople.State.values (RemovingPeople.DynamicPeople.uids p))
     c (Np.KInt u) (Np.Scalar x)).2 = None ∧
  RemovingPeople.DynamicPeople.live p' = RemovingPeople.DynamicPeople.live p ∧
  RemovingPeople.DynamicPeople._uid_map p' = RemovingPeople.DynamicPeople._uid_map p ∧
  (∀ j, j ≠ i → RemovingPeople.DynamicPeople._dynamic_states p' !! j =
                RemovingPeople.DynamicPeople._dynamic_states p !! j) ∧
  ∃ c', RemovingPeople.DynamicPeople._dynamic_states p' !! i = Some c' ∧
        RemovingPeople.DynamicPeople.getitem p' c' (Np.KInt u) =
          Ok (RemovingPeople.col_item x) ∧
        ∀ w, w ∈ RemovingPeople.DynamicPeople.live p → w ≠ u →
          RemovingPeople.DynamicPeople.getitem p' c' (Np.KInt w) =
          RemovingPeople.DynamicPeople.getitem p c (Np.KInt w).
Proof.
  intros Hc Hi Hu p'.
  pose proof Hc as (_ & _ & Hcols & _).
  destruct (proj1 (Forall_forall _ _) Hcols c (list_elem_of_lookup_2 _ _ _ Hi)) as [Hwf Hlen].
  destruct (live_lookup p u Hc Hu) as (j & Hj & Hu0 & Hmap & Hjlt & _).
  set (um := RemovingPeople.State.values (RemovingPeople.DynamicPeople._uid_map p)) in *.
  set (us := RemovingPeople.State.values (RemovingPeople.DynamicPeople.uids p)) in *.
  destruct (col_setitem_placed um us c u j x Hwf Hu0 Hmap) as [Hnone Hvals]; [lia|].
  set (c' := (RemovingPeople.col_setitem um us c (Np.KInt u) (Np.Scalar x)).1) in *.
  split; [done|]. split; [done|]. split; [done|]. split.
  - intros k Hk. unfold p', RemovingPeople.DynamicPeople.setitem.
    cbn [RemovingPeople.DynamicPeople._dynamic_states].
    by rewrite list_lookup_insert_ne.
  - exists c'. split; [|split].
    + unfold p', RemovingPeople.DynamicPeople.setitem.
      cbn [RemovingPeople.DynamicPeople._dynamic_states].
      apply list_lookup_insert_eq. by eapply lookup_lt_Some.
    + apply (col_getitem_placed um us c' u j x Hu0 Hmap).
      rewrite Hvals. apply list_lookup_insert_eq. lia.
    + intros w Hw Hne.
      destruct (live_lookup p w Hc Hw) as (k & Hk & Hw0 & Hwmap & Hklt & _).
      assert (Hkj : k ≠ j).
      { intros ->. apply Hne. unfold RemovingPeople.DynamicPeople.live in Hj, Hk.
        rewrite Hj in Hk. by injection Hk. }
      destruct (lookup_lt_is_Some_2 (RemovingPeople.col_values c) k) as [v Hv]; [lia|].
      unfold RemovingPeople.DynamicPeople.getitem.
      change (RemovingPeople.State.values (RemovingPeople.DynamicPeople._uid_map p'))
        with um.
      change (RemovingPeople.State.values (RemovingPeople.DynamicPeople.uids p')) with us.
      rewrite (col_getitem_placed um us c' w k v Hw0 Hwmap).
      * symmetry. exact (col_getitem_placed um us c w k v Hw0 Hwmap Hv).
      * rewrite Hvals. by rewrite list_lookup_insert_ne.
Qed.

Lemma store_then_read_witness :
  ∃ c', RemovingPeople.DynamicPeople._dynamic_states
          (RemovingPeople.DynamicPeople.setitem proto_scenario 0 (y_of proto_scenario)
             (Np.KInt 1) (Np.Scalar 7)) !! 0%nat = Some c' ∧
        RemovingPeople.DynamicPeople.getitem
          (RemovingPeople.DynamicPeople.setitem proto_scenario 0 (y_of proto_scenario)
             (Np.KInt 1) (Np.Scalar 7)) c' (Np.KInt 1) = Ok (Np.Scalar 7) ∧
        RemovingPeople.State.values c' = [10; 7; 30].
Proof.
  destruct (store_then_read proto_scenario 0 (y_of proto_scenario) 1 7
              proto_scenario_consistent)
    as (_ & _ & _ & _ & c' & Hc' & Hread & _).
  - reflexivity.
  - by apply (list_elem_of_lookup_2 _ 1%nat).
  - exists c'. split; [exact Hc'|]. split; [exact Hread|].
    revert Hc'. vm_compute. by intros [= <-].
Defined.

(** ** Births taken back *)

Lemma filter_none {X} (P : X → Prop) `{!∀ x, Decision (P x)} (l : list X) :
  Forall (λ x, ¬ P x) l → filter P l = [].
Proof.
  induction 1 as [|x l Hx _ IH]; [done|]. by rewrite filter_cons_False.
Qed.

(** Births that are taken back leave no trace in the values. Growing a
    consistent population by [n] agents and then removing exactly the
    agents born gives back the live identifiers in their order, the
    count, and the values of every dynamic state; the identifiers of the
    agents born stay issued and are not alive. *)
Theorem birth_then_removal_restores {C V I : Type} `{!RemovingPeople.DynamicState C V I}
    `{!DynamicStateLaws C V I} (p p1 p2 : RemovingPeople.DynamicPeople.t C) (n : nat) :
  consistent p →
  RemovingPeople.DynamicPeople.grow p n = Ok p1 →
  RemovingPeople.DynamicPeople.remove p1 (RemovingPeople.DynamicPeople.new_uids p n) = Ok p2 →
  RemovingPeople.DynamicPeople.live p2 = RemovingPeople.DynamicPeople.live p ∧
  RemovingPeople.DynamicPeople.__len__ p2 = RemovingPeople.DynamicPeople.__len__ p ∧
  Forall2 (λ c c2, RemovingPeople.col_values c2 = RemovingPeople.col_values c)
          (RemovingPeople.DynamicPeople._dynamic_states p)
          (RemovingPeople.DynamicPeople._dynamic_states p2) ∧
  ∀ u, u ∈ RemovingPeople.DynamicPeople.new_uids p n →
       issued p2 u ∧ u ∉ RemovingPeople.DynamicPeople.live p2.
Proof.
  intros Hc Hgrow Hrem.
  pose proof (consistent_grow p n p1 Hc Hgrow) as Hc1.
  destruct (grow_run p n p1 Hc Hgrow) as (_ & Hlive1 & _ & _ & _ & Hsts1 & _).
  pose proof (grow_extends_map p n p1 Hc Hgrow) as Hsize1.
  apply mapR_Ok in Hsts1.
  destruct (remove_spec p1 _ p2 Hc1 Hrem) as (Hc2 & Hlive2 & _ & Hvals2).
  pose proof (remove_keeps_map_size p1 _ p2 Hc1 Hrem) as Hsize2.
  assert (Hnew : ∀ u, u ∈ RemovingPeople.DynamicPeople.new_uids p n ↔
            Z.of_nat (RemovingPeople.State.__len__ (RemovingPeople.DynamicPeople._uid_map p)) ≤ u
            < Z.of_nat (RemovingPeople.State.__len__ (RemovingPeople.DynamicPeople._uid_map p))
              + Z.of_nat n).
  { intros u. unfold RemovingPeople.DynamicPeople.new_uids. rewrite arange_seqZ.
    apply elem_of_seqZ. }
  assert (Hlive : RemovingPeople.DynamicPeople.live p2 = RemovingPeople.DynamicPeople.live p).
  { rewrite Hlive2, Hlive1, filter_app.
    rewrite (filter_all _ (RemovingPeople.DynamicPeople.live p)).
    - rewrite (filter_none _ (RemovingPeople.DynamicPeople.new_uids p n));
        [by rewrite app_nil_r|].
      apply Forall_forall. by intros u Hu Hnot.
    - apply Forall_forall. intros u Hu Hin. apply Hnew in Hin.
      pose proof (live_issued p u Hc Hu) as Hi. unfold issued in Hi. lia. }
  assert (Hlen : RemovingPeople.DynamicPeople.__len__ p2 = RemovingPeople.DynamicPeople.__len__ p)
    by (rewrite <- (consistent_len p2 Hc2), <- (consistent_len p Hc); by rewrite Hlive).
  split; [done|]. split; [done|]. split.
  - apply Forall2_same_length_lookup. split.
    { apply Forall2_length in Hsts1, Hvals2. congruence. }
    intros m c c2 Hm Hm2.
    destruct (lookup_lt_is_Some_2 (RemovingPeople.DynamicPeople._dynamic_states p1) m)
      as [c1 Hm1].
    { apply Forall2_length in Hsts1. rewrite <- Hsts1. by eapply lookup_lt_Some. }
    pose proof (Forall2_lookup_lr _ _ _ _ _ _ Hsts1 Hm Hm1) as Hg1.
    pose proof (Forall2_lookup_lr _ _ _ _ _ _ Hvals2 Hm1 Hm2) as Hv2. cbn in Hv2.
    pose proof Hc as (_ & _ & Hcols & _). destruct Hc2 as (_ & _ & Hcols2 & _).
    destruct (proj1 (Forall_forall _ _) Hcols c (list_elem_of_lookup_2 _ _ _ Hm)) as [Hwf Hl].
    destruct (proj1 (Forall_forall _ _) Hcols2 c2 (list_elem_of_lookup_2 _ _ _ Hm2)) as [_ Hl2].
    destruct (col_grow_spec n c c1 Hwf Hg1) as (_ & _ & Hv1).
    apply list_eq_same_length with (RemovingPeople.DynamicPeople.__len__ p); [done | lia |].
    intros k x y Hk Hx Hy.
    destruct (lookup_lt_is_Some_2 (RemovingPeople.DynamicPeople.live p) k) as [u Hu].
    { by rewrite (consistent_len p). }
    rewrite (Hv2 k k u) in Hx.
    + rewrite <- Hv1 in Hy. apply lookup_take_Some in Hy as [Hy _]. congruence.
    + by rewrite Hlive.
    + rewrite Hlive1. by apply lookup_app_l_Some.
  - intros u Hu. apply Hnew in Hu as Hr. split.
    + unfold issued. rewrite Hsize2, Hsize1. lia.
    + rewrite Hlive. intros Hin.
      pose proof (live_issued p u Hc Hin) as Hi.
      unfold issued in Hi. lia.
Qed.

Lemma birth_then_removal_restores_witness :
  ∃ p2, RemovingPeople.DynamicPeople.remove proto_grown [3; 4] = Ok p2 ∧
        RemovingPeople.DynamicPeople.live p2 = RemovingPeople.DynamicPeople.live proto_scenario ∧
        Forall2 (λ c c2, RemovingPeople.col_values c2 = RemovingPeople.col_values c)
                (RemovingPeople.DynamicPeople._dynamic_states proto_scenario)
                (RemovingPeople.DynamicPeople._dynamic_states p2).
Proof.
  assert (Hg : RemovingPeople.DynamicPeople.grow proto_scenario 2 = Ok proto_grown)
    by (vm_compute; reflexivity).
  assert (Hr : ∃ p2, RemovingPeople.DynamicPeople.remove proto_grown
                       (RemovingPeople.DynamicPeople.new_uids proto_scenario 2) = Ok p2)
    by (eexists; vm_compute; reflexivity).
  destruct Hr as [p2 Hr].
  destruct (birth_then_removal_restores proto_scenario proto_grown p2 2
              proto_scenario_consistent Hg Hr)
    as (Hlive & _ & Hvals & _).
  exists p2. split; [exact Hr|]. split; [exact Hlive | exact Hvals].
Defined.

(** ** Stores into the [State] of removing_people.py *)

Lemma getitem_insert_ne {A : Type} (a : list A) (j k : nat) (x : A) :
  k ≠ j → Np.getitem (<[j := x]> a) (Z.of_nat k) = Np.getitem a (Z.of_nat k).
Proof.
  intros Hne. unfold Np.getitem. rewrite length_insert.
  destruct (Np.index (length a) (Z.of_nat k)) as [q|e] eqn:Hq; cbn [bind]; [|done].
  apply index_nonneg in Hq as [-> _]; [|lia].
  rewrite Nat2Z.id. by rewrite list_lookup_insert_ne.
Qed.

(** The [State] of removing_people.py reads back what is stored by
    identifier. When the identity map places [u] at a position in use,
    [s[u] = x] raises nothing and changes neither the count nor the
    entries beyond the agents in use; afterwards [s[u]] is [x], and an
    identifier that the map sends elsewhere reads (or raises) what it did
    before. *)
Theorem proto_store_then_read {V : Type} (s : RemovingPeople.State.t V)
    (um : list Z) (u : Z) (j : nat) (x : V) :
  st_wf s → 0 ≤ u → um !! Z.to_nat u = Some (Z.of_nat j) →
  (j < RemovingPeople.State.n s)%nat →
  ∃ s', RemovingPeople.State.__setitem__ (Some um) s (Np.KInt u) (Np.Scalar x) = Ok s' ∧
        RemovingPeople.State.values s' = <[j := x]> (RemovingPeople.State.values s) ∧
        RemovingPeople.State.n s' = RemovingPeople.State.n s ∧
        drop (RemovingPeople.State.n s) (RemovingPeople.State._data s') =
          drop (RemovingPeople.State.n s) (RemovingPeople.State._data s) ∧
        RemovingPeople.State.__getitem__ (Some um) s' (Np.KInt u) = Ok (Np.Scalar x) ∧
        ∀ (w : Z) (k : nat), 0 ≤ w → um !! Z.to_nat w = Some (Z.of_nat k) → k ≠ j →
          RemovingPeople.State.__getitem__ (Some um) s' (Np.KInt w) =
          RemovingPeople.State.__getitem__ (Some um) s (Np.KInt w).
Proof.
  intros Hwf Hu Hmap Hj.
  pose proof (State_values_length s Hwf) as Hlen.
  set (vals' := <[j := x]> (RemovingPeople.State.values s)).
  assert (Hl' : length vals' = RemovingPeople.State.n s)
    by (unfold vals'; by rewrite length_insert).
  destruct (State_store_values s vals' Hl') as [Hvals' _].
  exists (RemovingPeople.State.store s vals'). split; [|split; [done|split; [done|split; [|split]]]].
  - unfold RemovingPeople.State.__setitem__. cbn [Np.get].
    rewrite (getitem_Ok um u _ Hu Hmap). cbn [bind Np.as_key Np.set].
    rewrite setitem_Scalar_Ok by lia. cbn [bind]. by rewrite Nat2Z.id.
  - unfold RemovingPeople.State.store. cbn [RemovingPeople.State._data].
    rewrite drop_app_length'; [done | lia].
  - unfold RemovingPeople.State.__getitem__. cbn [Np.get].
    rewrite (getitem_Ok um u _ Hu Hmap). cbn [bind Np.as_key Np.get].
    rewrite Hvals'. rewrite (getitem_Ok vals' (Z.of_nat j) x); [done | lia |].
    rewrite Nat2Z.id. apply list_lookup_insert_eq. lia.
  - intros w k Hw Hwk Hne. unfold RemovingPeople.State.__getitem__. cbn [Np.get].
    rewrite (getitem_Ok um w _ Hw Hwk). cbn [bind Np.as_key Np.get].
    rewrite Hvals'. unfold vals'. by rewrite getitem_insert_ne.
Qed.

Lemma proto_store_then_read_witness :
  ∃ s', RemovingPeople.State.__setitem__ (Some [0; 1; 2]) (y_of proto_scenario)
          (Np.KInt 1) (Np.Scalar 7) = Ok s' ∧
        RemovingPeople.State.values s' = [10; 7; 30] ∧
        RemovingPeople.State.__getitem__ (Some [0; 1; 2]) s' (Np.KInt 1) = Ok (Np.Scalar 7).
Proof.
  destruct (proto_store_then_read (y_of proto_scenario) [0; 1; 2] 1 1 7)
    as (s' & Hset & Hvals & _ & _ & Hget & _).
  - unfold st_wf. simpl. lia.
  - lia.
  - reflexivity.
  - simpl. lia.
  - exists s'. split; [exact Hset|]. split; [exact Hvals | exact Hget].
Defined.

(** ** Stores through the full slice *)

(** [c[:] = x] stores [x] in every value of the column and [c[:] = vs],
    for as many values as the column holds, replaces them; neither
    raises nor touches the identifiers or the identity map, and [c[:]]
    then returns the column so written. *)
Theorem full_slice_set {V : Type} (c : States.FusedArray.t V) :
  (∀ x, States.FusedArray.__setitem__ c (Np.KSlice Np.full_slice) (Np.Scalar x) =
          (States.FusedArray.mk (replicate (length (States.FusedArray.values c)) x)
             (States.FusedArray.uid c) (States.FusedArray._uid_map c), None)) ∧
  (∀ vs, length vs = length (States.FusedArray.values c) →
     States.FusedArray.__setitem__ c (Np.KSlice Np.full_slice) (Np.Array vs) =
       (States.FusedArray.mk vs (States.FusedArray.uid c) (States.FusedArray._uid_map c),
        None)) ∧
  (∀ v, let c' := (States.FusedArray.__setitem__ c (Np.KSlice Np.full_slice) v).1 in
        States.FusedArray.__getitem__ c' (Np.KSlice Np.full_slice) =
          Ok (States.FusedArray.Fused c')).
Proof.
  split; [|split].
  - intros x. unfold States.FusedArray.__setitem__. cbn [Np.full_slice Np.start Np.stop Np.step].
    change (Np.Slice None None None) with Np.full_slice.
    by rewrite setslice_full_Scalar.
  - intros vs Hlen. unfold States.FusedArray.__setitem__.
    cbn [Np.full_slice Np.start Np.stop Np.step].
    change (Np.Slice None None None) with Np.full_slice.
    by rewrite setslice_full_Array.
  - done.
Qed.
